(** * claude-learning-assistant: the cache, the budget tracker, the
    conversation history and the request pipeline

    A shallow embedding of [config.js], [src/core/cache-manager.js],
    [src/core/token-tracker.js], [src/core/conversation-manager.js],
    [src/services/clever-assistant.js], and of the assistant and the chat
    routes of [src/server/server.js] and [src/server/routes/chat.js].

    Conventions.
    - Every method becomes a function from the object's state to a result and
      the new state.  [Date.now()] is an argument [now] of the operation that
      reads it (milliseconds, an integer).
    - A JavaScript [Map] keeps its entries in insertion order and
      [CacheManager.save] / [CacheManager.load] depend on that order, so a
      [Map] is an association list ([JsMap]).
    - Logging ([logger.info] and friends) has no effect on the state that is
      modelled and is left out. *)

From Stdlib Require Import List ZArith String Ascii Bool Lia.
From Stdlib Require Import DecimalString DecimalPos DecimalZ.
From Stdlib Require Import PrimFloat Floats.
From Stdlib Require Import Sorted.
Import ListNotations.

Set Warnings "-inexact-float".

Local Open Scope string_scope.
Local Open Scope list_scope.
Local Open Scope Z_scope.

(** ** JavaScript helpers *)

Module JS.

(** [x || d] on a number that may be missing: [undefined], [null] and [0]
    are falsy. *)
Definition num_or (x : option Z) (d : Z) : Z :=
  match x with
  | Some n => if n =? 0 then d else n
  | None => d
  end.

(** [x || d] on a string that may be missing: the empty string is falsy. *)
Definition str_or (x : option string) (d : string) : string :=
  match x with
  | Some "" => d
  | Some s => s
  | None => d
  end.

(** A value that may be [undefined] or [null]. *)
Inductive maybe (A : Type) : Type :=
| Undefined
| Null
| Val (a : A).

Arguments Undefined {A}.
Arguments Null {A}.
Arguments Val {A} a.

(** A number that the program only stores, hands on and prints (the sampling
    temperature): it is kept as the text [Number.prototype.toString] gives
    for it, which is the text [JSON.stringify] emits for a finite number
    ([NaN] and the infinities are written [null], see [Json.of_number]). *)
Definition NumberText := string.

(** The names of the properties that every object literal inherits from
    [Object.prototype]: reading one of them from a table written as an
    object literal gives a value that is not [undefined], although the
    table has no such row. *)
Definition inherited_names : list string :=
  [ "constructor"; "__defineGetter__"; "__defineSetter__"; "hasOwnProperty";
    "__lookupGetter__"; "__lookupSetter__"; "isPrototypeOf";
    "propertyIsEnumerable"; "toString"; "valueOf"; "__proto__";
    "toLocaleString" ].

Definition inherited (name : string) : bool :=
  existsb (String.eqb name) inherited_names.

(** How a call ends: with a value, or with an exception that reaches the
    caller. *)
Inductive completion (A : Type) : Type :=
| Return (a : A)
| Throw (message : string).

Arguments Return {A} a.
Arguments Throw {A} message.

(** Truthiness of a string value. *)
Definition truthy (s : string) : bool :=
  match s with
  | "" => false
  | _ => true
  end.

End JS.

(** ** SHA-256 ([crypto.createHash('sha256')], FIPS 180-4)

    Words are integers in [0, 2^32); a message is the list of the bytes of a
    string. *)

Module Sha256.

Definition w32 (x : Z) : Z := x mod 4294967296.

Definition add32 (x y : Z) : Z := w32 (x + y).

Definition rotr (n x : Z) : Z :=
  Z.lor (Z.shiftr x n) (w32 (Z.shiftl x (32 - n))).

Definition shr (n x : Z) : Z := Z.shiftr x n.

Definition not32 (x : Z) : Z := Z.lxor x 4294967295.

Definition Ch (x y z : Z) : Z :=
  Z.lxor (Z.land x y) (Z.land (not32 x) z).

Definition Maj (x y z : Z) : Z :=
  Z.lxor (Z.lxor (Z.land x y) (Z.land x z)) (Z.land y z).

Definition bigSigma0 (x : Z) : Z :=
  Z.lxor (Z.lxor (rotr 2 x) (rotr 13 x)) (rotr 22 x).

Definition bigSigma1 (x : Z) : Z :=
  Z.lxor (Z.lxor (rotr 6 x) (rotr 11 x)) (rotr 25 x).

Definition smallSigma0 (x : Z) : Z :=
  Z.lxor (Z.lxor (rotr 7 x) (rotr 18 x)) (shr 3 x).

Definition smallSigma1 (x : Z) : Z :=
  Z.lxor (Z.lxor (rotr 17 x) (rotr 19 x)) (shr 10 x).

(** The constants of FIPS 180-4 are the first 32 bits of the fractional
    parts of roots of the first primes: cube roots of the first 64 primes for
    [K], square roots of the first 8 primes for [H0]. *)
Definition is_prime (n : Z) : bool :=
  forallb (fun d => negb (n mod Z.of_nat d =? 0)) (seq 2 (Z.to_nat n - 2)).

Definition primes (count : nat) : list Z :=
  firstn count (filter is_prime (map Z.of_nat (seq 2 400))).

(** The largest [r] below [2^bits] above [acc] with [r ^ n <= x], bit by
    bit. *)
Fixpoint iroot (n : Z) (bits : nat) (x acc : Z) : Z :=
  match bits with
  | O => acc
  | S b =>
      let r := acc + 2 ^ Z.of_nat b in
      if r ^ n <=? x then iroot n b x r else iroot n b x acc
  end.

Definition frac_root32 (n p : Z) : Z :=
  w32 (iroot n 40 (p * 2 ^ (32 * n)) 0).

Definition K : list Z :=
  Eval vm_compute in map (frac_root32 3) (primes 64).

Definition H0 : list Z :=
  Eval vm_compute in map (frac_root32 2) (primes 8).

Definition bytes_of_string (s : string) : list Z :=
  map (fun a => Z.of_N (N_of_ascii a)) (list_ascii_of_string s).

(** The big-endian bytes of [x], [n] of them. *)
Fixpoint be_bytes (n : nat) (x : Z) : list Z :=
  match n with
  | O => []
  | S n' => be_bytes n' (Z.shiftr x 8) ++ [x mod 256]
  end.

(** Padding: a [0x80] byte, zero bytes up to 56 modulo 64, then the length of
    the message in bits on 8 bytes. *)
Definition pad (msg : list Z) : list Z :=
  let len := Z.of_nat (List.length msg) in
  let zeros := Z.to_nat ((55 - len) mod 64) in
  msg ++ [128] ++ repeat 0 zeros ++ be_bytes 8 (8 * len).

(** The big-endian words of a list of bytes. *)
Fixpoint words (fuel : nat) (bs : list Z) : list Z :=
  match fuel, bs with
  | S fuel', b0 :: b1 :: b2 :: b3 :: rest =>
      (b0 * 16777216 + b1 * 65536 + b2 * 256 + b3) :: words fuel' rest
  | _, _ => []
  end.

(** The message schedule, most recent word first: from [W(t-1) .. W(0)] to
    [W(t) .. W(0)]. *)
Definition extend (w : list Z) : list Z :=
  let w2 := nth 1 w 0 in
  let w7 := nth 6 w 0 in
  let w15 := nth 14 w 0 in
  let w16 := nth 15 w 0 in
  add32 (add32 (smallSigma1 w2) w7) (add32 (smallSigma0 w15) w16) :: w.

Fixpoint schedule (n : nat) (w : list Z) : list Z :=
  match n with
  | O => w
  | S n' => schedule n' (extend w)
  end.

Record Regs := mkRegs { ra : Z; rb : Z; rc : Z; rd : Z;
                        re : Z; rf : Z; rg : Z; rh : Z }.

Definition round (r : Regs) (kw : Z * Z) : Regs :=
  let t1 := add32 (add32 (add32 r.(rh) (bigSigma1 r.(re)))
                         (add32 (Ch r.(re) r.(rf) r.(rg)) (fst kw)))
                  (snd kw) in
  let t2 := add32 (bigSigma0 r.(ra)) (Maj r.(ra) r.(rb) r.(rc)) in
  {| ra := add32 t1 t2; rb := r.(ra); rc := r.(rb); rd := r.(rc);
     re := add32 r.(rd) t1; rf := r.(re); rg := r.(rf); rh := r.(rg) |}.

Definition regs_of (h : list Z) : Regs :=
  {| ra := nth 0 h 0; rb := nth 1 h 0; rc := nth 2 h 0; rd := nth 3 h 0;
     re := nth 4 h 0; rf := nth 5 h 0; rg := nth 6 h 0; rh := nth 7 h 0 |}.

Definition list_of (r : Regs) : list Z :=
  [ r.(ra); r.(rb); r.(rc); r.(rd); r.(re); r.(rf); r.(rg); r.(rh) ].

(** One 64-byte block, given as its 16 words. *)
Definition compress (h : list Z) (block : list Z) : list Z :=
  let w := rev (schedule 48 (rev block)) in
  let r := fold_left round (combine K w) (regs_of h) in
  map (fun p => add32 (fst p) (snd p)) (combine h (list_of r)).

Fixpoint blocks (fuel : nat) (h : list Z) (ws : list Z) : list Z :=
  match fuel with
  | O => h
  | S fuel' =>
      match ws with
      | [] => h
      | _ => blocks fuel' (compress h (firstn 16 ws)) (skipn 16 ws)
      end
  end.

Definition digest (msg : list Z) : list Z :=
  let bs := pad msg in
  let ws := words (List.length bs) bs in
  let h := blocks (List.length ws) H0 ws in
  flat_map (be_bytes 4) h.

Definition hex_digit (d : Z) : ascii :=
  ascii_of_N (Z.to_N (if d <? 10 then 48 + d else 87 + d)).

Definition hex_of_byte (b : Z) : string :=
  String (hex_digit (b / 16)) (String (hex_digit (b mod 16)) EmptyString).

(** [createHash('sha256').update(s).digest('hex')] *)
Definition hex (s : string) : string :=
  String.concat "" (map hex_of_byte (digest (bytes_of_string s))).

End Sha256.

(** ** [JSON.stringify] on the values the cache key is made of

    A string is the sequence of the bytes of its UTF-8 encoding, which is
    what [Hash.update] reads; [JSON.stringify] escapes the quote, the
    backslash and the control characters and copies every other character. *)

Module Json.

Definition dquote : ascii := "034"%char.

Definition backslash : ascii := "092"%char.

Definition escape2 (c : ascii) : string := String backslash (String c EmptyString).

(** The escape of one character ([QuoteJSONString]). *)
Definition quote_char (c : ascii) : string :=
  let n := N_of_ascii c in
  if (n =? 34)%N then escape2 dquote
  else if (n =? 92)%N then escape2 backslash
  else if (n =? 8)%N then escape2 "b"%char
  else if (n =? 12)%N then escape2 "f"%char
  else if (n =? 10)%N then escape2 "n"%char
  else if (n =? 13)%N then escape2 "r"%char
  else if (n =? 9)%N then escape2 "t"%char
  else if (n <? 32)%N
       then (escape2 "u"%char ++ "00" ++ Sha256.hex_of_byte (Z.of_N n))%string
  else String c EmptyString.

Fixpoint escape (s : string) : string :=
  match s with
  | EmptyString => EmptyString
  | String c s' => (quote_char c ++ escape s')%string
  end.

(** [JSON.stringify(s)] for a string [s]. *)
Definition quote (s : string) : string :=
  String dquote (escape s ++ String dquote EmptyString)%string.

(** [JSON.stringify(n)] for an integer [n] below 10^21 in absolute value,
    the range in which a number is written in plain digits; the token
    limits of the program are in that range. *)
Definition of_int (n : Z) : string :=
  DecimalString.NilZero.string_of_int (Z.to_int n).

(** [JSON.stringify(x)] for a number [x] given by its text: a number that
    is not finite is written [null]. *)
Definition of_number (t : JS.NumberText) : string :=
  if (String.eqb t "NaN" || String.eqb t "Infinity"
      || String.eqb t "-Infinity")%bool
  then "null" else t.

(** One member of an object: the quoted name, a colon, the value's text. *)
Definition member (name text : string) : string :=
  (quote name ++ ":" ++ text)%string.

End Json.

(** ** [Map] with insertion order *)

Module JsMap.

Section WithValue.

Context {V : Type}.

Definition t := list (string * V).

Definition keys (m : t) : list string := map fst m.

(** [Map.prototype.get] *)
Fixpoint get (k : string) (m : t) : option V :=
  match m with
  | [] => None
  | (k', v) :: m' => if String.eqb k k' then Some v else get k m'
  end.

(** [Map.prototype.has] *)
Definition has (k : string) (m : t) : bool :=
  match get k m with
  | Some _ => true
  | None => false
  end.

(** [Map.prototype.set]: an existing key keeps its position, a new key
    goes to the end. *)
Fixpoint set (k : string) (v : V) (m : t) : t :=
  match m with
  | [] => [(k, v)]
  | (k', v') :: m' =>
      if String.eqb k k' then (k, v) :: m' else (k', v') :: set k v m'
  end.

(** [Map.prototype.delete]: the map without the key (the boolean result is
    [has] before the call). *)
Definition delete (k : string) (m : t) : t :=
  filter (fun e => negb (String.eqb k (fst e))) m.

(** [Map.prototype.size] *)
Definition size (m : t) : Z := Z.of_nat (List.length m).

End WithValue.

Arguments t : clear implicits.

End JsMap.

(** ** config.js *)

Module Config.

(** A row of [MODEL_PRICES], in dollars per million tokens. *)
Record Price := mkPrice {
  input : float;
  output : float;
  name : string
}.

(** [MODEL_PRICES] *)
Definition MODEL_PRICES : list (string * Price) :=
  [ ("claude-3-5-sonnet-20241022",
     {| input := 3; output := 15; name := "Claude 3.5 Sonnet" |});
    ("claude-3-opus-20240229",
     {| input := 15; output := 75; name := "Claude 3 Opus" |});
    ("claude-3-haiku-20240307",
     {| input := 0.25; output := 1.25; name := "Claude 3 Haiku" |});
    ("GLM-4.7",
     {| input := 0.5; output := 0.5; name := "智谱 GLM-4.7" |}) ]%float.

(** The static fields of [Config] that the core reads.  They are fixed when
    the module is loaded, from the environment or from the defaults below. *)
Record t := mk {
  DEFAULT_MODEL : string;
  DEFAULT_MAX_TOKENS : Z;
  BUDGET_LIMIT : float;
  WARN_THRESHOLD : float;
  ENABLE_CACHE : bool;
  CACHE_MAX_SIZE : Z
}.

(** The values when the environment sets none of the variables. *)
Definition defaults : t := {|
  DEFAULT_MODEL := "claude-3-5-sonnet-20241022";
  DEFAULT_MAX_TOKENS := 1024;
  BUDGET_LIMIT := 0.50%float;
  WARN_THRESHOLD := 0.80%float;
  ENABLE_CACHE := false;
  CACHE_MAX_SIZE := 100
|}.

(** [MODEL_PRICES[model]] *)
Fixpoint price_of (model : string) (table : list (string * Price))
    : option Price :=
  match table with
  | [] => None
  | (m, p) :: rest => if String.eqb model m then Some p else price_of model rest
  end.

(** What [MODEL_PRICES[model]] can be when it is not [undefined]: a row of
    the table or, for a name inherited from [Object.prototype], a value
    that is truthy and has no [input] and no [output]. *)
Inductive PriceEntry :=
| PriceRow (p : Price)
| NotAPrice.

(** [MODEL_PRICES[model]], inherited names included. *)
Definition lookup (model : string) : option PriceEntry :=
  match price_of model MODEL_PRICES with
  | Some p => Some (PriceRow p)
  | None => if JS.inherited model then Some NotAPrice else None
  end.

(** [getModelPrice(model)]: [None] is [undefined], the result when neither
    [model] nor [DEFAULT_MODEL] names a property of the table. *)
Definition getModelPrice (cfg : t) (model : string) : option PriceEntry :=
  match lookup model with
  | Some e => Some e
  | None => lookup cfg.(DEFAULT_MODEL)
  end.

(** The credentials [validate] reads: variables of the environment, [None]
    when a variable is not set. *)
Record Credentials := mkCredentials {
  ANTHROPIC_API_KEY : option string;
  ANTHROPIC_BASE_URL : option string;
  ANTHROPIC_AUTH_TOKEN : option string
}.

(** Truthiness of a variable of the environment. *)
Definition given (x : option string) : bool :=
  match x with
  | Some s => JS.truthy s
  | None => false
  end.

(** The [errors] of [validate()], in the order they are pushed. *)
Definition validation_errors (cr : Credentials) (cfg : t) : list string :=
  (if given cr.(ANTHROPIC_AUTH_TOKEN)
   then if given cr.(ANTHROPIC_BASE_URL) then []
        else ["❌ 使用智谱AI时必须配置 ANTHROPIC_BASE_URL"]
   else
     match cr.(ANTHROPIC_API_KEY) with
     | Some key =>
         if negb (JS.truthy key)
         then ["❌ 未找到 ANTHROPIC_API_KEY！请在.env文件中配置"]
         else if String.prefix "sk-ant-" key then []
         else ["❌ ANTHROPIC_API_KEY 格式无效"]
     | None => ["❌ 未找到 ANTHROPIC_API_KEY！请在.env文件中配置"]
     end)
  ++ (if (cfg.(DEFAULT_MAX_TOKENS) <? 1) || (8192 <? cfg.(DEFAULT_MAX_TOKENS))
      then ["❌ DEFAULT_MAX_TOKENS 必须在 1-8192 之间"] else [])
  ++ (if (cfg.(BUDGET_LIMIT) <=? 0)%float
      then ["❌ BUDGET_LIMIT 必须大于0"] else []).

(** [validate()]: [true], or an error whose message has one line for each
    entry of [errors]. *)
Definition validate (cr : Credentials) (cfg : t) : JS.completion bool :=
  match validation_errors cr cfg with
  | [] => JS.Return true
  | errors => JS.Throw (String.concat (String "010"%char EmptyString) errors)
  end.

End Config.

(** ** src/core/cache-manager.js *)

Module CacheItem.

Record t := mk {
  key : string;
  value : string;
  createdAt : Z;
  ttl : Z;
  hits : Z
}.

(** [new CacheItem(key, value, ttl)] at time [now]. *)
Definition new (now : Z) (k v : string) (ttl : Z) : t :=
  {| key := k; value := v; createdAt := now; ttl := ttl; hits := 0 |}.

(** [isExpired()]: [Date.now() - this.createdAt > this.ttl]. *)
Definition isExpired (now : Z) (i : t) : bool :=
  i.(ttl) <? now - i.(createdAt).

(** [touch()] *)
Definition touch (i : t) : t :=
  {| key := i.(key); value := i.(value); createdAt := i.(createdAt);
     ttl := i.(ttl); hits := i.(hits) + 1 |}.

End CacheItem.

Module CacheManager.

Record Stats := mkStats {
  hits : Z;
  misses : Z;
  sets : Z;
  deletes : Z;
  evictions : Z
}.

Definition zeroStats : Stats :=
  {| hits := 0; misses := 0; sets := 0; deletes := 0; evictions := 0 |}.

(** The document [save] writes to [data/cache.json].  [JSON.stringify]
    followed by [JSON.parse] gives back the same keys, strings and integers,
    so the file is kept as the data it holds. *)
Record Snapshot := mkSnapshot {
  version : Z;
  savedAt : Z;
  snap_cache : list CacheItem.t;
  snap_stats : Stats
}.

(** The cache file: [content] is [None] while the file does not exist;
    [writable = false] makes [fs.writeFileSync] throw. *)
Record Disk := mkDisk {
  writable : bool;
  content : option Snapshot
}.

(** The fields of a [CacheManager]; [disk] is the file at [this.cacheFile]. *)
Record t := mk {
  enabled : bool;
  maxSize : Z;
  defaultTTL : Z;
  cache : JsMap.t CacheItem.t;
  accessOrder : list string;
  persistenceEnabled : bool;
  stats : Stats;
  disk : Disk
}.

Definition with_cache (c : t) (m : JsMap.t CacheItem.t) : t :=
  {| enabled := c.(enabled); maxSize := c.(maxSize);
     defaultTTL := c.(defaultTTL); cache := m;
     accessOrder := c.(accessOrder);
     persistenceEnabled := c.(persistenceEnabled);
     stats := c.(stats); disk := c.(disk) |}.

Definition with_accessOrder (c : t) (o : list string) : t :=
  {| enabled := c.(enabled); maxSize := c.(maxSize);
     defaultTTL := c.(defaultTTL); cache := c.(cache);
     accessOrder := o;
     persistenceEnabled := c.(persistenceEnabled);
     stats := c.(stats); disk := c.(disk) |}.

Definition with_stats (c : t) (s : Stats) : t :=
  {| enabled := c.(enabled); maxSize := c.(maxSize);
     defaultTTL := c.(defaultTTL); cache := c.(cache);
     accessOrder := c.(accessOrder);
     persistenceEnabled := c.(persistenceEnabled);
     stats := s; disk := c.(disk) |}.

Definition with_disk (c : t) (d : Disk) : t :=
  {| enabled := c.(enabled); maxSize := c.(maxSize);
     defaultTTL := c.(defaultTTL); cache := c.(cache);
     accessOrder := c.(accessOrder);
     persistenceEnabled := c.(persistenceEnabled);
     stats := c.(stats); disk := d |}.

Definition incr_hits (s : Stats) : Stats :=
  {| hits := s.(hits) + 1; misses := s.(misses); sets := s.(sets);
     deletes := s.(deletes); evictions := s.(evictions) |}.

Definition incr_misses (s : Stats) : Stats :=
  {| hits := s.(hits); misses := s.(misses) + 1; sets := s.(sets);
     deletes := s.(deletes); evictions := s.(evictions) |}.

Definition incr_sets (s : Stats) : Stats :=
  {| hits := s.(hits); misses := s.(misses); sets := s.(sets) + 1;
     deletes := s.(deletes); evictions := s.(evictions) |}.

Definition incr_deletes (s : Stats) : Stats :=
  {| hits := s.(hits); misses := s.(misses); sets := s.(sets);
     deletes := s.(deletes) + 1; evictions := s.(evictions) |}.

Definition incr_evictions (s : Stats) : Stats :=
  {| hits := s.(hits); misses := s.(misses); sets := s.(sets);
     deletes := s.(deletes); evictions := s.(evictions) + 1 |}.

(** The entry [save] writes for an entry of the map: the key is the key of
    the map, the other fields are the item's. *)
Definition saved_entry (e : string * CacheItem.t) : CacheItem.t :=
  {| CacheItem.key := fst e;
     CacheItem.value := (snd e).(CacheItem.value);
     CacheItem.createdAt := (snd e).(CacheItem.createdAt);
     CacheItem.ttl := (snd e).(CacheItem.ttl);
     CacheItem.hits := (snd e).(CacheItem.hits) |}.

(** The [data] of [save()]: the entries in the map's order, with the
    stats. *)
Definition snapshot_data (now : Z) (c : t) : Snapshot :=
  {| version := 1; savedAt := now;
     snap_cache := map saved_entry c.(cache);
     snap_stats := c.(stats) |}.

(** [save()].  A failed write is caught: the file keeps what it had and
    [save] returns [false]. *)
Definition save (now : Z) (c : t) : bool * t :=
  let data := snapshot_data now c in
  if c.(disk).(writable)
  then (true, with_disk c {| writable := true; content := Some data |})
  else (false, c).

(** [if (this.persistenceEnabled) this.save()] *)
Definition persist (now : Z) (c : t) : t :=
  if c.(persistenceEnabled) then snd (save now c) else c.

(** The loop of [load()]: an entry is kept when
    [Date.now() - item.createdAt < item.ttl]; the [CacheItem] built for it
    has the fields of the saved entry. *)
Fixpoint load_items (now : Z) (items : list CacheItem.t)
    (m : JsMap.t CacheItem.t) (o : list string)
    : JsMap.t CacheItem.t * list string :=
  match items with
  | [] => (m, o)
  | item :: rest =>
      if now - item.(CacheItem.createdAt) <? item.(CacheItem.ttl)
      then load_items now rest
             (JsMap.set item.(CacheItem.key) item m)
             (o ++ [item.(CacheItem.key)])
      else load_items now rest m o
  end.

(** [load()] *)
Definition load (now : Z) (c : t) : bool * t :=
  match c.(disk).(content) with
  | None => (false, c)
  | Some data =>
      let '(m, o) := load_items now data.(snap_cache) [] [] in
      (true,
       with_stats (with_accessOrder (with_cache c m) o) data.(snap_stats))
  end.

(** The [options] argument of the constructor. *)
Record Options := mkOptions {
  opt_enabled : option bool;
  opt_maxSize : option Z;
  opt_ttl : option Z;
  opt_persist : option bool
}.

Definition noOptions : Options :=
  {| opt_enabled := None; opt_maxSize := None; opt_ttl := None;
     opt_persist := None |}.

(** [new CacheManager(options)] over the file [d]. *)
Definition new (cfg : Config.t) (now : Z) (options : Options) (d : Disk) : t :=
  let c := {|
    enabled := match options.(opt_enabled) with
               | Some b => b
               | None => cfg.(Config.ENABLE_CACHE)
               end;
    maxSize := JS.num_or options.(opt_maxSize) cfg.(Config.CACHE_MAX_SIZE);
    defaultTTL := JS.num_or options.(opt_ttl) 3600000;
    cache := [];
    accessOrder := [];
    persistenceEnabled := match options.(opt_persist) with
                          | Some false => false
                          | _ => true
                          end;
    stats := zeroStats;
    disk := d |} in
  if c.(persistenceEnabled) then snd (load now c) else c.

(** [Array.prototype.indexOf] then [splice(index, 1)]: the first occurrence
    is taken out. *)
Fixpoint remove_first (k : string) (o : list string) : list string :=
  match o with
  | [] => []
  | k' :: o' => if String.eqb k k' then o' else k' :: remove_first k o'
  end.

(** [updateAccessOrder(key)] *)
Definition updateAccessOrder (k : string) (c : t) : t :=
  with_accessOrder c (remove_first k c.(accessOrder) ++ [k]).

(** [delete(key)] *)
Definition delete (now : Z) (k : string) (c : t) : bool * t :=
  if JsMap.has k c.(cache)
  then
    let c1 := with_cache c (JsMap.delete k c.(cache)) in
    let c2 := with_accessOrder c1
                (filter (fun k' => negb (String.eqb k' k)) c1.(accessOrder)) in
    let c3 := with_stats c2 (incr_deletes c2.(stats)) in
    (true, persist now c3)
  else (false, c).

(** [evictLRU()] *)
Definition evictLRU (c : t) : t :=
  match c.(accessOrder) with
  | [] => c
  | lruKey :: rest =>
      let c1 := with_accessOrder c rest in
      let c2 := with_cache c1 (JsMap.delete lruKey c1.(cache)) in
      with_stats c2 (incr_evictions c2.(stats))
  end.

(** [get(key)]: [None] is the [null] the method returns. *)
Definition get (now : Z) (k : string) (c : t) : option string * t :=
  if negb c.(enabled) then (None, c)
  else
    match JsMap.get k c.(cache) with
    | None => (None, with_stats c (incr_misses c.(stats)))
    | Some item =>
        if CacheItem.isExpired now item
        then
          let c1 := snd (delete now k c) in
          (None, with_stats c1 (incr_misses c1.(stats)))
        else
          let c1 := updateAccessOrder k c in
          let c2 := with_cache c1
                      (JsMap.set k (CacheItem.touch item) c1.(cache)) in
          (Some item.(CacheItem.value),
           with_stats c2 (incr_hits c2.(stats)))
    end.

(** [set(key, value, ttl = null)] *)
Definition set (now : Z) (k v : string) (ttl : option Z) (c : t) : bool * t :=
  if negb c.(enabled) then (false, c)
  else
    let c1 := if (c.(maxSize) <=? JsMap.size c.(cache))
                 && negb (JsMap.has k c.(cache))
              then evictLRU c else c in
    let item := CacheItem.new now k v (JS.num_or ttl c1.(defaultTTL)) in
    let c2 := with_cache c1 (JsMap.set k item c1.(cache)) in
    let c3 := updateAccessOrder k c2 in
    let c4 := with_stats c3 (incr_sets c3.(stats)) in
    (true, persist now c4).

(** [clear()] *)
Definition clear (now : Z) (c : t) : t :=
  persist now
    (with_stats (with_accessOrder (with_cache c []) []) zeroStats).

(** [cleanup()]: the loop visits the entries in the map's order; deleting
    the entry being visited does not disturb the iteration. *)
Definition cleanup (now : Z) (c : t) : Z * t :=
  fold_left
    (fun (acc : Z * t) (e : string * CacheItem.t) =>
       let '(cleaned, c') := acc in
       if (snd e).(CacheItem.ttl) <? now - (snd e).(CacheItem.createdAt)
       then (cleaned + 1, snd (delete now (fst e) c'))
       else acc)
    c.(cache) (0, c).

(** The [options] argument of [generateKey]. *)
Record KeyOptions := mkKeyOptions {
  ko_model : option string;
  ko_maxTokens : option Z;
  ko_temperature : option JS.NumberText;
  ko_systemPrompt : JS.maybe string
}.

(** [JSON.stringify(keyData)]: the members in the order the object literal
    gives them; a member whose value is [undefined] is left out. *)
Definition keyData (cfg : Config.t) (message : string) (options : KeyOptions)
    : string :=
  ("{"
   ++ Json.member "message" (Json.quote message)
   ++ "," ++ Json.member "model"
        (Json.quote (JS.str_or options.(ko_model) cfg.(Config.DEFAULT_MODEL)))
   ++ "," ++ Json.member "maxTokens"
        (Json.of_int
           (JS.num_or options.(ko_maxTokens) cfg.(Config.DEFAULT_MAX_TOKENS)))
   ++ match options.(ko_temperature) with
      | Some t => "," ++ Json.member "temperature" (Json.of_number t)
      | None => ""
      end
   ++ match options.(ko_systemPrompt) with
      | JS.Undefined => ""
      | JS.Null => "," ++ Json.member "systemPrompt" "null"
      | JS.Val p => "," ++ Json.member "systemPrompt" (Json.quote p)
      end
   ++ "}")%string.

(** [generateKey(message, options)]: the first 16 characters of the
    hexadecimal SHA-256 digest. *)
Definition generateKey (cfg : Config.t) (message : string)
    (options : KeyOptions) : string :=
  String.substring 0 16 (Sha256.hex (keyData cfg message options)).

(** The [factory] of [getOrSet]: a computation that runs between the read
    and the write and may use the manager; it gives a value or throws. *)
Definition Factory := t -> JS.completion string * t.

(** [getOrSet(key, factory, ttl = null)]: [now] is the time of the read and
    [now'] the time when the value of the factory has arrived. *)
Definition getOrSet (now now' : Z) (k : string) (factory : Factory)
    (ttl : option Z) (c : t) : JS.completion string * t :=
  let '(cached, c1) := get now k c in
  match cached with
  | Some v => (JS.Return v, c1)
  | None =>
      match factory c1 with
      | (JS.Throw e, c2) => (JS.Throw e, c2)
      | (JS.Return value, c2) =>
          (JS.Return value, snd (set now' k value ttl c2))
      end
  end.

End CacheManager.



(** ** src/core/token-tracker.js *)

Module TokenTracker.

Record CallRecord := mkCallRecord {
  timestamp : Z;
  requestId : string;
  inputTokens : float;
  outputTokens : float;
  totalTokens : float;
  model : string;
  cost : float
}.

Record t := mk {
  totalInputTokens : float;
  totalOutputTokens : float;
  totalRequests : Z;
  callHistory : list CallRecord;
  budgetLimit : float;
  warnThreshold : float
}.

(** [new TokenTracker(budgetLimit)] *)
Definition new (cfg : Config.t) (limit : option float) : t :=
  {| totalInputTokens := 0; totalOutputTokens := 0; totalRequests := 0;
     callHistory := [];
     budgetLimit := match limit with
                    | Some l => l
                    | None => cfg.(Config.BUDGET_LIMIT)
                    end;
     warnThreshold := cfg.(Config.WARN_THRESHOLD) |}.

(** [reset()] *)
Definition reset (tr : t) : t :=
  {| totalInputTokens := 0; totalOutputTokens := 0; totalRequests := 0;
     callHistory := [];
     budgetLimit := tr.(budgetLimit);
     warnThreshold := tr.(warnThreshold) |}.

(** [calculateSingleCallCost(inputTokens, outputTokens, model)]; reading
    [price.input] of [undefined] throws.  Of a value that is not a price
    [price.input] and [price.output] are [undefined], both products are NaN
    and so is the cost. *)
Definition calculateSingleCallCost (cfg : Config.t)
    (inTok outTok : float) (m : string) : JS.completion float :=
  match Config.getModelPrice cfg m with
  | None => JS.Throw "Cannot read properties of undefined (reading 'input')"
  | Some Config.NotAPrice =>
      let inputCost := (inTok / 1000000 * nan)%float in
      let outputCost := (outTok / 1000000 * nan)%float in
      JS.Return (inputCost + outputCost)%float
  | Some (Config.PriceRow price) =>
      let inputCost := (inTok / 1000000 * price.(Config.input))%float in
      let outputCost := (outTok / 1000000 * price.(Config.output))%float in
      JS.Return (inputCost + outputCost)%float
  end.

(** [getTotalCost()]: [reduce] from [0], in the order of the records. *)
Definition getTotalCost (tr : t) : float :=
  fold_left (fun sum record => (sum + record.(cost))%float)
            tr.(callHistory) 0%float.

(** The object [checkBudget] returns; [usagePercentage] is the number that
    [toFixed(2)] formats. *)
Record BudgetStatus := mkBudgetStatus {
  currentCost : float;
  bs_budgetLimit : float;
  remaining : float;
  usagePercentage : float;
  isOverBudget : bool;
  isNearLimit : bool
}.

(** [checkBudget()]: it reads the tracker and logs; the tracker it leaves is
    the one it found. *)
Definition checkBudget (tr : t) : BudgetStatus * t :=
  let currentCost := getTotalCost tr in
  let usagePercentage := (currentCost / tr.(budgetLimit) * 100)%float in
  ({| currentCost := currentCost;
      bs_budgetLimit := tr.(budgetLimit);
      remaining := (tr.(budgetLimit) - currentCost)%float;
      usagePercentage := usagePercentage;
      isOverBudget := (tr.(budgetLimit) <=? currentCost)%float;
      isNearLimit :=
        (tr.(budgetLimit) * tr.(warnThreshold) <=? currentCost)%float |},
   tr).

(** [recordCall(inputTokens, outputTokens, model, requestId)].  The totals
    are updated before the cost is computed, so they stay updated when the
    cost computation throws. *)
Definition recordCall (cfg : Config.t) (now : Z) (inTok outTok : float)
    (m : option string) (rid : option string) (tr : t)
    : JS.completion CallRecord * t :=
  let m := match m with Some m' => m' | None => cfg.(Config.DEFAULT_MODEL) end in
  let tr1 := {| totalInputTokens := (tr.(totalInputTokens) + inTok)%float;
                totalOutputTokens := (tr.(totalOutputTokens) + outTok)%float;
                totalRequests := tr.(totalRequests) + 1;
                callHistory := tr.(callHistory);
                budgetLimit := tr.(budgetLimit);
                warnThreshold := tr.(warnThreshold) |} in
  match calculateSingleCallCost cfg inTok outTok m with
  | JS.Throw e => (JS.Throw e, tr1)
  | JS.Return c =>
      let record := {| timestamp := now;
                       requestId := JS.str_or rid ("req-" ++ Json.of_int now)%string;
                       inputTokens := inTok;
                       outputTokens := outTok;
                       totalTokens := (inTok + outTok)%float;
                       model := m;
                       cost := c |} in
      let tr2 := {| totalInputTokens := tr1.(totalInputTokens);
                    totalOutputTokens := tr1.(totalOutputTokens);
                    totalRequests := tr1.(totalRequests);
                    callHistory := tr1.(callHistory) ++ [record];
                    budgetLimit := tr1.(budgetLimit);
                    warnThreshold := tr1.(warnThreshold) |} in
      (JS.Return record, snd (checkBudget tr2))
  end.

(** The object [estimate] returns. *)
Record Estimate := mkEstimate {
  estimatedCost : float;
  estimatedInputTokens : float;
  estimatedOutputTokens : float;
  estimatedTotalTokens : float;
  currentTotalCost : float;
  newTotalCost : float;
  wouldExceedBudget : bool;
  remainingAfterCall : float
}.

(** [estimate(estimatedInputTokens, estimatedOutputTokens, model)]: it reads
    the tracker and writes nothing. *)
Definition estimate (cfg : Config.t) (inTok outTok : float) (m : option string)
    (tr : t) : JS.completion Estimate :=
  let m := match m with Some m' => m' | None => cfg.(Config.DEFAULT_MODEL) end in
  match calculateSingleCallCost cfg inTok outTok m with
  | JS.Throw e => JS.Throw e
  | JS.Return c =>
      let total := (getTotalCost tr + c)%float in
      JS.Return {| estimatedCost := c;
                   estimatedInputTokens := inTok;
                   estimatedOutputTokens := outTok;
                   estimatedTotalTokens := (inTok + outTok)%float;
                   currentTotalCost := getTotalCost tr;
                   newTotalCost := total;
                   wouldExceedBudget := (tr.(budgetLimit) <? total)%float;
                   remainingAfterCall := (tr.(budgetLimit) - total)%float |}
  end.

End TokenTracker.


(** ** src/core/conversation-manager.js *)

Module ConversationManager.

Inductive Role := user | assistant.

Record Message := mkMessage {
  role : Role;
  content : string;
  timestamp : Z
}.

(** The argument of [client.messages.create]. *)
Record ApiParams := mkApiParams {
  ap_model : string;
  ap_max_tokens : Z;
  ap_messages : list (Role * string);
  ap_system : option string;
  ap_temperature : option JS.NumberText
}.

(** The usage figures of a response. *)
Record ApiUsage := mkApiUsage {
  input_tokens : float;
  output_tokens : float
}.

(** The message the remote model returns, as far as [chat] reads it: for
    each content block (there may be none) its [text], [None] for a block
    that has no text (a [tool_use] block, say); the usage figures, [None]
    for a response without [usage]; the model and the stop reason. *)
Record ApiResponse := mkApiResponse {
  resp_content : list (option string);
  resp_usage : option ApiUsage;
  resp_model : string;
  stop_reason : option string
}.

(** What [await client.messages.create(...)] gives: the promise is rejected
    with an error, or resolved with a response. *)
Inductive ApiReply :=
| Rejected (message : string)
| Resolved (response : ApiResponse).

(** The remote model, as the client reaches it. *)
Definition Remote := ApiParams -> ApiReply.

(** The fields of a [ConversationManager]; [requests] is the list of the
    requests that went out through [this.client], oldest first. *)
Record t := mk {
  requests : list ApiParams;
  conversationHistory : list Message;
  systemPrompt : option string;
  model : string;
  maxTokens : Z;
  temperature : JS.NumberText;
  sessionId : string
}.

Definition with_history (c : t) (h : list Message) : t :=
  {| requests := c.(requests); conversationHistory := h;
     systemPrompt := c.(systemPrompt); model := c.(model);
     maxTokens := c.(maxTokens); temperature := c.(temperature);
     sessionId := c.(sessionId) |}.

Definition with_requests (c : t) (r : list ApiParams) : t :=
  {| requests := r; conversationHistory := c.(conversationHistory);
     systemPrompt := c.(systemPrompt); model := c.(model);
     maxTokens := c.(maxTokens); temperature := c.(temperature);
     sessionId := c.(sessionId) |}.

(** The [options] argument of the constructor. *)
Record Options := mkOptions {
  opt_systemPrompt : option string;
  opt_model : option string;
  opt_maxTokens : option Z;
  opt_temperature : option JS.NumberText;
  opt_sessionId : option string
}.

Definition defaultOptions : Options :=
  {| opt_systemPrompt := None; opt_model := None; opt_maxTokens := None;
     opt_temperature := None; opt_sessionId := None |}.

(** [new ConversationManager(options)]; [generated] is the identifier
    [generateSessionId()] returns. *)
Definition new (cfg : Config.t) (generated : string) (options : Options) : t :=
  {| requests := [];
     conversationHistory := [];
     systemPrompt := match options.(opt_systemPrompt) with
                     | Some p => if JS.truthy p then Some p else None
                     | None => None
                     end;
     model := JS.str_or options.(opt_model) cfg.(Config.DEFAULT_MODEL);
     maxTokens := JS.num_or options.(opt_maxTokens)
                            cfg.(Config.DEFAULT_MAX_TOKENS);
     temperature := match options.(opt_temperature) with
                    | Some t => if (String.eqb t "0" || String.eqb t "NaN")%bool
                                then "0.7" else t
                    | None => "0.7"
                    end;
     sessionId := JS.str_or options.(opt_sessionId) generated |}.

(** [setSystemPrompt(prompt)] *)
Definition setSystemPrompt (prompt : string) (c : t) : t :=
  {| requests := c.(requests);
     conversationHistory := c.(conversationHistory);
     systemPrompt := Some prompt; model := c.(model);
     maxTokens := c.(maxTokens); temperature := c.(temperature);
     sessionId := c.(sessionId) |}.

(** [addMessage(role, content)] *)
Definition addMessage (now : Z) (r : Role) (text : string) (c : t)
    : Message * t :=
  let message := {| role := r; content := text; timestamp := now |} in
  (message, with_history c (c.(conversationHistory) ++ [message])).

(** [getFormattedHistory()] *)
Definition getFormattedHistory (c : t) : list (Role * string) :=
  map (fun msg => (msg.(role), msg.(content))) c.(conversationHistory).

(** [trimHistory(maxRounds)]: [slice(-maxMessages)] keeps the last
    [maxMessages] messages; [slice(-0)] is the whole array, and a negative
    [maxMessages] makes the argument of [slice] a start index counted from
    the front. *)
Definition trimHistory (maxRounds : Z) (c : t) : t :=
  let maxMessages := maxRounds * 2 in
  let len := Z.of_nat (List.length c.(conversationHistory)) in
  if len <=? maxMessages then c
  else
    let start := if maxMessages <? 0 then Z.min (- maxMessages) len
                 else if maxMessages =? 0 then 0
                 else len - maxMessages in
    with_history c (skipn (Z.to_nat start) c.(conversationHistory)).

(** [clearHistory()] *)
Definition clearHistory (c : t) : t := with_history c [].

(** The [options] of [chat] and of [sendMessage]. *)
Record ChatOptions := mkChatOptions {
  o_model : option string;
  o_maxTokens : option Z;
  o_temperature : option JS.NumberText;
  o_disableCache : bool
}.

Definition noOptions : ChatOptions :=
  {| o_model := None; o_maxTokens := None; o_temperature := None;
     o_disableCache := false |}.

Record Usage := mkUsage {
  u_inputTokens : float;
  u_outputTokens : float;
  u_totalTokens : float
}.

(** The object [chat] and [sendMessage] return; a property that the object
    does not have, or that is [null], is [None] ([false] for [fromCache]). *)
Record Result := mkResult {
  success : bool;
  r_content : option string;
  error : option string;
  fromCache : bool;
  usage : option Usage;
  r_model : option string;
  stopReason : option string
}.

Definition failure (message : string) : Result :=
  {| success := false; r_content := None; error := Some message;
     fromCache := false; usage := None; r_model := None;
     stopReason := None |}.

(** [Array.prototype.pop] *)
Definition pop {A : Type} (l : list A) : list A := removelast l.

(** [chat(userInput, options)].  [now] is the time when the user message is
    added and [now'] the time when the reply has arrived.  Three things can
    throw inside the [try] once the call has resolved, and the [catch] pops
    the last message of the history each time:
    - reading [response.content[0].text] of a response without content,
      before anything is added: the message popped is the user message;
    - [addMessage('assistant', undefined)] for a first block without text:
      it pushes the message and then throws on [content.substring], so the
      message popped is that assistant message and the user message stays;
    - reading [response.usage.input_tokens] of a response without usage,
      after the assistant message was added: the message popped is the
      assistant message and the user message stays. *)
Definition chat (remote : Remote) (now now' : Z) (userInput : string)
    (options : ChatOptions) (c : t) : Result * t :=
  let c1 := snd (addMessage now user userInput c) in
  let apiParams := {|
    ap_model := JS.str_or options.(o_model) c1.(model);
    ap_max_tokens := JS.num_or options.(o_maxTokens) c1.(maxTokens);
    ap_messages := getFormattedHistory c1;
    ap_system := match c1.(systemPrompt) with
                 | Some p => if JS.truthy p then Some p else None
                 | None => None
                 end;
    ap_temperature := options.(o_temperature) |} in
  let c2 := with_requests c1 (c1.(requests) ++ [apiParams]) in
  let rollback (message : string) :=
    (failure message, with_history c2 (pop c2.(conversationHistory))) in
  match remote apiParams with
  | Rejected message => rollback message
  | Resolved response =>
      match response.(resp_content) with
      | [] => rollback "Cannot read properties of undefined (reading 'text')"
      | None :: _ =>
          (failure "Cannot read properties of undefined (reading 'substring')",
           c2)
      | Some assistantText :: _ =>
          let c3 := snd (addMessage now' assistant assistantText c2) in
          match response.(resp_usage) with
          | None =>
              (failure
                 "Cannot read properties of undefined (reading 'input_tokens')",
               with_history c3 (pop c3.(conversationHistory)))
          | Some u =>
              ({| success := true;
                  r_content := Some assistantText;
                  error := None;
                  fromCache := false;
                  usage := Some {|
                    u_inputTokens := u.(input_tokens);
                    u_outputTokens := u.(output_tokens);
                    u_totalTokens :=
                      (u.(input_tokens) + u.(output_tokens))%float |};
                  r_model := Some response.(resp_model);
                  stopReason := response.(stop_reason) |},
               c3)
          end
      end
  end.



(** A message as a file holds it; [j_timestamp] is [None] when the object
    has no [timestamp]. *)
Record MessageJson := mkMessageJson {
  j_role : Role;
  j_content : string;
  j_timestamp : option Z
}.

(** [Message.prototype.toJSON] *)
Definition toJSON (m : Message) : MessageJson :=
  {| j_role := m.(role); j_content := m.(content);
     j_timestamp := Some m.(timestamp) |}.

(** [Message.fromJSON(json)] at time [now]: the constructor takes
    [Date.now()] for a [timestamp] that is [undefined]. *)
Definition fromJSON (now : Z) (json : MessageJson) : Message :=
  {| role := json.(j_role); content := json.(j_content);
     timestamp := match json.(j_timestamp) with
                  | Some t => t
                  | None => now
                  end |}.

(** The document [saveConversation] writes; [createdAt] is the time whose
    ISO text the file holds. *)
Record SavedConversation := mkSavedConversation {
  sc_sessionId : string;
  sc_systemPrompt : option string;
  sc_model : string;
  sc_createdAt : Z;
  sc_messages : list MessageJson
}.

(** The directory [this.dataDir]: its files by name, each kept as the
    document it holds; [dir_writable = false] makes [fs.writeFileSync]
    throw. *)
Record DataDir := mkDataDir {
  dir_writable : bool;
  dir_files : JsMap.t SavedConversation
}.

(** [saveConversation(filename = null)] at time [now]: the name of the file
    that was written, [None] for the [null] of a failed write. *)
Definition saveConversation (now : Z) (filename : option string) (c : t)
    (d : DataDir) : option string * DataDir :=
  let filename :=
    JS.str_or filename ("conversation-" ++ c.(sessionId) ++ ".json")%string in
  let data := {| sc_sessionId := c.(sessionId);
                 sc_systemPrompt := c.(systemPrompt);
                 sc_model := c.(model);
                 sc_createdAt := now;
                 sc_messages := map toJSON c.(conversationHistory) |} in
  if d.(dir_writable)
  then (Some filename,
        {| dir_writable := true;
           dir_files := JsMap.set filename data d.(dir_files) |})
  else (None, d).

(** [loadConversation(filename)] at time [now]: reading a file that is not
    there throws inside the [try]. *)
Definition loadConversation (now : Z) (filename : string) (c : t)
    (d : DataDir) : bool * t :=
  match JsMap.get filename d.(dir_files) with
  | None => (false, c)
  | Some data =>
      (true,
       {| requests := c.(requests);
          conversationHistory := map (fromJSON now) data.(sc_messages);
          systemPrompt := data.(sc_systemPrompt);
          model := data.(sc_model);
          maxTokens := c.(maxTokens);
          temperature := c.(temperature);
          sessionId := data.(sc_sessionId) |})
  end.

(** An event of a streamed reply, with what [chatStream] reads of it:
    - [content_block_delta]: [event.delta.text], [None] when the delta
      carries no text;
    - [message_start]: [event.message.usage.input_tokens], [None] when the
      event has no message or the message no usage;
    - [message_delta]: [event.usage.output_tokens], [None] without usage, and
      [event.delta.stop_reason], [None] without delta. *)
Inductive StreamEvent :=
| content_block_delta (text : option string)
| message_start (input_tokens : option float)
| message_delta (output_tokens : option float)
                (stop_reason : option (option string))
| message_stop
| other_event.

(** What [await client.messages.create({..., stream: true})] gives: the
    promise is rejected, or resolved with a stream that yields [events] and
    then ends, or breaks with an error when [broken] is [Some]. *)
Inductive StreamReply :=
| StreamRejected (message : string)
| StreamOpened (events : list StreamEvent) (broken : option string).

(** The remote model, reached with [stream: true]. *)
Definition StreamRemote := ApiParams -> StreamReply.

(** The argument of the [onChunk] callback. *)
Inductive Chunk :=
| ContentChunk (content : string)
| ErrorChunk (error : string).

(** The [onChunk] callback: it returns ([None]) or throws an error with a
    message. *)
Definition Callback := Chunk -> option string.

(** The local variables of [chatStream], and the calls of [onChunk] so far,
    oldest first. *)
Record StreamState := mkStreamState {
  st_fullContent : string;
  st_inputTokens : float;
  st_outputTokens : float;
  st_stopReason : option string;
  st_delivered : list Chunk
}.

(** The [for await] loop of [chatStream]: the state after the events, and
    the message of the error that [onChunk] threw, if it did.  Appending
    [undefined] to a string appends the text "undefined". *)
Fixpoint consume (onChunk : option Callback) (events : list StreamEvent)
    (s : StreamState) : option string * StreamState :=
  match events with
  | [] => (None, s)
  | content_block_delta text :: rest =>
      let s1 := {| st_fullContent :=
                     (s.(st_fullContent)
                      ++ match text with Some t => t | None => "undefined" end)
                     %string;
                   st_inputTokens := s.(st_inputTokens);
                   st_outputTokens := s.(st_outputTokens);
                   st_stopReason := s.(st_stopReason);
                   st_delivered := s.(st_delivered) |} in
      match onChunk, text with
      | Some f, Some t =>
          if JS.truthy t
          then
            let s2 := {| st_fullContent := s1.(st_fullContent);
                         st_inputTokens := s1.(st_inputTokens);
                         st_outputTokens := s1.(st_outputTokens);
                         st_stopReason := s1.(st_stopReason);
                         st_delivered :=
                           s1.(st_delivered) ++ [ContentChunk t] |} in
            match f (ContentChunk t) with
            | Some e => (Some e, s2)
            | None => consume onChunk rest s2
            end
          else consume onChunk rest s1
      | _, _ => consume onChunk rest s1
      end
  | message_start (Some n) :: rest =>
      consume onChunk rest
        {| st_fullContent := s.(st_fullContent);
           st_inputTokens := n;
           st_outputTokens := s.(st_outputTokens);
           st_stopReason := s.(st_stopReason);
           st_delivered := s.(st_delivered) |}
  | message_delta out stop :: rest =>
      consume onChunk rest
        {| st_fullContent := s.(st_fullContent);
           st_inputTokens := s.(st_inputTokens);
           st_outputTokens := match out with
                              | Some n => n
                              | None => s.(st_outputTokens)
                              end;
           st_stopReason := match stop with
                            | Some r => r
                            | None => s.(st_stopReason)
                            end;
           st_delivered := s.(st_delivered) |}
  | _ :: rest => consume onChunk rest s
  end.

(** [chatStream(userInput, options, onChunk)]: the result, the calls of
    [onChunk] in order, and the conversation it leaves.  An error thrown by
    [onChunk] inside the [catch] block leaves the method. *)
Definition chatStream (remote : StreamRemote) (now now' : Z)
    (userInput : string) (options : ChatOptions) (onChunk : option Callback)
    (c : t) : JS.completion Result * list Chunk * t :=
  let c1 := snd (addMessage now user userInput c) in
  let apiParams := {|
    ap_model := JS.str_or options.(o_model) c1.(model);
    ap_max_tokens := JS.num_or options.(o_maxTokens) c1.(maxTokens);
    ap_messages := getFormattedHistory c1;
    ap_system := match c1.(systemPrompt) with
                 | Some p => if JS.truthy p then Some p else None
                 | None => None
                 end;
    ap_temperature := options.(o_temperature) |} in
  let c2 := with_requests c1 (c1.(requests) ++ [apiParams]) in
  let start := {| st_fullContent := ""; st_inputTokens := 0;
                  st_outputTokens := 0; st_stopReason := None;
                  st_delivered := [] |} in
  let rollback (message : string) (s : StreamState) :=
    let c3 := with_history c2 (pop c2.(conversationHistory)) in
    match onChunk with
    | Some f =>
        match f (ErrorChunk message) with
        | Some e =>
            (JS.Throw e, s.(st_delivered) ++ [ErrorChunk message], c3)
        | None =>
            (JS.Return (failure message),
             s.(st_delivered) ++ [ErrorChunk message], c3)
        end
    | None => (JS.Return (failure message), s.(st_delivered), c3)
    end in
  match remote apiParams with
  | StreamRejected message => rollback message start
  | StreamOpened events broken =>
      match consume onChunk events start, broken with
      | (Some message, s), _ => rollback message s
      | (None, s), Some message => rollback message s
      | (None, s), None =>
          let c3 := snd (addMessage now' assistant s.(st_fullContent) c2) in
          (JS.Return
             {| success := true;
                r_content := Some s.(st_fullContent);
                error := None;
                fromCache := false;
                usage := Some {|
                  u_inputTokens := s.(st_inputTokens);
                  u_outputTokens := s.(st_outputTokens);
                  u_totalTokens :=
                    (s.(st_inputTokens) + s.(st_outputTokens))%float |};
                r_model := Some c.(model);
                stopReason := s.(st_stopReason) |},
           s.(st_delivered), c3)
      end
  end.

(** [chatStream(userInput, null, onChunk)]: the default of the parameter
    does not apply to [null]; the user message is added, then reading
    [options.model] throws, before the [try]: nothing is sent, nothing is
    popped and [onChunk] is not called. *)
Definition chatStream_null_options (now : Z) (userInput : string) (c : t)
    : string * t :=
  ("Cannot read properties of null (reading 'model')",
   snd (addMessage now user userInput c)).

End ConversationManager.

(** ** src/services/clever-assistant.js *)

Module CleverAssistant.

Record t := mk {
  conversation : ConversationManager.t;
  tokenTracker : TokenTracker.t;
  cache : CacheManager.t;
  currentMode : string
}.

(** A row of [ASSISTANT_PRESETS]. *)
Record Preset := mkPreset {
  p_name : string;
  p_systemPrompt : string;
  p_temperature : JS.NumberText;
  p_maxTokens : Z
}.

(** [ASSISTANT_PRESETS] *)
Definition ASSISTANT_PRESETS : list (string * Preset) :=
  [ ("coding",
     {| p_name := "编程助手";
        p_systemPrompt := "你是一个专业的编程助手，擅长多种编程语言，能够帮助用户理解代码、调试问题、编写新功能。请提供清晰、有注释的代码示例。";
        p_temperature := "0.3";
        p_maxTokens := 1500 |});
    ("learning",
     {| p_name := "学习助手";
        p_systemPrompt := "你是一个友好的学习助手，擅长用简单易懂的方式解释复杂概念。请使用例子、类比和循序渐进的方法来帮助用户学习。";
        p_temperature := "0.7";
        p_maxTokens := 1000 |});
    ("writing",
     {| p_name := "写作助手";
        p_systemPrompt := "你是一个专业的写作助手，能够帮助用户改进文章的语法、结构和表达方式。请提供建设性的反馈和改进建议。";
        p_temperature := "0.8";
        p_maxTokens := 1200 |});
    ("translator",
     {| p_name := "翻译助手";
        p_systemPrompt := "你是一个专业的翻译助手，擅长中英文互译。请提供准确、自然的翻译，必要时提供上下文解释。";
        p_temperature := "0.2";
        p_maxTokens := 800 |}) ].

(** [ASSISTANT_PRESETS[mode]] *)
Fixpoint preset_of (mode : string) (table : list (string * Preset))
    : option Preset :=
  match table with
  | [] => None
  | (m, p) :: rest => if String.eqb mode m then Some p else preset_of mode rest
  end.

(** [applyPreset(mode)], for a mode that is a row of the table or no
    property of it at all.  For a name inherited from [Object.prototype]
    the test [if (preset)] passes and [setSystemPrompt(undefined)] throws;
    [switchMode] below gives no result for such a name, and the
    constructor is used with the modes of the table. *)
Definition applyPreset (mode : string) (a : t) : t :=
  match preset_of mode ASSISTANT_PRESETS with
  | Some preset =>
      let conv := ConversationManager.setSystemPrompt
                    preset.(p_systemPrompt) a.(conversation) in
      {| conversation := {|
           ConversationManager.requests := conv.(ConversationManager.requests);
           ConversationManager.conversationHistory :=
             conv.(ConversationManager.conversationHistory);
           ConversationManager.systemPrompt :=
             conv.(ConversationManager.systemPrompt);
           ConversationManager.model := conv.(ConversationManager.model);
           ConversationManager.maxTokens := preset.(p_maxTokens);
           ConversationManager.temperature := preset.(p_temperature);
           ConversationManager.sessionId := conv.(ConversationManager.sessionId) |};
         tokenTracker := a.(tokenTracker);
         cache := a.(cache);
         currentMode := mode |}
  | None => a
  end.

(** The [options] argument of the constructor. *)
Record Options := mkOptions {
  opt_conversation : ConversationManager.Options;
  opt_budgetLimit : option float;
  opt_cache : CacheManager.Options;
  opt_mode : option string
}.

(** [new CleverAssistant(options)] at time [now], with the cache file [d];
    [generated] is the session identifier the conversation generates. *)
Definition new (cfg : Config.t) (now : Z) (generated : string)
    (d : CacheManager.Disk) (options : Options) : t :=
  let mode := JS.str_or options.(opt_mode) "learning" in
  applyPreset mode
    {| conversation :=
         ConversationManager.new cfg generated options.(opt_conversation);
       tokenTracker := TokenTracker.new cfg options.(opt_budgetLimit);
       cache := CacheManager.new cfg now options.(opt_cache) d;
       currentMode := mode |}.

(** The options [sendMessage] passes to [generateKey]: the model, the
    temperature and the system prompt of the conversation. *)
Definition keyOptions (conv : ConversationManager.t) : CacheManager.KeyOptions :=
  {| CacheManager.ko_model := Some conv.(ConversationManager.model);
     CacheManager.ko_maxTokens := None;
     CacheManager.ko_temperature := Some conv.(ConversationManager.temperature);
     CacheManager.ko_systemPrompt :=
       match conv.(ConversationManager.systemPrompt) with
       | Some p => JS.Val p
       | None => JS.Null
       end |}.

(** The [cacheKey] of [sendMessage]. *)
Definition cacheKey (cfg : Config.t) (userInput : string) (a : t) : string :=
  CacheManager.generateKey cfg userInput (keyOptions a.(conversation)).

(** [sendMessage(userInput, options)].  [now] is the time of the call and
    [now'] the time when the remote reply has arrived. *)
Definition sendMessage (cfg : Config.t) (remote : ConversationManager.Remote)
    (now now' : Z) (userInput : string)
    (options : ConversationManager.ChatOptions) (a : t)
    : JS.completion ConversationManager.Result * t :=
  let '(budgetStatus, tracker) := TokenTracker.checkBudget a.(tokenTracker) in
  if budgetStatus.(TokenTracker.isOverBudget)
  then
    (JS.Return (ConversationManager.failure "已超出预算限制"),
     {| conversation := a.(conversation); tokenTracker := tracker;
        cache := a.(cache); currentMode := a.(currentMode) |})
  else
    let key := cacheKey cfg userInput a in
    let '(cachedResponse, cache1) := CacheManager.get now key a.(cache) in
    let hit := match cachedResponse with
               | Some v => JS.truthy v && negb options.(ConversationManager.o_disableCache)
               | None => false
               end in
    match cachedResponse, hit with
    | Some v, true =>
        let conv1 := snd (ConversationManager.addMessage now
                            ConversationManager.user userInput a.(conversation)) in
        let conv2 := snd (ConversationManager.addMessage now
                            ConversationManager.assistant v conv1) in
        (JS.Return {| ConversationManager.success := true;
                      ConversationManager.r_content := Some v;
                      ConversationManager.error := None;
                      ConversationManager.fromCache := true;
                      ConversationManager.usage := None;
                      ConversationManager.r_model := None;
                      ConversationManager.stopReason := None |},
         {| conversation := conv2; tokenTracker := tracker;
            cache := cache1; currentMode := a.(currentMode) |})
    | _, _ =>
        let '(response, conv1) :=
          ConversationManager.chat remote now now' userInput options
                                   a.(conversation) in
        match response.(ConversationManager.success),
              response.(ConversationManager.usage),
              response.(ConversationManager.r_content) with
        | true, Some u, Some text =>
            match TokenTracker.recordCall cfg now'
                    u.(ConversationManager.u_inputTokens)
                    u.(ConversationManager.u_outputTokens)
                    response.(ConversationManager.r_model) None tracker with
            | (JS.Throw e, tracker1) =>
                (JS.Throw e,
                 {| conversation := conv1; tokenTracker := tracker1;
                    cache := cache1; currentMode := a.(currentMode) |})
            | (JS.Return _, tracker1) =>
                let cache2 := snd (CacheManager.set now' key text None cache1) in
                (JS.Return response,
                 {| conversation := conv1; tokenTracker := tracker1;
                    cache := cache2; currentMode := a.(currentMode) |})
            end
        | _, _, _ =>
            (JS.Return response,
             {| conversation := conv1; tokenTracker := tracker;
                cache := cache1; currentMode := a.(currentMode) |})
        end
    end.

(** An entry of [getAvailableModes()]: the key of the preset as [id], with
    the fields of the preset. *)
Record Mode := mkMode {
  id : string;
  mode_preset : Preset
}.

(** [getAvailableModes()] *)
Definition getAvailableModes : list Mode :=
  map (fun e => {| id := fst e; mode_preset := snd e |}) ASSISTANT_PRESETS.

(** The names of the properties that every object literal inherits from
    [Object.prototype].  For these names [ASSISTANT_PRESETS[mode]] is not
    [undefined], although the table has no such row. *)
Definition inherited_names : list string := JS.inherited_names.

Definition inherited (mode : string) : bool :=
  existsb (String.eqb mode) inherited_names.

(** [switchMode(mode)] at time [now], over the data directory [d].  A mode
    that is not a row of the table throws before anything is done.  For an
    inherited name the test passes and [applyPreset] then fails on a preset
    without fields, leaving a system prompt that is [undefined]; that state
    is not one of [ConversationManager.t], and the result is [None]. *)
Definition switchMode (now : Z) (mode : string) (a : t)
    (d : ConversationManager.DataDir)
    : option (JS.completion unit * t * ConversationManager.DataDir) :=
  if inherited mode then None
  else
    match preset_of mode ASSISTANT_PRESETS with
    | None =>
        Some (JS.Throw ("未知模式: " ++ mode ++ "。可用模式: "
                        ++ String.concat ", " (map fst ASSISTANT_PRESETS))%string,
              a, d)
    | Some _ =>
        let d1 := snd (ConversationManager.saveConversation now None
                         a.(conversation) d) in
        let conv := ConversationManager.clearHistory a.(conversation) in
        Some (JS.Return tt,
              applyPreset mode
                {| conversation := conv; tokenTracker := a.(tokenTracker);
                   cache := a.(cache); currentMode := a.(currentMode) |},
              d1)
    end.

(** [reset()] at time [now] *)
Definition reset (now : Z) (a : t) : t :=
  {| conversation := ConversationManager.clearHistory a.(conversation);
     tokenTracker := TokenTracker.reset a.(tokenTracker);
     cache := CacheManager.clear now a.(cache);
     currentMode := a.(currentMode) |}.

End CleverAssistant.

(** ** src/server/server.js *)

Module WebServer.

(** The assistant the constructor of [WebServer] builds: one for the whole
    server, with the budget limit and the cache settings of the
    configuration. *)
Definition assistant (cfg : Config.t) (now : Z) (generated : string)
    (d : CacheManager.Disk) : CleverAssistant.t :=
  CleverAssistant.new cfg now generated d
    {| CleverAssistant.opt_conversation := ConversationManager.defaultOptions;
       CleverAssistant.opt_budgetLimit := Some cfg.(Config.BUDGET_LIMIT);
       CleverAssistant.opt_cache :=
         {| CacheManager.opt_enabled := Some cfg.(Config.ENABLE_CACHE);
            CacheManager.opt_maxSize := Some cfg.(Config.CACHE_MAX_SIZE);
            CacheManager.opt_ttl := None;
            CacheManager.opt_persist := None |};
       CleverAssistant.opt_mode := None |}.

End WebServer.

(** ** src/server/routes/chat.js *)

Module Routes.

(** The body of a request to [POST /chat] that is well typed: [message]
    is a string and [options] an object, each [None] when the body does not
    have it.  [StreamBody] below takes the other values in. *)
Record Body := mkBody {
  message : option string;
  options : option ConversationManager.ChatOptions
}.

(** [const { message, options = {} } = req.body] *)
Definition options_of (body : Body) : ConversationManager.ChatOptions :=
  match body.(options) with
  | Some o => o
  | None => ConversationManager.noOptions
  end.

(** A response sent with [res.status(...).json(...)]; the status is 200
    when the handler sets none. *)
Record JsonReply := mkJsonReply {
  status : Z;
  json : ConversationManager.Result
}.

(** [POST /chat] *)
Definition postChat (cfg : Config.t) (remote : ConversationManager.Remote)
    (now now' : Z) (body : Body) (a : CleverAssistant.t)
    : JsonReply * CleverAssistant.t :=
  match body.(message) with
  | None =>
      ({| status := 400;
          json := ConversationManager.failure "消息内容不能为空" |}, a)
  | Some text =>
      if negb (JS.truthy text)
      then ({| status := 400;
               json := ConversationManager.failure "消息内容不能为空" |}, a)
      else
        match CleverAssistant.sendMessage cfg remote now now' text
                (options_of body) a with
        | (JS.Return response, a') =>
            ({| status := 200; json := response |}, a')
        | (JS.Throw e, a') =>
            ({| status := 500; json := ConversationManager.failure e |}, a')
        end
  end.

(** What [POST /chat/stream] writes with [res.write], as the object each
    [data:] line holds. *)
Inductive SseEvent :=
| SseStart
| SseChunk (chunk : ConversationManager.Chunk)
| SseEnd (response : ConversationManager.Result)
| SseError (error : string).

(** The response of [POST /chat/stream]: a JSON reply, or the headers that
    were set and the events that were written before [res.end()]. *)
Inductive StreamReply :=
| Refused (reply : JsonReply)
| Streamed (headers : list (string * string)) (events : list SseEvent).

Definition sse_headers : list (string * string) :=
  [ ("Content-Type", "text/event-stream"); ("Cache-Control", "no-cache");
    ("Connection", "keep-alive"); ("X-Accel-Buffering", "no") ].

(** The callback [POST /chat/stream] passes to [chatStream]: it writes the
    chunk with [res.write] and returns. *)
Definition write_chunk : ConversationManager.Callback := fun _ => None.

(** What [req.body.message] can be for [POST /chat/stream]: a value that
    is falsy and not a string (also when the body has no message), a
    string, or a truthy value that is not a string (a number, an object). *)
Inductive MessageField :=
| FalsyMessage
| TextMessage (text : string)
| OtherMessage.

(** What [req.body.options] can be: missing ([undefined]), [null], or a
    value whose properties can be read; of a value that is not an object
    every property reads as [undefined], as of an empty object. *)
Inductive OptionsField :=
| MissingOptions
| NullOptions
| GivenOptions (o : ConversationManager.ChatOptions).

Record StreamBody := mkStreamBody {
  sb_message : MessageField;
  sb_options : OptionsField
}.

(** [POST /chat/stream].  The default [options = {}] applies to a missing
    [options] only, so [null] reaches [chatStream], which throws before its
    [try]; the [catch] of the route writes the error event.  For a truthy
    message that is not a string [addMessage] pushes a message whose
    content is not a string before it throws; [Message] has no such value
    and the result is [None]. *)
Definition postChatStream (remote : ConversationManager.StreamRemote)
    (now now' : Z) (body : StreamBody) (a : CleverAssistant.t)
    : option (StreamReply * CleverAssistant.t) :=
  let refused :=
    (Refused {| status := 400;
                json := ConversationManager.failure "消息内容不能为空" |}, a) in
  let with_conversation (conv : ConversationManager.t) :=
    {| CleverAssistant.conversation := conv;
       CleverAssistant.tokenTracker := a.(CleverAssistant.tokenTracker);
       CleverAssistant.cache := a.(CleverAssistant.cache);
       CleverAssistant.currentMode := a.(CleverAssistant.currentMode) |} in
  let stream (text : string) (o : ConversationManager.ChatOptions) :=
    let '(outcome, chunks, conv) :=
      ConversationManager.chatStream remote now now' text o
        (Some write_chunk) a.(CleverAssistant.conversation) in
    (Streamed sse_headers
       ([SseStart] ++ map SseChunk chunks
        ++ [match outcome with
            | JS.Return response => SseEnd response
            | JS.Throw e => SseError e
            end]),
     with_conversation conv) in
  match body.(sb_message) with
  | FalsyMessage => Some refused
  | OtherMessage => None
  | TextMessage text =>
      if negb (JS.truthy text) then Some refused
      else
        match body.(sb_options) with
        | MissingOptions => Some (stream text ConversationManager.noOptions)
        | GivenOptions o => Some (stream text o)
        | NullOptions =>
            let '(e, conv) :=
              ConversationManager.chatStream_null_options now text
                a.(CleverAssistant.conversation) in
            Some (Streamed sse_headers [SseStart; SseError e],
                  with_conversation conv)
        end
  end.

End Routes.

(** * The terms of the properties

    What the properties below are stated with: sequences of operations,
    the record of the accesses, the shape of a history, and the states the
    witnesses run on. *)

(** ** The cache manager *)

Section CacheManagerTerms.

Import CacheManager.

(** A manager as the constructor leaves it when there is no cache file:
    enabled, empty, persisting to a writable file. *)
Definition emptyCache (size : Z) : CacheManager.t :=
  CacheManager.new Config.defaults 0
    {| opt_enabled := Some true; opt_maxSize := Some size;
       opt_ttl := None; opt_persist := None |}
    {| writable := true; content := None |}.

(** The test of [load()] on a saved entry. *)
Definition fresh_at (now : Z) (item : CacheItem.t) : bool :=
  now - item.(CacheItem.createdAt) <? item.(CacheItem.ttl).

(** The entry of the map [load()] makes of a saved entry. *)
Definition entry_of (item : CacheItem.t) : string * CacheItem.t :=
  (item.(CacheItem.key), item).

(** The access order lists the keys of the map, each once. *)
Definition linked (m : JsMap.t CacheItem.t) (o : list string) : Prop :=
  NoDup (JsMap.keys m) /\ NoDup o /\ forall k, In k o <-> In k (JsMap.keys m).

(** [o] is ordered by increasing time of last access. *)
Definition by_recency (last : string -> nat) (o : list string) : Prop :=
  StronglySorted (fun a b => (last a < last b)%nat) o.

(** The time of last access after an access to [k] at time [now]. *)
Definition stamp (last : string -> nat) (k : string) (now : nat)
    : string -> nat :=
  fun k' => if String.eqb k' k then now else last k'.

(** The operations of a manager that a caller can apply. *)
Inductive Op :=
| OpGet (k : string)
| OpSet (k v : string) (ttl : option Z)
| OpDelete (k : string)
| OpClear
| OpCleanup.

(** One operation, at the time it is given with. *)
Definition step (c : CacheManager.t) (e : Z * Op) : CacheManager.t :=
  match snd e with
  | OpGet k => snd (get (fst e) k c)
  | OpSet k v ttl => snd (set (fst e) k v ttl c)
  | OpDelete k => snd (delete (fst e) k c)
  | OpClear => clear (fst e) c
  | OpCleanup => snd (cleanup (fst e) c)
  end.

(** A sequence of operations, each with its time, from the state [c]. *)
Definition run (ops : list (Z * Op)) (c : CacheManager.t) : CacheManager.t :=
  fold_left step ops c.

(** The key an operation accesses: the key of a [set] on an enabled manager,
    and the key of a [get] that returns a value. *)
Definition accessed (c : CacheManager.t) (e : Z * Op) : option string :=
  match snd e with
  | OpGet k => match fst (get (fst e) k c) with
               | Some _ => Some k
               | None => None
               end
  | OpSet k _ _ => if c.(enabled) then Some k else None
  | _ => None
  end.

(** The operations are numbered from 1; [last k] is the number of the last
    operation that accessed [k], and 0 when there is none. *)
Record Recency := mkRecency {
  clock : nat;
  last : string -> nat
}.

(** One operation on the manager, and the record of the accesses after
    it. *)
Definition observe (g : CacheManager.t * Recency) (e : Z * Op)
    : CacheManager.t * Recency :=
  (step (fst g) e,
   {| clock := S (snd g).(clock);
      last := match accessed (fst g) e with
              | Some k => stamp (snd g).(last) k (S (snd g).(clock))
              | None => (snd g).(last)
              end |}).

(** The record of the accesses after a sequence of operations. *)
Definition recency (ops : list (Z * Op)) (c : CacheManager.t) : Recency :=
  snd (fold_left observe ops (c, {| clock := 0; last := fun _ => 0%nat |})).

(** The invariant of the manager, with the ghost record of the accesses. *)
Record cache_inv (c : CacheManager.t) (r : Recency) : Prop := mkInv {
  inv_enabled : c.(enabled) = true;
  inv_linked : linked c.(cache) c.(accessOrder);
  inv_bound : 1 <= c.(maxSize) -> JsMap.size c.(cache) <= c.(maxSize);
  inv_recency : by_recency r.(last) c.(accessOrder);
  inv_clock : forall a, In a c.(accessOrder) -> (r.(last) a <= r.(clock))%nat
}.

(** [c'] is [c] with some entries taken out. *)
Definition shrinks (c c' : CacheManager.t) : Prop :=
  linked c.(cache) c.(accessOrder) ->
  c'.(enabled) = c.(enabled)
  /\ c'.(maxSize) = c.(maxSize)
  /\ linked c'.(cache) c'.(accessOrder)
  /\ (List.length c'.(cache) <= List.length c.(cache))%nat
  /\ exists p, c'.(accessOrder) = filter p c.(accessOrder).

End CacheManagerTerms.

(** ** The token tracker *)

Section TokenTrackerTerms.

Import TokenTracker.

(** The sum of a list of costs, from [0], in the order of the list. *)
Definition sum_costs (costs : list float) : float :=
  fold_left PrimFloat.add costs 0%float.

(** [n] calls of [checkBudget()] in a row. *)
Definition checkBudget_times (n : nat) (tr : TokenTracker.t) : TokenTracker.t :=
  Nat.iter n (fun t => snd (checkBudget t)) tr.

End TokenTrackerTerms.

(** ** The conversation history *)

Section ConversationTerms.

Import ConversationManager.

(** [a === b] on roles. *)
Definition role_eqb (a b : Role) : bool :=
  match a, b with
  | user, user => true
  | assistant, assistant => true
  | _, _ => false
  end.

(** The role of the next message of an alternating history. *)
Definition other (r : Role) : Role :=
  match r with
  | user => assistant
  | assistant => user
  end.

(** The roles of [h] alternate, starting with [first]. *)
Fixpoint alternates (first : Role) (h : list Message) : bool :=
  match h with
  | [] => true
  | m :: h' => role_eqb m.(role) first && alternates (other first) h'
  end.

(** A call of [chat]: the remote model, the two times, the text and the
    options. *)
Record ChatCall := mkChatCall {
  cc_remote : Remote;
  cc_now : Z;
  cc_now' : Z;
  cc_userInput : string;
  cc_options : ChatOptions
}.

(** The conversation after one call. *)
Definition chat_call (c : ConversationManager.t) (call : ChatCall)
    : ConversationManager.t :=
  snd (chat call.(cc_remote) call.(cc_now) call.(cc_now') call.(cc_userInput)
            call.(cc_options) c).

(** The conversation after a sequence of calls. *)
Definition chats (calls : list ChatCall) (c : ConversationManager.t)
    : ConversationManager.t :=
  fold_left chat_call calls c.

(** The history invariant: user and assistant messages alternate, starting
    with a user message, and every user message has its reply. *)
Definition well_formed (h : list Message) : Prop :=
  alternates user h = true /\ Nat.even (List.length h) = true.

(** A conversation as the constructor leaves it, and three calls: one
    answered, one rejected, one answered. *)
Definition demo_conversation : ConversationManager.t :=
  ConversationManager.new Config.defaults "session-1" defaultOptions.

(** The reply of the answered calls. *)
Definition demo_reply : ApiResponse :=
  {| resp_content := [Some "hello"];
     resp_usage := Some {| input_tokens := 12; output_tokens := 5 |};
     resp_model := "claude-3-5-sonnet-20241022";
     stop_reason := Some "end_turn" |}.

(** The three calls. *)
Definition demo_calls : list ChatCall :=
  [ mkChatCall (fun _ => Resolved demo_reply) 10 20 "hi" noOptions;
    mkChatCall (fun _ => Rejected "overloaded") 30 40 "hi" noOptions;
    mkChatCall (fun _ => Resolved demo_reply) 50 60 "again" noOptions ].

(** The request [chat] sends for [userInput] and [options] on the
    conversation [c]. *)
Definition chat_params (userInput : string) (options : ChatOptions)
    (c : ConversationManager.t) : ApiParams :=
  {| ap_model := JS.str_or options.(o_model) c.(model);
     ap_max_tokens := JS.num_or options.(o_maxTokens) c.(maxTokens);
     ap_messages := getFormattedHistory c ++ [(user, userInput)];
     ap_system := match c.(systemPrompt) with
                  | Some p => if JS.truthy p then Some p else None
                  | None => None
                  end;
     ap_temperature := options.(o_temperature) |}.

(** The call resolved with a response whose first block has no text, or
    with a response that has a text and no usage. *)
Definition incomplete (reply : ApiReply) : bool :=
  match reply with
  | Rejected _ => false
  | Resolved response =>
      match response.(resp_content), response.(resp_usage) with
      | None :: _, _ => true
      | Some _ :: _, None => true
      | _, _ => false
      end
  end.

(** A response that opens with a block without text. *)
Definition tool_reply : ApiResponse :=
  {| resp_content := [None; Some "hello"];
     resp_usage := Some {| input_tokens := 12; output_tokens := 5 |};
     resp_model := "claude-3-5-sonnet-20241022";
     stop_reason := Some "tool_use" |}.

(** A call answered with [tool_reply], then a call that is answered in
    full. *)
Definition tool_call : ChatCall :=
  mkChatCall (fun _ => Resolved tool_reply) 10 20 "hi" noOptions.

Definition calls_after_tool_reply : list ChatCall :=
  [ tool_call;
    mkChatCall (fun _ => Resolved demo_reply) 30 40 "again" noOptions ].

End ConversationTerms.

(** ** The request pipeline *)

Section PipelineTerms.

Import CleverAssistant.

(** The tracker reports that the recorded cost has reached the limit. *)
Definition overBudget (a : CleverAssistant.t) : bool :=
  (fst (TokenTracker.checkBudget a.(tokenTracker))).(TokenTracker.isOverBudget).

(** The learning assistant of the command line, with the cache enabled and a
    budget of 0.50 dollars, before any cache file exists. *)
Definition demo_assistant : CleverAssistant.t :=
  CleverAssistant.new Config.defaults 0 "session-0-abcdefghi"
    {| CacheManager.writable := true; CacheManager.content := None |}
    {| opt_conversation := ConversationManager.defaultOptions;
       opt_budgetLimit := Some 0.5%float;
       opt_cache := {| CacheManager.opt_enabled := Some true;
                       CacheManager.opt_maxSize := None;
                       CacheManager.opt_ttl := None;
                       CacheManager.opt_persist := None |};
       opt_mode := None |}.

(** A remote model that answers every request with the same text and
    reports 200000 input tokens: 0.60 dollars at the price of the default
    model. *)
Definition demo_remote : ConversationManager.Remote :=
  fun _ =>
    ConversationManager.Resolved
      {| ConversationManager.resp_content := [Some "hello"];
         ConversationManager.resp_usage :=
           Some {| ConversationManager.input_tokens := 200000;
                   ConversationManager.output_tokens := 0 |};
         ConversationManager.resp_model := "claude-3-5-sonnet-20241022";
         ConversationManager.stop_reason := Some "end_turn" |}.

(** The assistant after a first request, answered by the remote model. *)
Definition demo_assistant_after_call : CleverAssistant.t :=
  snd (sendMessage Config.defaults demo_remote 1000 2000 "hi"
                   ConversationManager.noOptions demo_assistant).

(** The learning assistant with a budget of one dollar, after a first
    request that the remote model answered: the answer is in the cache and
    the recorded cost, 0.60 dollars, is below the limit. *)
Definition learning_1000 : CleverAssistant.t :=
  snd (sendMessage Config.defaults demo_remote 1000 2000 "hi"
         ConversationManager.noOptions
         {| conversation := demo_assistant.(conversation);
            tokenTracker := TokenTracker.new Config.defaults (Some 1%float);
            cache := demo_assistant.(cache);
            currentMode := demo_assistant.(currentMode) |}).

(** The assistant with [conversation.maxTokens] set to [n]. *)
Definition with_maxTokens (a : CleverAssistant.t) (n : Z) : CleverAssistant.t :=
  {| conversation := {|
       ConversationManager.requests :=
         a.(conversation).(ConversationManager.requests);
       ConversationManager.conversationHistory :=
         a.(conversation).(ConversationManager.conversationHistory);
       ConversationManager.systemPrompt :=
         a.(conversation).(ConversationManager.systemPrompt);
       ConversationManager.model :=
         a.(conversation).(ConversationManager.model);
       ConversationManager.maxTokens := n;
       ConversationManager.temperature :=
         a.(conversation).(ConversationManager.temperature);
       ConversationManager.sessionId :=
         a.(conversation).(ConversationManager.sessionId) |};
     tokenTracker := a.(tokenTracker);
     cache := a.(cache);
     currentMode := a.(currentMode) |}.

(** The same assistant with [maxTokens = 1500] instead of the 1000 of the
    learning preset. *)
Definition learning_1500 : CleverAssistant.t :=
  with_maxTokens learning_1000 1500.

(** The options [sendMessage] passes to [generateKey] for that assistant,
    with [maxTokens = n] added. *)
Definition keyOptions_with (n : Z) : CacheManager.KeyOptions :=
  {| CacheManager.ko_model :=
       (keyOptions learning_1000.(conversation)).(CacheManager.ko_model);
     CacheManager.ko_maxTokens := Some n;
     CacheManager.ko_temperature :=
       (keyOptions learning_1000.(conversation)).(CacheManager.ko_temperature);
     CacheManager.ko_systemPrompt :=
       (keyOptions learning_1000.(conversation)).(CacheManager.ko_systemPrompt) |}.

End PipelineTerms.

(** ** The text of a key *)

Section JsonTerms.

(** The value of a hexadecimal digit. *)
Definition hex_value (a : ascii) : option N :=
  let n := N_of_ascii a in
  if ((48 <=? n) && (n <=? 57))%N then Some (n - 48)%N
  else if ((97 <=? n) && (n <=? 102))%N then Some (n - 87)%N
  else None.

(** The first character of a string that [Json.escape] wrote, read back,
    with the rest of the string. *)
Definition unquote_char (s : string) : option (ascii * string) :=
  match s with
  | EmptyString => None
  | String b rest =>
      if Ascii.eqb b Json.backslash
      then
        match rest with
        | EmptyString => None
        | String e rest' =>
            if Ascii.eqb e Json.dquote then Some (Json.dquote, rest')
            else if Ascii.eqb e Json.backslash then Some (Json.backslash, rest')
            else if Ascii.eqb e "b" then Some ("008"%char, rest')
            else if Ascii.eqb e "f" then Some ("012"%char, rest')
            else if Ascii.eqb e "n" then Some ("010"%char, rest')
            else if Ascii.eqb e "r" then Some ("013"%char, rest')
            else if Ascii.eqb e "t" then Some ("009"%char, rest')
            else if Ascii.eqb e "u" then
              match rest' with
              | String _ (String _ (String h1 (String h2 r))) =>
                  match hex_value h1, hex_value h2 with
                  | Some x, Some y => Some (ascii_of_N (16 * x + y), r)
                  | _, _ => None
                  end
              | _ => None
              end
            else None
        end
      else Some (b, rest)
  end.

(** The characters of the text of a finite number: digits, the sign, the
    point and the exponent mark. *)
Definition number_char (a : ascii) : bool :=
  existsb (Ascii.eqb a) (list_ascii_of_string "0123456789+-.e").

Definition number_text (t : string) : bool :=
  forallb number_char (list_ascii_of_string t).

(** The digits of a hexadecimal digest. *)
Definition hex_chars : list ascii := list_ascii_of_string "0123456789abcdef".

End JsonTerms.

(** ** The cache manager and its file *)

Section CacheManagerTerms2.

Import CacheManager.

(** The test of [cleanup()] on an entry of the map. *)
Definition stale (now : Z) (e : string * CacheItem.t) : bool :=
  CacheItem.isExpired now (snd e).

(** What the cache file says of an entry, the hit counter apart. *)
Definition stored (i : CacheItem.t) : string * string * Z * Z :=
  (i.(CacheItem.key), i.(CacheItem.value), i.(CacheItem.createdAt),
   i.(CacheItem.ttl)).

(** The entries the cache file lists; none when there is no file. *)
Definition on_disk (c : CacheManager.t) : list CacheItem.t :=
  match c.(disk).(content) with
  | Some data => data.(snap_cache)
  | None => []
  end.

(** The file lists the entries of the map, in the order of the map, with
    their values, creation times and ttls. *)
Definition mirrors (c : CacheManager.t) : Prop :=
  map stored (on_disk c) = map stored (map saved_entry c.(cache)).

(** The manager persists to a file it can write. *)
Definition persistent (c : CacheManager.t) : Prop :=
  c.(persistenceEnabled) = true /\ c.(disk).(writable) = true.

Definition is_get (e : Z * Op) : bool :=
  match snd e with OpGet _ => true | _ => false end.

Definition is_set (e : Z * Op) : bool :=
  match snd e with OpSet _ _ _ => true | _ => false end.

Definition is_clear (e : Z * Op) : bool :=
  match snd e with OpClear => true | _ => false end.

(** A cache of capacity 2 that holds [k1] and [k2], [k1] the least recently
    used. *)
Definition two_entries : CacheManager.t :=
  run [ (1, OpSet "k1" "a" None); (2, OpSet "k2" "b" None) ] (emptyCache 2).

(** A cache with an entry that lives 10 ms and one that lives an hour. *)
Definition short_and_long : CacheManager.t :=
  run [ (1, OpSet "short" "a" (Some 10)); (2, OpSet "long" "b" None) ]
      (emptyCache 2).

(** Writes, a read, a removal and a clean-up. *)
Definition demo_ops : list (Z * Op) :=
  [ (1, OpSet "k1" "a" (Some 10)); (2, OpSet "k2" "b" None); (3, OpGet "k2");
    (4, OpSet "k3" "c" None); (5, OpDelete "k3"); (20, OpCleanup);
    (21, OpGet "k1") ].

End CacheManagerTerms2.

(** ** Sequences of recorded calls *)

Section TokenTrackerTerms2.

Import TokenTracker.

(** A call to record: the time, the token counts, the model and the
    request id. *)
Record Call := mkCall {
  call_now : Z;
  call_input : float;
  call_output : float;
  call_model : option string;
  call_id : option string
}.

(** The tracker after one call of [recordCall], and after a sequence. *)
Definition record (cfg : Config.t) (tr : TokenTracker.t) (call : Call)
    : TokenTracker.t :=
  snd (recordCall cfg call.(call_now) call.(call_input) call.(call_output)
                  call.(call_model) call.(call_id) tr).

Definition records (cfg : Config.t) (calls : list Call) (tr : TokenTracker.t)
    : TokenTracker.t :=
  fold_left (record cfg) calls tr.

(** The line [validate()] reports for a budget limit that is zero or
    negative. *)
Definition budget_error : string := "❌ BUDGET_LIMIT 必须大于0".

(** The default configuration with a [BUDGET_LIMIT] that did not parse. *)
Definition unparsed_budget : Config.t :=
  {| Config.DEFAULT_MODEL := Config.defaults.(Config.DEFAULT_MODEL);
     Config.DEFAULT_MAX_TOKENS := Config.defaults.(Config.DEFAULT_MAX_TOKENS);
     Config.BUDGET_LIMIT := nan;
     Config.WARN_THRESHOLD := Config.defaults.(Config.WARN_THRESHOLD);
     Config.ENABLE_CACHE := Config.defaults.(Config.ENABLE_CACHE);
     Config.CACHE_MAX_SIZE := Config.defaults.(Config.CACHE_MAX_SIZE) |}.

(** Credentials with a key of the expected form. *)
Definition demo_credentials : Config.Credentials :=
  {| Config.ANTHROPIC_API_KEY := Some "sk-ant-demo";
     Config.ANTHROPIC_BASE_URL := None;
     Config.ANTHROPIC_AUTH_TOKEN := None |}.

(** Two calls, the second for a model the price table does not have. *)
Definition demo_records : list Call :=
  [ mkCall 10 1000 200 None None;
    mkCall 20 500 100 (Some "unlisted-model") (Some "req-2") ].

End TokenTrackerTerms2.

(** ** Streams, summaries and saved conversations *)

Section ConversationTerms2.

Import ConversationManager.



(** The texts of the content deltas of a stream, and the texts [onChunk]
    was called with. *)
Definition delta_texts (events : list StreamEvent) : list string :=
  flat_map (fun e => match e with
                     | content_block_delta (Some t) => [t]
                     | _ => []
                     end) events.

Definition chunk_texts (chunks : list Chunk) : list string :=
  flat_map (fun ch => match ch with
                      | ContentChunk t => [t]
                      | ErrorChunk _ => []
                      end) chunks.

(** The event is not a content delta without text. *)
Definition textual (e : StreamEvent) : bool :=
  match e with
  | content_block_delta None => false
  | _ => true
  end.

(** The conversation after the three calls of [demo_calls]: two rounds. *)
Definition two_rounds : ConversationManager.t :=
  chats demo_calls demo_conversation.

(** A streamed reply in two deltas. *)
Definition demo_events : list StreamEvent :=
  [ message_start (Some 12%float);
    content_block_delta (Some "Hel"); content_block_delta (Some "lo");
    message_delta (Some 5%float) (Some (Some "end_turn")); message_stop ].

Definition demo_stream : StreamRemote := fun _ => StreamOpened demo_events None.

(** A writable data directory without files. *)
Definition empty_dir : DataDir := {| dir_writable := true; dir_files := [] |}.

End ConversationTerms2.

(** ** Sequences of requests *)

Section PipelineTerms2.

Import CleverAssistant.

(** A request to the assistant: the remote model as it answers at that
    time, the two times, the text and the options. *)
Record Request := mkRequest {
  rq_remote : ConversationManager.Remote;
  rq_now : Z;
  rq_now' : Z;
  rq_text : string;
  rq_options : ConversationManager.ChatOptions
}.

(** One request, and the assistant after a sequence of requests. *)
Definition send (cfg : Config.t) (a : CleverAssistant.t) (rq : Request)
    : JS.completion ConversationManager.Result * CleverAssistant.t :=
  sendMessage cfg rq.(rq_remote) rq.(rq_now) rq.(rq_now') rq.(rq_text)
              rq.(rq_options) a.

Definition session (cfg : Config.t) (rqs : list Request)
    (a : CleverAssistant.t) : CleverAssistant.t :=
  fold_left (fun a rq => snd (send cfg a rq)) rqs a.

(** The result is an answer taken from the cache. *)
Definition served_from_cache (r : JS.completion ConversationManager.Result)
    : bool :=
  match r with
  | JS.Return x => x.(ConversationManager.fromCache)
  | JS.Throw _ => false
  end.

(** [!message] is false for the body. *)
Definition has_message (body : Routes.Body) : bool :=
  match body.(Routes.message) with
  | Some text => JS.truthy text
  | None => false
  end.

(** The learning assistant with a budget of one dollar and the cache
    enabled, before its first request. *)
Definition fresh_learning : CleverAssistant.t :=
  {| conversation := demo_assistant.(conversation);
     tokenTracker := TokenTracker.new Config.defaults (Some 1%float);
     cache := demo_assistant.(cache);
     currentMode := demo_assistant.(currentMode) |}.

(** What [demo_remote] answers, as [chat] returns it. *)
Definition demo_answer : ConversationManager.Result :=
  {| ConversationManager.success := true;
     ConversationManager.r_content := Some "hello";
     ConversationManager.error := None;
     ConversationManager.fromCache := false;
     ConversationManager.usage :=
       Some {| ConversationManager.u_inputTokens := 200000;
               ConversationManager.u_outputTokens := 0;
               ConversationManager.u_totalTokens := 200000 |};
     ConversationManager.r_model := Some "claude-3-5-sonnet-20241022";
     ConversationManager.stopReason := Some "end_turn" |}.

(** A remote model that rejects every request. *)
Definition failing_remote : ConversationManager.Remote :=
  fun _ => ConversationManager.Rejected "overloaded".

(** Options that ask not to read the cache. *)
Definition no_cache_options : ConversationManager.ChatOptions :=
  {| ConversationManager.o_model := None;
     ConversationManager.o_maxTokens := None;
     ConversationManager.o_temperature := None;
     ConversationManager.o_disableCache := true |}.


(** A request with the text "hi". *)
Definition hi_request : Request :=
  mkRequest demo_remote 1000 2000 "hi" ConversationManager.noOptions.

(** A body with the text "hi" and [options: null]. *)
Definition hi_null_body : Routes.StreamBody :=
  {| Routes.sb_message := Routes.TextMessage "hi";
     Routes.sb_options := Routes.NullOptions |}.

End PipelineTerms2.

(** * Properties *)

(** ** The insertion-ordered map *)

Section JsMapFacts.

Context {V : Type}.

Implicit Types (m : JsMap.t V) (k : string) (v : V).

Lemma jsmap_get_None k m :
  JsMap.get k m = None <-> ~ In k (JsMap.keys m).
Proof.
  induction m as [|[k' v'] m IH]; simpl.
  - tauto.
  - destruct (String.eqb_spec k k') as [->|Hne].
    + split; [discriminate | intros H; exfalso; apply H; now left].
    + rewrite IH. split; intros H; [intros [E|E]; [congruence|tauto] | tauto].
Qed.

Lemma jsmap_has_true k m :
  JsMap.has k m = true <-> In k (JsMap.keys m).
Proof.
  unfold JsMap.has. destruct (JsMap.get k m) eqn:E.
  - split; [intros _|reflexivity].
    destruct (in_dec string_dec k (JsMap.keys m)) as [i|n]; [exact i|].
    apply jsmap_get_None in n. congruence.
  - apply jsmap_get_None in E. split; [discriminate|tauto].
Qed.

Lemma jsmap_has_false k m :
  JsMap.has k m = false <-> ~ In k (JsMap.keys m).
Proof.
  rewrite <- jsmap_has_true. destruct (JsMap.has k m); split; congruence.
Qed.

Lemma jsmap_get_In k m v :
  JsMap.get k m = Some v -> In (k, v) m.
Proof.
  induction m as [|[k' v'] m IH]; simpl; [discriminate|].
  destruct (String.eqb_spec k k') as [->|Hne].
  - intros [= ->]. now left.
  - intros H. right. now apply IH.
Qed.

Lemma jsmap_In_get k m v :
  NoDup (JsMap.keys m) -> In (k, v) m -> JsMap.get k m = Some v.
Proof.
  induction m as [|[k' v'] m IH]; simpl; [tauto|].
  intros Hnd [E|Hin]; inversion Hnd as [|? ? Hnotin Hnd']; subst.
  - inversion E; subst. now rewrite String.eqb_refl.
  - destruct (String.eqb_spec k k') as [->|Hne].
    + exfalso. apply Hnotin. apply (in_map fst) in Hin. exact Hin.
    + now apply IH.
Qed.

Lemma jsmap_keys_set_old k v m :
  In k (JsMap.keys m) -> JsMap.keys (JsMap.set k v m) = JsMap.keys m.
Proof.
  induction m as [|[k' v'] m IH]; simpl; [tauto|].
  destruct (String.eqb_spec k k') as [->|Hne]; simpl; [reflexivity|].
  intros [E|Hin]; [congruence|]. now rewrite IH.
Qed.

Lemma jsmap_keys_set_new k v m :
  ~ In k (JsMap.keys m) -> JsMap.keys (JsMap.set k v m) = JsMap.keys m ++ [k].
Proof.
  induction m as [|[k' v'] m IH]; simpl; [reflexivity|].
  destruct (String.eqb_spec k k') as [->|Hne]; simpl.
  - intros H. exfalso. apply H. now left.
  - intros H. rewrite IH; [reflexivity|tauto].
Qed.

Lemma jsmap_keys_delete k m :
  JsMap.keys (JsMap.delete k m)
  = filter (fun k' => negb (String.eqb k k')) (JsMap.keys m).
Proof.
  induction m as [|[k' v'] m IH]; simpl; [reflexivity|].
  destruct (String.eqb k k'); simpl; now rewrite IH.
Qed.

Lemma jsmap_get_set_eq k v m :
  JsMap.get k (JsMap.set k v m) = Some v.
Proof.
  induction m as [|[k' v'] m IH]; simpl.
  - now rewrite String.eqb_refl.
  - destruct (String.eqb k k') eqn:E; simpl.
    + now rewrite String.eqb_refl.
    + now rewrite E.
Qed.

Lemma jsmap_get_set_neq k k' v m :
  k <> k' -> JsMap.get k' (JsMap.set k v m) = JsMap.get k' m.
Proof.
  intros Hne. induction m as [|[k0 v0] m IH]; simpl.
  - destruct (String.eqb_spec k' k); [congruence|reflexivity].
  - destruct (String.eqb_spec k k0) as [->|Hne0]; simpl.
    + destruct (String.eqb_spec k' k0); [congruence|reflexivity].
    + now rewrite IH.
Qed.

Lemma jsmap_get_delete_eq k m :
  JsMap.get k (JsMap.delete k m) = None.
Proof.
  apply jsmap_get_None. rewrite jsmap_keys_delete, filter_In.
  intros [_ H]. now rewrite String.eqb_refl in H.
Qed.

Lemma jsmap_get_delete_neq k k' m :
  k <> k' -> JsMap.get k' (JsMap.delete k m) = JsMap.get k' m.
Proof.
  intros Hne. induction m as [|[k0 v0] m IH]; simpl; [reflexivity|].
  destruct (String.eqb_spec k k0) as [->|Hne0]; simpl.
  - destruct (String.eqb_spec k' k0); [congruence|exact IH].
  - now rewrite IH.
Qed.

Lemma jsmap_delete_absent k m :
  ~ In k (JsMap.keys m) -> JsMap.delete k m = m.
Proof.
  induction m as [|[k' v'] m IH]; simpl; [reflexivity|].
  intros H. destruct (String.eqb_spec k k') as [->|Hne]; simpl.
  - exfalso. apply H. now left.
  - rewrite IH; [reflexivity|tauto].
Qed.

Lemma jsmap_length_set_old k v m :
  In k (JsMap.keys m) -> List.length (JsMap.set k v m) = List.length m.
Proof.
  intros H. apply jsmap_keys_set_old with (v := v) in H.
  apply (f_equal (@List.length _)) in H. unfold JsMap.keys in H.
  now rewrite !length_map in H.
Qed.

Lemma jsmap_length_set_new k v m :
  ~ In k (JsMap.keys m) -> List.length (JsMap.set k v m) = S (List.length m).
Proof.
  intros H. apply jsmap_keys_set_new with (v := v) in H.
  apply (f_equal (@List.length _)) in H. unfold JsMap.keys in H.
  rewrite length_app, !length_map in H. simpl in H. lia.
Qed.

Lemma jsmap_length_delete k m :
  NoDup (JsMap.keys m) -> In k (JsMap.keys m) ->
  S (List.length (JsMap.delete k m)) = List.length m.
Proof.
  induction m as [|[k' v'] m IH]; simpl; [tauto|].
  intros Hnd Hin. inversion Hnd as [|? ? Hnotin Hnd']; subst.
  destruct (String.eqb_spec k k') as [->|Hne]; simpl.
  - fold (JsMap.delete k' m). now rewrite jsmap_delete_absent.
  - fold (JsMap.delete k m). destruct Hin as [E|Hin]; [congruence|].
    now rewrite IH.
Qed.

Lemma jsmap_length_delete_le k m :
  (List.length (JsMap.delete k m) <= List.length m)%nat.
Proof. apply filter_length_le. Qed.

Lemma jsmap_set_new_app k v m :
  ~ In k (JsMap.keys m) -> JsMap.set k v m = m ++ [(k, v)].
Proof.
  induction m as [|[k' v'] m IH]; simpl; [reflexivity|].
  intros H. destruct (String.eqb_spec k k') as [->|Hne].
  - exfalso. apply H. now left.
  - rewrite IH; [reflexivity|tauto].
Qed.

Lemma jsmap_NoDup_set k v m :
  NoDup (JsMap.keys m) -> NoDup (JsMap.keys (JsMap.set k v m)).
Proof.
  intros Hnd. destruct (in_dec string_dec k (JsMap.keys m)) as [Hin|Hout].
  - now rewrite jsmap_keys_set_old.
  - rewrite jsmap_keys_set_new by exact Hout.
    apply NoDup_app; [exact Hnd | repeat constructor; simpl; tauto |].
    intros x Hx [<-|[]]. contradiction.
Qed.

Lemma jsmap_NoDup_delete k m :
  NoDup (JsMap.keys m) -> NoDup (JsMap.keys (JsMap.delete k m)).
Proof.
  intros Hnd. rewrite jsmap_keys_delete. now apply NoDup_filter.
Qed.

End JsMapFacts.

(** ** The cache manager *)

Section CacheManagerFacts.

Import CacheManager.

(** [persist] only writes the file. *)
Lemma persist_fields (now : Z) (c : CacheManager.t) :
  (persist now c).(enabled) = c.(enabled)
  /\ (persist now c).(maxSize) = c.(maxSize)
  /\ (persist now c).(defaultTTL) = c.(defaultTTL)
  /\ (persist now c).(cache) = c.(cache)
  /\ (persist now c).(accessOrder) = c.(accessOrder)
  /\ (persist now c).(persistenceEnabled) = c.(persistenceEnabled)
  /\ (persist now c).(stats) = c.(stats).
Proof.
  unfold persist, save.
  destruct (persistenceEnabled c) eqn:Ep; [destruct (writable (disk c))|];
    simpl; rewrite ?Ep; tauto.
Qed.

Lemma persist_enabled now c : (persist now c).(enabled) = c.(enabled).
Proof. apply persist_fields. Qed.

Lemma persist_maxSize now c : (persist now c).(maxSize) = c.(maxSize).
Proof. apply persist_fields. Qed.

Lemma persist_defaultTTL now c : (persist now c).(defaultTTL) = c.(defaultTTL).
Proof. apply persist_fields. Qed.

Lemma persist_cache now c : (persist now c).(cache) = c.(cache).
Proof. apply persist_fields. Qed.

Lemma persist_accessOrder now c :
  (persist now c).(accessOrder) = c.(accessOrder).
Proof. apply persist_fields. Qed.

Lemma persist_persistenceEnabled now c :
  (persist now c).(persistenceEnabled) = c.(persistenceEnabled).
Proof. apply persist_fields. Qed.

Lemma persist_stats now c : (persist now c).(stats) = c.(stats).
Proof. apply persist_fields. Qed.

Create Rewrite HintDb cache_fields.

#[local] Hint Rewrite persist_enabled persist_maxSize persist_defaultTTL
  persist_cache persist_accessOrder persist_persistenceEnabled persist_stats
  : cache_fields.

(** The state [delete] leaves, field by field. *)
Lemma delete_fields (now : Z) (k : string) (c : CacheManager.t) :
  let c' := snd (delete now k c) in
  c'.(enabled) = c.(enabled)
  /\ c'.(maxSize) = c.(maxSize)
  /\ c'.(defaultTTL) = c.(defaultTTL)
  /\ c'.(cache) = JsMap.delete k c.(cache)
  /\ c'.(accessOrder)
     = (if JsMap.has k c.(cache)
        then filter (fun k' => negb (String.eqb k' k)) c.(accessOrder)
        else c.(accessOrder))
  /\ c'.(stats)
     = (if JsMap.has k c.(cache) then incr_deletes c.(stats) else c.(stats)).
Proof.
  unfold delete. destruct (JsMap.has k (cache c)) eqn:Hhas; simpl.
  - autorewrite with cache_fields. simpl. tauto.
  - apply jsmap_has_false in Hhas. rewrite jsmap_delete_absent by exact Hhas.
    tauto.
Qed.

(** The state [set] leaves on an enabled manager, field by field. *)
Lemma set_fields (now : Z) (k v : string) (ttl : option Z) (c : CacheManager.t) :
  c.(enabled) = true ->
  let full := (c.(maxSize) <=? JsMap.size c.(cache))
              && negb (JsMap.has k c.(cache)) in
  let c1 := if full then evictLRU c else c in
  let c' := snd (set now k v ttl c) in
  fst (set now k v ttl c) = true
  /\ c'.(enabled) = true
  /\ c'.(maxSize) = c.(maxSize)
  /\ c'.(defaultTTL) = c.(defaultTTL)
  /\ c'.(cache)
     = JsMap.set k (CacheItem.new now k v (JS.num_or ttl c.(defaultTTL)))
                 c1.(cache)
  /\ c'.(accessOrder) = remove_first k c1.(accessOrder) ++ [k]
  /\ c'.(stats) = incr_sets c1.(stats).
Proof.
  intros Hen full c1 c'. subst c'. unfold set. rewrite Hen. simpl.
  fold full. fold c1. autorewrite with cache_fields. simpl.
  assert (H1 : c1.(enabled) = true /\ c1.(maxSize) = c.(maxSize)
               /\ c1.(defaultTTL) = c.(defaultTTL)).
  { subst c1. destruct full; [|tauto]. unfold evictLRU.
    destruct (accessOrder c); simpl; tauto. }
  destruct H1 as (-> & -> & ->). tauto.
Qed.

(** The state [get] leaves on an enabled manager when the entry is there and
    has not expired. *)
Lemma get_hit_fields (now : Z) (k : string) (c : CacheManager.t)
    (item : CacheItem.t) :
  c.(enabled) = true ->
  JsMap.get k c.(cache) = Some item ->
  now - item.(CacheItem.createdAt) <= item.(CacheItem.ttl) ->
  let c' := snd (get now k c) in
  fst (get now k c) = Some item.(CacheItem.value)
  /\ c'.(enabled) = true
  /\ c'.(maxSize) = c.(maxSize)
  /\ c'.(defaultTTL) = c.(defaultTTL)
  /\ c'.(cache) = JsMap.set k (CacheItem.touch item) c.(cache)
  /\ c'.(accessOrder) = remove_first k c.(accessOrder) ++ [k]
  /\ c'.(stats) = incr_hits c.(stats).
Proof.
  intros Hen Hget Hfresh c'. subst c'. unfold get. rewrite Hen, Hget. simpl.
  unfold CacheItem.isExpired.
  destruct (Z.ltb_spec (CacheItem.ttl item) (now - CacheItem.createdAt item));
    [lia|]. simpl. rewrite Hen. tauto.
Qed.

(** The state [get] leaves on an enabled manager when the entry is there and
    has expired. *)
Lemma get_expired_fields (now : Z) (k : string) (c : CacheManager.t)
    (item : CacheItem.t) :
  c.(enabled) = true ->
  JsMap.get k c.(cache) = Some item ->
  item.(CacheItem.ttl) < now - item.(CacheItem.createdAt) ->
  let c' := snd (get now k c) in
  fst (get now k c) = None
  /\ c'.(enabled) = true
  /\ c'.(maxSize) = c.(maxSize)
  /\ c'.(defaultTTL) = c.(defaultTTL)
  /\ c'.(cache) = JsMap.delete k c.(cache)
  /\ c'.(accessOrder) = filter (fun k' => negb (String.eqb k' k)) c.(accessOrder)
  /\ c'.(stats) = incr_misses (incr_deletes c.(stats)).
Proof.
  intros Hen Hget Hold c'. subst c'. unfold get. rewrite Hen, Hget. simpl.
  unfold CacheItem.isExpired.
  destruct (Z.ltb_spec (CacheItem.ttl item) (now - CacheItem.createdAt item));
    [|lia]. simpl.
  destruct (delete_fields now k c) as (E1 & E2 & E3 & E4 & E5 & E6).
  unfold JsMap.has in E5, E6. rewrite Hget in E5, E6.
  rewrite E1, E2, E3, E4, E5, E6, Hen. tauto.
Qed.

(** The state [get] leaves on an enabled manager when the key is not there. *)
Lemma get_absent_fields (now : Z) (k : string) (c : CacheManager.t) :
  c.(enabled) = true ->
  JsMap.get k c.(cache) = None ->
  get now k c = (None, with_stats c (incr_misses c.(stats))).
Proof.
  intros Hen Hget. unfold get. now rewrite Hen, Hget.
Qed.

(** C10.  [delete(key)] for a key that is not in the cache returns [false]
    and leaves the manager exactly as it was: the entries, the access order,
    every counter of the stats (the [deletes] counter too) and the cache
    file. *)
Theorem delete_absent_unchanged (now : Z) (k : string) (c : CacheManager.t) :
  ~ In k (JsMap.keys c.(cache)) ->
  delete now k c = (false, c).
Proof.
  intros Habsent. unfold delete.
  apply jsmap_has_false in Habsent. now rewrite Habsent.
Qed.

Lemma delete_absent_unchanged_witness :
  let c := snd (set 10 "k1" "a" None (emptyCache 2)) in
  ~ In "k2" (JsMap.keys c.(cache)) /\ delete 20 "k2" c = (false, c).
Proof.
  intros c.
  assert (Habsent : ~ In "k2" (JsMap.keys c.(cache))).
  { simpl. intros [H|[]]. discriminate H. }
  split; [exact Habsent | exact (delete_absent_unchanged 20 "k2" c Habsent)].
Defined.

(** C5, as the code has it.  On an enabled cache, [get(key)] at a time
    [now] with [now - createdAt > ttl] for the stored entry returns [null],
    removes the entry from the map and from the access order, and adds one to
    the miss counter.  The comparison is strict: at [now - createdAt = ttl]
    the entry is served. *)
Theorem get_expired_removes (now : Z) (k : string) (c : CacheManager.t)
    (item : CacheItem.t) :
  c.(enabled) = true ->
  JsMap.get k c.(cache) = Some item ->
  now - item.(CacheItem.createdAt) > item.(CacheItem.ttl) ->
  fst (get now k c) = None
  /\ JsMap.get k (snd (get now k c)).(cache) = None
  /\ ~ In k (snd (get now k c)).(accessOrder)
  /\ (snd (get now k c)).(stats).(misses) = c.(stats).(misses) + 1.
Proof.
  intros Hen Hget Hold.
  destruct (get_expired_fields now k c item Hen Hget ltac:(lia))
    as (Hr & _ & _ & _ & Hc & Ho & Hs).
  rewrite Hr, Hc, Ho, Hs. repeat split.
  - apply jsmap_get_delete_eq.
  - rewrite filter_In. intros [_ H]. now rewrite String.eqb_refl in H.
Qed.

Lemma get_expired_removes_witness :
  let c := snd (set 0 "k" "v" (Some 1000) (emptyCache 2)) in
  let item := CacheItem.new 0 "k" "v" 1000 in
  (c.(enabled) = true
   /\ JsMap.get "k" c.(cache) = Some item
   /\ 1001 - item.(CacheItem.createdAt) > item.(CacheItem.ttl))
  /\ (fst (get 1001 "k" c) = None
      /\ JsMap.get "k" (snd (get 1001 "k" c)).(cache) = None
      /\ ~ In "k" (snd (get 1001 "k" c)).(accessOrder)
      /\ (snd (get 1001 "k" c)).(stats).(misses) = c.(stats).(misses) + 1).
Proof.
  intros c item.
  assert (Hen : c.(enabled) = true) by reflexivity.
  assert (Hget : JsMap.get "k" c.(cache) = Some item) by reflexivity.
  assert (Hold : 1001 - item.(CacheItem.createdAt) > item.(CacheItem.ttl))
    by reflexivity.
  split; [auto | exact (get_expired_removes 1001 "k" c item Hen Hget Hold)].
Defined.

(** C5 as stated fails when [now - createdAt = ttl]: the entry set at time
    [0] with a ttl of [1000] and read at time [1000] has an age equal to its
    ttl, and [get] returns its value, keeps the entry and counts a hit, not a
    miss. *)
Lemma get_at_ttl_boundary_hits :
  let c := snd (set 0 "k" "v" (Some 1000) (emptyCache 2)) in
  let item := CacheItem.new 0 "k" "v" 1000 in
  c.(enabled) = true
  /\ JsMap.get "k" c.(cache) = Some item
  /\ 1000 - item.(CacheItem.createdAt) >= item.(CacheItem.ttl)
  /\ fst (get 1000 "k" c) = Some "v"
  /\ JsMap.has "k" (snd (get 1000 "k" c)).(cache) = true
  /\ (snd (get 1000 "k" c)).(stats).(misses) = c.(stats).(misses)
  /\ (snd (get 1000 "k" c)).(stats).(hits) = c.(stats).(hits) + 1.
Proof.
  cbv zeta. repeat split; try reflexivity. discriminate.
Qed.

(** C4.  Scenario A: on an empty enabled cache with [maxSize = 2] and
    distinct keys, [set(k1,"a"); set(k2,"b"); get(k1); set(k3,"c")], with
    the entry of [k1] not expired when it is read, evicts exactly [k2]: the
    read returns ["a"], before the last [set] the cache holds [k1] and [k2],
    after it exactly [k1] and [k3] with their values, one eviction has been
    counted, and the access order is [k1], [k3]. *)
Theorem scenario_A_evicts_k2 (k1 k2 k3 : string) (t1 t2 t3 t4 : Z)
    (c0 : CacheManager.t) :
  c0.(enabled) = true ->
  c0.(maxSize) = 2 ->
  c0.(cache) = [] ->
  c0.(accessOrder) = [] ->
  k1 <> k2 -> k1 <> k3 -> k2 <> k3 ->
  t3 - t1 <= c0.(defaultTTL) ->
  let c1 := snd (set t1 k1 "a" None c0) in
  let c2 := snd (set t2 k2 "b" None c1) in
  let c3 := snd (get t3 k1 c2) in
  let c4 := snd (set t4 k3 "c" None c3) in
  fst (get t3 k1 c2) = Some "a"
  /\ JsMap.keys c3.(cache) = [k1; k2]
  /\ JsMap.keys c4.(cache) = [k1; k3]
  /\ JsMap.get k2 c4.(cache) = None
  /\ option_map CacheItem.value (JsMap.get k1 c4.(cache)) = Some "a"
  /\ option_map CacheItem.value (JsMap.get k3 c4.(cache)) = Some "c"
  /\ c4.(accessOrder) = [k1; k3]
  /\ c3.(stats).(evictions) = c0.(stats).(evictions)
  /\ c4.(stats).(evictions) = c0.(stats).(evictions) + 1.
Proof.
  intros Hen Hmax Hcache Horder H12 H13 H23 Hfresh c1 c2 c3 c4.
  assert (E12 : String.eqb k1 k2 = false) by now apply String.eqb_neq.
  assert (E21 : String.eqb k2 k1 = false) by (apply String.eqb_neq; congruence).
  assert (E13 : String.eqb k1 k3 = false) by now apply String.eqb_neq.
  assert (E31 : String.eqb k3 k1 = false) by (apply String.eqb_neq; congruence).
  assert (E23 : String.eqb k2 k3 = false) by now apply String.eqb_neq.
  assert (E32 : String.eqb k3 k2 = false) by (apply String.eqb_neq; congruence).
  (* set(k1, "a") *)
  destruct (set_fields t1 k1 "a" None c0 Hen)
    as (_ & Hen1 & Hmax1 & Httl1 & Hc1 & Ho1 & Hs1).
  fold c1 in Hen1, Hmax1, Httl1, Hc1, Ho1, Hs1.
  rewrite Hmax, Hcache in Hc1, Ho1, Hs1. simpl in Hc1, Ho1, Hs1.
  rewrite Hcache in Hc1. rewrite Horder in Ho1. simpl in Hc1, Ho1.
  rewrite Hmax in Hmax1.
  (* set(k2, "b") *)
  destruct (set_fields t2 k2 "b" None c1 Hen1)
    as (_ & Hen2 & Hmax2 & Httl2 & Hc2 & Ho2 & Hs2).
  fold c2 in Hen2, Hmax2, Httl2, Hc2, Ho2, Hs2.
  rewrite Hmax1, Hc1 in Hc2, Ho2, Hs2. simpl in Hc2, Ho2, Hs2.
  rewrite Hc1 in Hc2. rewrite Ho1 in Ho2. rewrite Hs1 in Hs2.
  simpl in Hc2, Ho2. rewrite E21 in Hc2, Ho2. simpl in Ho2.
  rewrite Hmax1 in Hmax2. rewrite Httl1 in Hc2, Httl2.
  (* get(k1) *)
  destruct (get_hit_fields t3 k1 c2 (CacheItem.new t1 k1 "a" (defaultTTL c0)) Hen2)
    as (Hr3 & Hen3 & Hmax3 & Httl3 & Hc3 & Ho3 & Hs3).
  { rewrite Hc2. simpl. now rewrite String.eqb_refl. }
  { simpl. lia. }
  fold c3 in Hen3, Hmax3, Httl3, Hc3, Ho3, Hs3.
  rewrite Hc2 in Hc3. rewrite Ho2 in Ho3. rewrite Hs2 in Hs3.
  simpl in Hr3, Hc3, Ho3. rewrite String.eqb_refl in Hc3, Ho3. simpl in Ho3.
  rewrite Hmax2 in Hmax3.
  (* set(k3, "c") *)
  destruct (set_fields t4 k3 "c" None c3 Hen3)
    as (_ & Hen4 & Hmax4 & Httl4 & Hc4 & Ho4 & Hs4).
  fold c4 in Hen4, Hmax4, Httl4, Hc4, Ho4, Hs4.
  assert (Hfull : (maxSize c3 <=? JsMap.size (cache c3))
                  && negb (JsMap.has k3 (cache c3)) = true).
  { rewrite Hmax3, Hc3. unfold JsMap.has. simpl. now rewrite E31, E32. }
  rewrite Hfull in Hc4, Ho4, Hs4.
  unfold evictLRU in Hc4, Ho4, Hs4. rewrite Ho3 in Hc4, Ho4, Hs4.
  simpl in Hc4, Ho4, Hs4. rewrite Hc3 in Hc4. rewrite Hs3 in Hs4.
  simpl in Hc4. rewrite E21, String.eqb_refl in Hc4. simpl in Hc4.
  rewrite E31 in Hc4, Ho4. simpl in Ho4.
  rewrite Hc3, Hc4, Ho4, Hs3, Hs4. simpl.
  rewrite E21, E31, E23, !String.eqb_refl. simpl.
  repeat split; try reflexivity. exact Hr3.
Qed.

Lemma scenario_A_evicts_k2_witness :
  let c0 := emptyCache 2 in
  let c1 := snd (set 1 "k1" "a" None c0) in
  let c2 := snd (set 2 "k2" "b" None c1) in
  let c3 := snd (get 3 "k1" c2) in
  let c4 := snd (set 4 "k3" "c" None c3) in
  (c0.(enabled) = true /\ c0.(maxSize) = 2 /\ c0.(cache) = []
   /\ c0.(accessOrder) = []
   /\ "k1" <> "k2" /\ "k1" <> "k3" /\ "k2" <> "k3"
   /\ 3 - 1 <= c0.(defaultTTL))
  /\ (fst (get 3 "k1" c2) = Some "a"
      /\ JsMap.keys c3.(cache) = ["k1"; "k2"]
      /\ JsMap.keys c4.(cache) = ["k1"; "k3"]
      /\ JsMap.get "k2" c4.(cache) = None
      /\ option_map CacheItem.value (JsMap.get "k1" c4.(cache)) = Some "a"
      /\ option_map CacheItem.value (JsMap.get "k3" c4.(cache)) = Some "c"
      /\ c4.(accessOrder) = ["k1"; "k3"]
      /\ c3.(stats).(evictions) = c0.(stats).(evictions)
      /\ c4.(stats).(evictions) = c0.(stats).(evictions) + 1).
Proof.
  cbv zeta.
  assert (H12 : "k1" <> "k2") by discriminate.
  assert (H13 : "k1" <> "k3") by discriminate.
  assert (H23 : "k2" <> "k3") by discriminate.
  assert (Hfresh : 3 - 1 <= (emptyCache 2).(defaultTTL)) by discriminate.
  split.
  - repeat split; auto.
  - exact (scenario_A_evicts_k2 "k1" "k2" "k3" 1 2 3 4 (emptyCache 2)
             eq_refl eq_refl eq_refl eq_refl H12 H13 H23 Hfresh).
Defined.

(** *** Persistence *)

Lemma load_items_spec (now : Z) (items : list CacheItem.t) :
  NoDup (map CacheItem.key items) ->
  forall (m : JsMap.t CacheItem.t) (o : list string),
  (forall i, In i items -> ~ In i.(CacheItem.key) (JsMap.keys m)) ->
  load_items now items m o
  = (m ++ map entry_of (filter (fresh_at now) items),
     o ++ map CacheItem.key (filter (fresh_at now) items)).
Proof.
  induction items as [|item rest IH]; intros Hnd m o Hdisj; simpl.
  - now rewrite !app_nil_r.
  - inversion Hnd as [|? ? Hnotin Hnd']; subst.
    change (now - CacheItem.createdAt item <? CacheItem.ttl item)
      with (fresh_at now item).
    destruct (fresh_at now item) eqn:Hf.
    + rewrite IH; [| exact Hnd' |].
      * rewrite jsmap_set_new_app by (apply Hdisj; now left).
        simpl. now rewrite <- !app_assoc.
      * intros i Hi. rewrite jsmap_keys_set_new by (apply Hdisj; now left).
        rewrite in_app_iff. intros [H|[H|[]]].
        -- revert H. apply Hdisj. now right.
        -- apply Hnotin. rewrite H. now apply in_map.
    + apply IH; [exact Hnd'|]. intros i Hi. apply Hdisj. now right.
Qed.

Lemma saved_entry_key (m : JsMap.t CacheItem.t) :
  map CacheItem.key (map saved_entry m) = JsMap.keys m.
Proof. unfold JsMap.keys. rewrite map_map. reflexivity. Qed.

(** What [load] leaves, when the file holds [data] and the keys of its
    entries are distinct. *)
Lemma load_fields (now : Z) (c : CacheManager.t) (data : Snapshot) :
  c.(disk).(content) = Some data ->
  NoDup (map CacheItem.key data.(snap_cache)) ->
  let c' := snd (load now c) in
  c'.(enabled) = c.(enabled)
  /\ c'.(cache) = map entry_of (filter (fresh_at now) data.(snap_cache))
  /\ c'.(accessOrder)
     = map CacheItem.key (filter (fresh_at now) data.(snap_cache))
  /\ c'.(stats) = data.(snap_stats).
Proof.
  intros Hdisk Hnd. unfold load. rewrite Hdisk.
  rewrite (load_items_spec now _ Hnd [] []) by (intros i _ []).
  simpl. tauto.
Qed.

(** Saved entries with distinct keys: an entry is known by its key, and the
    fresh ones still have distinct keys. *)
Lemma saved_key_determines (items : list CacheItem.t) (x y : CacheItem.t) :
  NoDup (map CacheItem.key items) ->
  In x items -> In y items ->
  x.(CacheItem.key) = y.(CacheItem.key) -> x = y.
Proof.
  induction items as [|a items IH]; simpl; [tauto|].
  intros Hnd Hx Hy Hk. inversion Hnd as [|? ? Hnotin Hnd']; subst.
  destruct Hx as [->|Hx], Hy as [->|Hy]; auto.
  - exfalso. apply Hnotin. rewrite Hk. now apply in_map.
  - exfalso. apply Hnotin. rewrite <- Hk. now apply in_map.
Qed.

Lemma fresh_keys_NoDup (now : Z) (items : list CacheItem.t) :
  NoDup (map CacheItem.key items) ->
  NoDup (map CacheItem.key (filter (fresh_at now) items)).
Proof.
  induction items as [|a items IH]; simpl; [auto|].
  intros Hnd. inversion Hnd as [|? ? Hnotin Hnd']; subst.
  destruct (fresh_at now a); simpl; auto. constructor; auto.
  rewrite in_map_iff. intros (x & Hx & Hin). apply filter_In in Hin.
  apply Hnotin. rewrite <- Hx. apply in_map. tauto.
Qed.

(** An entry of the file is in the loaded map exactly when it was fresh at
    load time. *)
Lemma load_lookup (now : Z) (c : CacheManager.t) (data : Snapshot)
    (item : CacheItem.t) :
  c.(disk).(content) = Some data ->
  NoDup (map CacheItem.key data.(snap_cache)) ->
  In item data.(snap_cache) ->
  JsMap.get item.(CacheItem.key) (snd (load now c)).(cache)
  = if fresh_at now item then Some item else None.
Proof.
  intros Hdisk Hnd Hitem.
  destruct (load_fields now c data Hdisk Hnd) as (_ & Hc & _). rewrite Hc.
  assert (Hkeys : forall l, JsMap.keys (map entry_of l) = map CacheItem.key l).
  { intros l. unfold JsMap.keys. rewrite map_map. reflexivity. }
  destruct (fresh_at now item) eqn:Hf.
  - apply jsmap_In_get.
    + rewrite Hkeys. now apply fresh_keys_NoDup.
    + change (item.(CacheItem.key), item) with (entry_of item). apply in_map.
      apply filter_In. tauto.
  - apply jsmap_get_None. rewrite Hkeys, in_map_iff.
    intros (x & Hx & Hin). apply filter_In in Hin. destruct Hin as [Hin Hfx].
    assert (x = item) by (eapply saved_key_determines; eauto).
    congruence.
Qed.

Lemma set_disk (now : Z) (k v : string) (ttl : option Z) (c : CacheManager.t) :
  c.(enabled) = true ->
  c.(persistenceEnabled) = true ->
  c.(disk).(writable) = true ->
  (snd (set now k v ttl c)).(disk)
  = {| writable := true;
       content := Some (snapshot_data now (snd (set now k v ttl c))) |}.
Proof.
  intros Hen Hp Hw. unfold set. rewrite Hen. simpl.
  set (c1 := if (maxSize c <=? JsMap.size (cache c))
                && negb (JsMap.has k (cache c))
             then evictLRU c else c).
  assert (H1 : c1.(persistenceEnabled) = true /\ c1.(disk) = c.(disk)).
  { subst c1.
    destruct ((maxSize c <=? JsMap.size (cache c))
              && negb (JsMap.has k (cache c))); [|tauto]. unfold evictLRU.
    destruct (accessOrder c); simpl; tauto. }
  destruct H1 as [Hp1 Hd1].
  unfold persist, save. simpl. rewrite Hp1, Hd1, Hw. reflexivity.
Qed.

Lemma set_NoDup (now : Z) (k v : string) (ttl : option Z) (c : CacheManager.t) :
  c.(enabled) = true ->
  NoDup (JsMap.keys c.(cache)) ->
  NoDup (JsMap.keys (snd (set now k v ttl c)).(cache)).
Proof.
  intros Hen Hnd.
  destruct (set_fields now k v ttl c Hen) as (_ & _ & _ & _ & Hc & _).
  rewrite Hc. apply jsmap_NoDup_set.
  destruct ((maxSize c <=? JsMap.size (cache c))
            && negb (JsMap.has k (cache c))); [|exact Hnd]. unfold evictLRU.
  destruct (accessOrder c); simpl; [exact Hnd|]. now apply jsmap_NoDup_delete.
Qed.

(** C9.  Persistence round trip.  After [set(key, value, ttl)] at time [t0]
    on an enabled manager that persists to a writable file, a fresh manager
    built at time [tl] over that file (enabled, persisting) has:
    - when the age of the entry at load time is below its ttl, a hit for
      [key] returning [value], at load time and at any later time [tg] at
      which the entry has not expired;
    - for every entry of the saved map, the entry as it was saved when its
      age at load time is below its ttl, and no entry when its age is at
      least its ttl;
    - the stats that were saved. *)
Theorem persistence_round_trip (cfg : Config.t) (options : Options)
    (t0 tl : Z) (k v : string) (ttl : option Z) (c : CacheManager.t) :
  c.(enabled) = true ->
  c.(persistenceEnabled) = true ->
  c.(disk).(writable) = true ->
  NoDup (JsMap.keys c.(cache)) ->
  let c1 := snd (set t0 k v ttl c) in
  let c2 := new cfg tl options c1.(disk) in
  c2.(enabled) = true ->
  c2.(persistenceEnabled) = true ->
  (tl - t0 < JS.num_or ttl c.(defaultTTL) ->
   fst (get tl k c2) = Some v
   /\ forall tg, tg - t0 <= JS.num_or ttl c.(defaultTTL) ->
                 fst (get tg k c2) = Some v)
  /\ (forall k' item,
        JsMap.get k' c1.(cache) = Some item ->
        tl - item.(CacheItem.createdAt) < item.(CacheItem.ttl) ->
        JsMap.get k' c2.(cache) = Some (saved_entry (k', item)))
  /\ (forall k' item,
        JsMap.get k' c1.(cache) = Some item ->
        tl - item.(CacheItem.createdAt) >= item.(CacheItem.ttl) ->
        JsMap.get k' c2.(cache) = None)
  /\ c2.(stats) = c1.(stats).
Proof.
  intros Hen Hp Hw Hnd c1 c2 Hen2 Hp2.
  pose proof (set_disk t0 k v ttl c Hen Hp Hw) as Hdisk. fold c1 in Hdisk.
  pose proof (set_NoDup t0 k v ttl c Hen Hnd) as Hnd1. fold c1 in Hnd1.
  destruct (set_fields t0 k v ttl c Hen) as (_ & _ & _ & _ & Hc1 & _).
  fold c1 in Hc1.
  (* the fresh manager is what [load] leaves *)
  unfold new in c2.
  set (c_init := {| enabled := _; maxSize := _; defaultTTL := _; cache := [];
                    accessOrder := []; persistenceEnabled := _;
                    stats := zeroStats; disk := disk c1 |}) in c2.
  assert (Hpi : c_init.(persistenceEnabled) = true).
  { subst c2. destruct (persistenceEnabled c_init) eqn:E; [reflexivity|].
    rewrite E in Hp2. exact Hp2. }
  assert (Hc2 : c2 = snd (load tl c_init)) by (subst c2; now rewrite Hpi).
  assert (Hcontent : c_init.(disk).(content) = Some (snapshot_data t0 c1))
    by (simpl; now rewrite Hdisk).
  assert (Hnds : NoDup (map CacheItem.key (snapshot_data t0 c1).(snap_cache))).
  { simpl. now rewrite saved_entry_key. }
  assert (Hlook : forall k' item,
             JsMap.get k' c1.(cache) = Some item ->
             JsMap.get k' c2.(cache)
             = if fresh_at tl (saved_entry (k', item))
               then Some (saved_entry (k', item)) else None).
  { intros k' item Hget. rewrite Hc2.
    apply (load_lookup tl c_init _ (saved_entry (k', item)) Hcontent Hnds).
    simpl. apply in_map. now apply jsmap_get_In. }
  assert (Hen2' : c2.(enabled) = true) by exact Hen2.
  split; [|split; [|split]].
  - intros Hfresh.
    assert (Hget1 : JsMap.get k c1.(cache)
                    = Some (CacheItem.new t0 k v (JS.num_or ttl c.(defaultTTL)))).
    { rewrite Hc1. apply jsmap_get_set_eq. }
    pose proof (Hlook _ _ Hget1) as Hget2. unfold fresh_at in Hget2.
    simpl in Hget2.
    destruct (Z.ltb_spec (tl - t0) (JS.num_or ttl (defaultTTL c))); [|lia].
    assert (Hhit : forall tg, tg - t0 <= JS.num_or ttl c.(defaultTTL) ->
                              fst (get tg k c2) = Some v).
    { intros tg Htg.
      destruct (get_hit_fields tg k c2 _ Hen2' Hget2) as (Hr & _); [exact Htg|].
      exact Hr. }
    split; [apply Hhit; lia | exact Hhit].
  - intros k' item Hget Hfresh. rewrite (Hlook _ _ Hget). unfold fresh_at.
    simpl. destruct (Z.ltb_spec (tl - CacheItem.createdAt item)
                                (CacheItem.ttl item)); [reflexivity|lia].
  - intros k' item Hget Hold. rewrite (Hlook _ _ Hget). unfold fresh_at.
    simpl. destruct (Z.ltb_spec (tl - CacheItem.createdAt item)
                                (CacheItem.ttl item)); [lia|reflexivity].
  - rewrite Hc2.
    destruct (load_fields tl c_init _ Hcontent Hnds) as (_ & _ & _ & Hs).
    rewrite Hs. reflexivity.
Qed.

Lemma persistence_round_trip_witness :
  let c := emptyCache 2 in
  let options := {| opt_enabled := Some true; opt_maxSize := None;
                    opt_ttl := None; opt_persist := None |} in
  let c1 := snd (set 0 "k" "v" None c) in
  let c2 := new Config.defaults 5 options c1.(disk) in
  (c.(enabled) = true /\ c.(persistenceEnabled) = true
   /\ c.(disk).(writable) = true /\ NoDup (JsMap.keys c.(cache))
   /\ c2.(enabled) = true /\ c2.(persistenceEnabled) = true
   /\ 5 - 0 < JS.num_or None c.(defaultTTL))
  /\ fst (get 5 "k" c2) = Some "v"
  /\ c2.(stats) = c1.(stats).
Proof.
  cbv zeta.
  assert (Hnd : NoDup (JsMap.keys (emptyCache 2).(cache))) by constructor.
  assert (Hfresh : 5 - 0 < JS.num_or None (emptyCache 2).(defaultTTL))
    by reflexivity.
  pose proof (persistence_round_trip Config.defaults
                {| opt_enabled := Some true; opt_maxSize := None;
                   opt_ttl := None; opt_persist := None |}
                0 5 "k" "v" None (emptyCache 2)
                eq_refl eq_refl eq_refl Hnd eq_refl eq_refl)
    as (Hhit & _ & _ & Hstats).
  split; [repeat split; auto | split; [exact (proj1 (Hhit Hfresh)) | exact Hstats]].
Defined.

(** *** The access order and the entries *)

(** On a list without repetition, taking out the first occurrence takes out
    the key. *)
Lemma remove_first_filter (k : string) (o : list string) :
  NoDup o ->
  remove_first k o = filter (fun k' => negb (String.eqb k' k)) o.
Proof.
  induction o as [|a o IH]; simpl; [reflexivity|].
  intros Hnd. inversion Hnd as [|? ? Hnotin Hnd']; subst.
  rewrite (String.eqb_sym a k).
  destruct (String.eqb_spec k a) as [->|Hne]; simpl.
  - symmetry. apply forallb_filter_id. apply forallb_forall.
    intros x Hx. destruct (String.eqb_spec x a); [congruence|reflexivity].
  - now rewrite IH.
Qed.

Lemma in_filter_neq (k x : string) (o : list string) :
  In x (filter (fun k' => negb (String.eqb k' k)) o) <-> In x o /\ x <> k.
Proof.
  rewrite filter_In. destruct (String.eqb_spec x k); simpl; intuition congruence.
Qed.

Lemma linked_delete (m : JsMap.t CacheItem.t) (o : list string) (k : string) :
  linked m o ->
  linked (JsMap.delete k m) (filter (fun k' => negb (String.eqb k' k)) o).
Proof.
  intros (Hm & Ho & Hsame). repeat split.
  - now apply jsmap_NoDup_delete.
  - now apply NoDup_filter.
  - rewrite in_filter_neq, jsmap_keys_delete, filter_In.
    intros [Hin Hne]. split; [now apply Hsame|].
    destruct (String.eqb_spec k k0); [congruence|reflexivity].
  - rewrite in_filter_neq, jsmap_keys_delete, filter_In.
    intros [Hin Hne]. split; [now apply Hsame|].
    destruct (String.eqb_spec k k0); [discriminate|congruence].
Qed.

Lemma linked_evict (m : JsMap.t CacheItem.t) (lru : string) (rest : list string) :
  linked m (lru :: rest) -> linked (JsMap.delete lru m) rest.
Proof.
  intros H. pose proof (linked_delete m (lru :: rest) lru H) as H'.
  destruct H as (_ & Ho & _).
  rewrite <- remove_first_filter in H' by exact Ho.
  simpl in H'. now rewrite String.eqb_refl in H'.
Qed.

Lemma linked_touch (m : JsMap.t CacheItem.t) (o : list string) (k : string)
    (item : CacheItem.t) :
  linked m o -> linked (JsMap.set k item m) (remove_first k o ++ [k]).
Proof.
  intros (Hm & Ho & Hsame). rewrite remove_first_filter by exact Ho.
  repeat split.
  - now apply jsmap_NoDup_set.
  - apply NoDup_app; [now apply NoDup_filter | repeat constructor; simpl; tauto |].
    intros x Hx [<-|[]]. apply in_filter_neq in Hx. tauto.
  - rewrite in_app_iff, in_filter_neq. simpl.
    destruct (in_dec string_dec k (JsMap.keys m)) as [Hin|Hout].
    + rewrite jsmap_keys_set_old by exact Hin.
      intros [[H _]|[<-|[]]]; [now apply Hsame | exact Hin].
    + rewrite jsmap_keys_set_new, in_app_iff by exact Hout. simpl.
      intros [[H _]|[<-|[]]]; [left; now apply Hsame | right; now left].
  - rewrite in_app_iff, in_filter_neq. simpl.
    destruct (in_dec string_dec k (JsMap.keys m)) as [Hin|Hout].
    + rewrite jsmap_keys_set_old by exact Hin. intros H.
      destruct (string_dec k0 k) as [->|Hne]; [right; now left|].
      left. split; [now apply Hsame | exact Hne].
    + rewrite jsmap_keys_set_new, in_app_iff by exact Hout. simpl.
      intros [H|[<-|[]]]; [|right; now left].
      destruct (string_dec k0 k) as [->|Hne]; [right; now left|].
      left. split; [now apply Hsame | exact Hne].
Qed.

(** *** Recency *)

Lemma by_recency_filter (last : string -> nat) (p : string -> bool)
    (o : list string) :
  by_recency last o -> by_recency last (filter p o).
Proof.
  unfold by_recency. induction 1 as [|a l Hs IH Hall]; simpl.
  - constructor.
  - destruct (p a); [|exact IH]. constructor; [exact IH|].
    rewrite Forall_forall in *. intros x Hx. apply Hall.
    apply filter_In in Hx. tauto.
Qed.

Lemma by_recency_snoc (last : string -> nat) (o : list string) (k : string) :
  by_recency last o ->
  (forall a, In a o -> (last a < last k)%nat) ->
  by_recency last (o ++ [k]).
Proof.
  unfold by_recency. induction 1 as [|a l Hs IH Hall]; simpl; intros Hlt.
  - repeat constructor.
  - constructor.
    + apply IH. intros x Hx. apply Hlt. now right.
    + rewrite Forall_forall in *. intros x Hx. apply in_app_iff in Hx.
      destruct Hx as [Hx|[<-|[]]]; [now apply Hall | apply Hlt; now left].
Qed.

Lemma by_recency_ext (last last' : string -> nat) (o : list string) :
  (forall a, In a o -> last' a = last a) ->
  by_recency last o -> by_recency last' o.
Proof.
  unfold by_recency. intros Hext Hs. induction Hs as [|a l Hs IH Hall].
  - constructor.
  - constructor.
    + apply IH. intros x Hx. apply Hext. now right.
    + rewrite Forall_forall in *. intros x Hx.
      rewrite (Hext a), (Hext x); [now apply Hall | now right | now left].
Qed.

Lemma by_recency_touch (last : string -> nat) (clock : nat) (o : list string)
    (k : string) :
  NoDup o ->
  by_recency last o ->
  (forall a, In a o -> (last a <= clock)%nat) ->
  by_recency (stamp last k (S clock)) (remove_first k o ++ [k])
  /\ (forall a, In a (remove_first k o ++ [k]) ->
                (stamp last k (S clock) a <= S clock)%nat).
Proof.
  intros Hnd Hs Hclock. rewrite remove_first_filter by exact Hnd.
  assert (Hold : forall a, In a (filter (fun k' => negb (String.eqb k' k)) o) ->
                           stamp last k (S clock) a = last a).
  { intros a Ha. apply in_filter_neq in Ha. unfold stamp.
    destruct (String.eqb_spec a k); [tauto|reflexivity]. }
  assert (Hnew : stamp last k (S clock) k = S clock).
  { unfold stamp. now rewrite String.eqb_refl. }
  split.
  - apply by_recency_snoc.
    + apply (by_recency_ext last); [exact Hold|]. now apply by_recency_filter.
    + intros a Ha. rewrite (Hold a Ha), Hnew. apply in_filter_neq in Ha.
      specialize (Hclock a (proj1 Ha)). lia.
  - intros a Ha. apply in_app_iff in Ha. destruct Ha as [Ha|[<-|[]]].
    + rewrite (Hold a Ha). apply in_filter_neq in Ha.
      specialize (Hclock a (proj1 Ha)). lia.
    + rewrite Hnew. lia.
Qed.
(** *** Sequences of operations *)

Lemma observe_run (ops : list (Z * Op)) (g : CacheManager.t * Recency) :
  fst (fold_left observe ops g) = run ops (fst g).
Proof.
  revert g. induction ops as [|e ops IH]; intros g; simpl; [reflexivity|].
  now rewrite IH.
Qed.

Lemma filter_twice {A : Type} (p q : A -> bool) (l : list A) :
  filter q (filter p l) = filter (fun x => p x && q x) l.
Proof.
  induction l as [|a l IH]; simpl; [reflexivity|].
  destruct (p a); simpl; [destruct (q a)|]; now rewrite IH.
Qed.

Lemma filter_all {A : Type} (l : list A) : l = filter (fun _ => true) l.
Proof. induction l as [|a l IH]; simpl; congruence. Qed.

Lemma shrinks_same (c c' : CacheManager.t) :
  c'.(enabled) = c.(enabled) ->
  c'.(maxSize) = c.(maxSize) ->
  c'.(cache) = c.(cache) ->
  c'.(accessOrder) = c.(accessOrder) ->
  shrinks c c'.
Proof.
  intros E1 E2 E3 E4 H. rewrite E3, E4. repeat split; try apply H; auto.
  exists (fun _ => true). apply filter_all.
Qed.

Lemma shrinks_refl (c : CacheManager.t) : shrinks c c.
Proof. now apply shrinks_same. Qed.

Lemma shrinks_trans (c1 c2 c3 : CacheManager.t) :
  shrinks c1 c2 -> shrinks c2 c3 -> shrinks c1 c3.
Proof.
  intros H12 H23 H1.
  destruct (H12 H1) as (E1 & M1 & L2 & S1 & p & P1).
  destruct (H23 L2) as (E2 & M2 & L3_ & S2 & q & P2).
  repeat split; try apply L3_; try congruence; try lia.
  exists (fun x => p x && q x). now rewrite P2, P1, filter_twice.
Qed.

Lemma shrinks_stats (c : CacheManager.t) (s : Stats) :
  shrinks c (with_stats c s).
Proof. now apply shrinks_same. Qed.

Lemma delete_shrinks (now : Z) (k : string) (c : CacheManager.t) :
  shrinks c (snd (delete now k c)).
Proof.
  intros Hl.
  destruct (delete_fields now k c) as (E1 & E2 & _ & E4 & E5 & _).
  assert (Ho : (snd (delete now k c)).(accessOrder)
               = filter (fun k' => negb (String.eqb k' k)) c.(accessOrder)).
  { rewrite E5. destruct (JsMap.has k (cache c)) eqn:Hhas; [reflexivity|].
    apply jsmap_has_false in Hhas. destruct Hl as (_ & _ & Hsame).
    symmetry. apply forallb_filter_id. apply forallb_forall. intros x Hx.
    destruct (String.eqb_spec x k) as [->|]; [|reflexivity].
    exfalso. apply Hhas. now apply Hsame. }
  repeat split; auto.
  - rewrite E4. apply jsmap_NoDup_delete, Hl.
  - rewrite Ho. apply NoDup_filter, Hl.
  - rewrite E4, Ho. apply (linked_delete _ _ k Hl).
  - rewrite E4, Ho. apply (linked_delete _ _ k Hl).
  - rewrite E4. apply jsmap_length_delete_le.
  - eexists. exact Ho.
Qed.

Lemma clear_shrinks (now : Z) (c : CacheManager.t) : shrinks c (clear now c).
Proof.
  intros Hl. unfold clear. autorewrite with cache_fields. simpl.
  repeat split; try constructor; try tauto; try lia.
  exists (fun _ => false). clear Hl.
  induction (accessOrder c); simpl; auto.
Qed.

Lemma cleanup_shrinks (now : Z) (c : CacheManager.t) :
  shrinks c (snd (cleanup now c)).
Proof.
  unfold cleanup. generalize 0 at 1. generalize (cache c) at 1.
  intros l. revert c. induction l as [|e l IH]; intros c n; simpl.
  - apply shrinks_refl.
  - destruct (CacheItem.ttl (snd e) <? now - CacheItem.createdAt (snd e)).
    + eapply shrinks_trans; [apply delete_shrinks | apply IH].
    + apply IH.
Qed.

(** An operation that only takes entries out keeps the invariant. *)
Lemma inv_shrinks (c c' : CacheManager.t) (r : Recency) :
  cache_inv c r -> shrinks c c' ->
  cache_inv c' {| clock := S r.(clock); last := r.(last) |}.
Proof.
  intros [He Hl Hb Hr Hc] Hs.
  destruct (Hs Hl) as (E1 & E2 & L' & S' & p & P).
  constructor; simpl.
  - congruence.
  - exact L'.
  - rewrite E2. intros Hcap. specialize (Hb Hcap). unfold JsMap.size in *. lia.
  - rewrite P. now apply by_recency_filter.
  - intros a Ha. rewrite P in Ha. apply filter_In in Ha.
    specialize (Hc a (proj1 Ha)). lia.
Qed.
(** An operation that stores or reads [k], after taking entries out, keeps
    the invariant and makes [k] the most recent key. *)
Lemma inv_touch (c c' : CacheManager.t) (r : Recency) (k : string)
    (item : CacheItem.t) (m1 : JsMap.t CacheItem.t) (o1 : list string) :
  cache_inv c r ->
  c'.(enabled) = true ->
  c'.(maxSize) = c.(maxSize) ->
  c'.(cache) = JsMap.set k item m1 ->
  c'.(accessOrder) = remove_first k o1 ++ [k] ->
  linked m1 o1 ->
  (exists p, o1 = filter p c.(accessOrder)) ->
  (1 <= c.(maxSize) ->
   (In k (JsMap.keys m1) \/ JsMap.size m1 < c.(maxSize))
   /\ JsMap.size m1 <= c.(maxSize)) ->
  cache_inv c' {| clock := S r.(clock);
                  last := stamp r.(last) k (S r.(clock)) |}.
Proof.
  intros [He Hl Hb Hr Hc] E1 E2 E3 E4 Hl1 (p & P) Hroom.
  assert (Ho1 : NoDup o1) by apply Hl1.
  assert (Hr1 : by_recency r.(last) o1) by (rewrite P; now apply by_recency_filter).
  assert (Hc1 : forall a, In a o1 -> (r.(last) a <= r.(clock))%nat).
  { intros a Ha. rewrite P in Ha. apply filter_In in Ha. now apply Hc. }
  destruct (by_recency_touch r.(last) r.(clock) o1 k Ho1 Hr1 Hc1) as [Hs Hk].
  constructor; simpl.
  - exact E1.
  - rewrite E3, E4. now apply linked_touch.
  - rewrite E2, E3. intros Hcap. destruct (Hroom Hcap) as [Hroom1 Hb1].
    unfold JsMap.size in *.
    destruct (in_dec string_dec k (JsMap.keys m1)) as [Hin|Hout].
    + now rewrite jsmap_length_set_old.
    + rewrite jsmap_length_set_new by exact Hout. destruct Hroom1; [tauto|lia].
  - rewrite E4. exact Hs.
  - rewrite E4. exact Hk.
Qed.

(** The state in which [set] stores: the access order still lists the keys,
    and when the capacity is at least 1 there is room for the key. *)
Lemma set_room (c : CacheManager.t) (r : Recency) (k : string) :
  cache_inv c r ->
  let c1 := if (c.(maxSize) <=? JsMap.size c.(cache))
               && negb (JsMap.has k c.(cache))
            then evictLRU c else c in
  linked c1.(cache) c1.(accessOrder)
  /\ (exists p, c1.(accessOrder) = filter p c.(accessOrder))
  /\ (1 <= c.(maxSize) ->
      (In k (JsMap.keys c1.(cache)) \/ JsMap.size c1.(cache) < c.(maxSize))
      /\ JsMap.size c1.(cache) <= c.(maxSize)).
Proof.
  intros [He Hl Hb Hr Hc]. simpl.
  assert (Hsame : linked (cache c) (accessOrder c)
                  /\ exists p, accessOrder c = filter p (accessOrder c)).
  { split; [exact Hl|]. exists (fun _ => true). apply filter_all. }
  destruct (Z.leb_spec (maxSize c) (JsMap.size (cache c))) as [Hfull|Hfree];
    simpl.
  - destruct (JsMap.has k (cache c)) eqn:Hhas; simpl.
    + apply jsmap_has_true in Hhas. destruct Hsame as [H1 H2].
      split; [exact H1|]. split; [exact H2|].
      intros Hcap. split; [now left | now apply Hb].
    + unfold evictLRU. destruct (accessOrder c) as [|lru rest] eqn:Ho.
      * simpl. rewrite Ho. split; [exact Hl|]. split.
        -- exists (fun _ => true). reflexivity.
        -- intros Hcap. exfalso. destruct Hl as (_ & _ & Hin).
           unfold JsMap.size in Hfull.
           destruct (cache c) as [|[k0 v0] m]; simpl in *; [lia|].
           apply (Hin k0). now left.
      * simpl. pose proof (linked_evict _ _ _ Hl) as Hl1.
        assert (Hlen : S (List.length (JsMap.delete lru (cache c)))
                       = List.length (cache c)).
        { apply jsmap_length_delete; [apply Hl|].
          apply Hl. now left. }
        unfold JsMap.size in *. split; [exact Hl1|]. split.
        -- exists (fun k' => negb (String.eqb k' lru)).
           change (rest
                   = filter (fun k' => negb (String.eqb k' lru)) (lru :: rest)).
           rewrite <- (remove_first_filter lru (lru :: rest)) by apply Hl.
           simpl. now rewrite String.eqb_refl.
        -- intros Hcap. specialize (Hb Hcap). split; [right|]; lia.
  - destruct Hsame as [H1 H2]. split; [exact H1|]. split; [exact H2|].
    intros Hcap. specialize (Hb Hcap). split; [right|]; lia.
Qed.

Lemma observe_inv (g : CacheManager.t * Recency) (e : Z * Op) :
  cache_inv (fst g) (snd g) ->
  cache_inv (fst (observe g e)) (snd (observe g e)).
Proof.
  destruct g as [c r], e as [now op]. simpl. intros Hinv.
  pose proof Hinv as [Hen _ _ _ _].
  unfold step, accessed; simpl. destruct op as [k|k v ttl|k| |]; simpl.
  - (* get *)
    destruct (JsMap.get k (cache c)) as [item|] eqn:Hget.
    + destruct (Z.ltb_spec (CacheItem.ttl item)
                           (now - CacheItem.createdAt item)) as [Hold|Hfresh].
      * destruct (get_expired_fields now k c item Hen Hget Hold)
          as (Hr & E1 & E2 & _ & E4 & E5 & _).
        rewrite Hr. apply (inv_shrinks c); [exact Hinv|]. intros Hl.
        rewrite E1, E2, E4, E5, Hen. repeat split.
        -- apply jsmap_NoDup_delete, Hl.
        -- apply NoDup_filter, Hl.
        -- apply (linked_delete _ _ k Hl).
        -- apply (linked_delete _ _ k Hl).
        -- apply jsmap_length_delete_le.
        -- eexists. reflexivity.
      * destruct (get_hit_fields now k c item Hen Hget Hfresh)
          as (Hr & E1 & E2 & _ & E4 & E5 & _).
        rewrite Hr.
        apply (inv_touch c _ r k (CacheItem.touch item) (cache c) (accessOrder c));
          auto.
        -- apply Hinv.
        -- exists (fun _ => true). apply filter_all.
        -- intros Hcap. split; [|now apply Hinv].
           left. apply jsmap_has_true. unfold JsMap.has. now rewrite Hget.
    + rewrite (get_absent_fields now k c Hen Hget). simpl.
      apply (inv_shrinks c); [exact Hinv | apply shrinks_stats].
  - (* set *)
    rewrite Hen.
    destruct (set_fields now k v ttl c Hen) as (_ & E1 & E2 & _ & E4 & E5 & _).
    destruct (set_room c r k Hinv) as (Hl1 & Hp & Hroom).
    eapply (inv_touch c _ r k); eauto.
  - (* delete *)
    apply (inv_shrinks c); [exact Hinv | apply delete_shrinks].
  - (* clear *)
    apply (inv_shrinks c); [exact Hinv | apply clear_shrinks].
  - (* cleanup *)
    apply (inv_shrinks c); [exact Hinv | apply cleanup_shrinks].
Qed.

Lemma fold_observe_inv (ops : list (Z * Op)) (g : CacheManager.t * Recency) :
  cache_inv (fst g) (snd g) ->
  cache_inv (fst (fold_left observe ops g)) (snd (fold_left observe ops g)).
Proof.
  revert g. induction ops as [|e ops IH]; intros g Hinv; simpl; [exact Hinv|].
  apply IH. now apply observe_inv.
Qed.

(** C3, as the code has it.  For every sequence of [get], [set], [delete],
    [clear] and [cleanup] applied to an empty enabled manager, the state
    after the sequence (so the state after each operation) has an access
    order that lists the keys of the entry map, each exactly once, from the
    least to the most recently accessed: the number of the last operation
    that accessed a key grows strictly along the list.  When [maxSize] is at
    least 1, the number of entries is at most [maxSize]. *)
Theorem cache_invariants (ops : list (Z * Op)) (c0 : CacheManager.t) :
  c0.(enabled) = true ->
  c0.(cache) = [] ->
  c0.(accessOrder) = [] ->
  let c := run ops c0 in
  (1 <= c0.(maxSize) -> JsMap.size c.(cache) <= c0.(maxSize))
  /\ c.(maxSize) = c0.(maxSize)
  /\ NoDup c.(accessOrder)
  /\ (forall k, In k c.(accessOrder) <-> In k (JsMap.keys c.(cache)))
  /\ StronglySorted
       (fun a b => ((recency ops c0).(last) a < (recency ops c0).(last) b)%nat)
       c.(accessOrder).
Proof.
  intros Hen Hcache Horder c.
  set (g0 := (c0, {| clock := 0; last := fun _ => 0%nat |})).
  assert (Hinv0 : cache_inv (fst g0) (snd g0)).
  { constructor; simpl; rewrite ?Hcache, ?Horder; auto.
    - repeat split; try constructor; simpl; tauto.
    - unfold JsMap.size. simpl. lia.
    - constructor. }
  assert (Hmax : forall ops g, cache_inv (fst g) (snd g) ->
                  (fst (fold_left observe ops g)).(maxSize) = (fst g).(maxSize)).
  { clear. induction ops as [|e ops IH]; intros g Hinv; simpl; [reflexivity|].
    rewrite IH by now apply observe_inv.
    destruct g as [c r], e as [now op]. simpl. unfold step. simpl.
    pose proof Hinv as [Hen Hl _ _ _]. simpl in Hen, Hl.
    destruct op as [k|k v ttl|k| |]; simpl.
    - unfold get. rewrite Hen. simpl.
      destruct (JsMap.get k (cache c)) as [item|]; [|reflexivity].
      destruct (CacheItem.isExpired now item); [|reflexivity]. simpl.
      apply (delete_fields now k c).
    - apply (set_fields now k v ttl c Hen).
    - apply (delete_fields now k c).
    - unfold clear. now autorewrite with cache_fields.
    - apply (cleanup_shrinks now c Hl). }
  pose proof (fold_observe_inv ops g0 Hinv0) as [He Hl Hb Hr Hk].
  specialize (Hmax ops g0 Hinv0).
  rewrite observe_run in He, Hl, Hb, Hr, Hk, Hmax.
  simpl in He, Hl, Hb, Hr, Hk, Hmax. fold c in He, Hl, Hb, Hr, Hk, Hmax.
  rewrite Hmax in Hb. repeat split; try apply Hl; auto.
Qed.

Lemma cache_invariants_witness :
  let ops := [ (1, OpSet "k1" "a" None); (2, OpSet "k2" "b" None);
               (3, OpGet "k1"); (4, OpSet "k3" "c" None);
               (5, OpCleanup); (6, OpDelete "k1"); (7, OpGet "k2") ] in
  let c0 := emptyCache 2 in
  let c := run ops c0 in
  (c0.(enabled) = true /\ c0.(cache) = [] /\ c0.(accessOrder) = [])
  /\ ((1 <= c0.(maxSize) -> JsMap.size c.(cache) <= c0.(maxSize))
      /\ c.(maxSize) = c0.(maxSize)
      /\ NoDup c.(accessOrder)
      /\ (forall k, In k c.(accessOrder) <-> In k (JsMap.keys c.(cache)))
      /\ StronglySorted
           (fun a b => ((recency ops c0).(last) a < (recency ops c0).(last) b)%nat)
           c.(accessOrder)).
Proof.
  cbv zeta.
  split.
  - repeat split; auto.
  - exact (cache_invariants _ (emptyCache 2) eq_refl eq_refl eq_refl).
Defined.

(** The run of scenario A, and the order in which its keys were last
    accessed. *)
Example scenario_A_run :
  let ops := [ (1, OpSet "k1" "a" None); (2, OpSet "k2" "b" None);
               (3, OpGet "k1"); (4, OpSet "k3" "c" None) ] in
  (run ops (emptyCache 2)).(accessOrder) = ["k1"; "k3"]
  /\ map (recency ops (emptyCache 2)).(last) ["k1"; "k2"; "k3"] = [3; 2; 4]%nat.
Proof. split; reflexivity. Qed.

(** C3 as stated fails on a manager whose capacity is below 1: with
    [maxSize = 0] (the value of [CACHE_MAX_SIZE] when the environment sets it
    to 0; the constructor takes it as it is) the empty enabled cache holds
    one entry after the first [set], more than [maxSize]. *)
Lemma capacity_zero_holds_one_entry :
  let c0 := CacheManager.new
              {| Config.DEFAULT_MODEL := "claude-3-5-sonnet-20241022";
                 Config.DEFAULT_MAX_TOKENS := 1024;
                 Config.BUDGET_LIMIT := 0.5%float;
                 Config.WARN_THRESHOLD := 0.8%float;
                 Config.ENABLE_CACHE := true;
                 Config.CACHE_MAX_SIZE := 0 |}
              0 noOptions {| writable := true; content := None |} in
  let c := run [(1, OpSet "k1" "a" None)] c0 in
  c0.(enabled) = true
  /\ c0.(cache) = []
  /\ c0.(accessOrder) = []
  /\ c.(maxSize) = 0
  /\ JsMap.size c.(cache) = 1
  /\ c.(maxSize) < JsMap.size c.(cache).
Proof. cbv zeta. repeat split. Qed.

End CacheManagerFacts.

(** ** The token tracker *)

Section TokenTrackerFacts.

Import TokenTracker.

Lemma fold_cost_map (records : list CallRecord) (acc : float) :
  fold_left (fun sum record => (sum + record.(cost))%float) records acc
  = fold_left PrimFloat.add (map cost records) acc.
Proof.
  revert acc. induction records as [|r records IH]; intros acc; simpl;
    [reflexivity | apply IH].
Qed.

Lemma getTotalCost_sum (tr : TokenTracker.t) :
  getTotalCost tr = sum_costs (map cost tr.(callHistory)).
Proof. apply fold_cost_map. Qed.

(** C7.  [checkBudget()] returns as [currentCost] the sum of the [cost]
    fields of the recorded calls, [isOverBudget] exactly when
    [currentCost >= budgetLimit] and [isNearLimit] exactly when
    [currentCost >= budgetLimit * warnThreshold]; it leaves the tracker as it
    found it, so any number of calls in a row leaves the tracker and the
    reported [currentCost] unchanged.  A [cost] is computed once, by the
    [recordCall] that appends the record: the records already there are kept
    as they are, and the total grows by the cost of the new record. *)
Theorem checkBudget_sums_and_preserves (tr : TokenTracker.t) :
  let status := fst (checkBudget tr) in
  status.(currentCost) = sum_costs (map cost tr.(callHistory))
  /\ (status.(isOverBudget) = true
      <-> (tr.(budgetLimit) <=? status.(currentCost))%float = true)
  /\ (status.(isNearLimit) = true
      <-> (tr.(budgetLimit) * tr.(warnThreshold) <=? status.(currentCost))%float
          = true)
  /\ snd (checkBudget tr) = tr
  /\ (forall n,
        checkBudget_times n tr = tr
        /\ (fst (checkBudget (checkBudget_times n tr))).(currentCost)
           = status.(currentCost))
  /\ (forall cfg now inTok outTok m rid,
        match recordCall cfg now inTok outTok m rid tr with
        | (JS.Return record, tr') =>
            tr'.(callHistory) = tr.(callHistory) ++ [record]
            /\ JS.Return record.(cost)
               = calculateSingleCallCost cfg inTok outTok
                   (match m with
                    | Some m' => m'
                    | None => cfg.(Config.DEFAULT_MODEL)
                    end)
            /\ (fst (checkBudget tr')).(currentCost)
               = (status.(currentCost) + record.(cost))%float
        | (JS.Throw _, tr') => tr'.(callHistory) = tr.(callHistory)
        end).
Proof.
  assert (Hiter : forall n, checkBudget_times n tr = tr).
  { unfold checkBudget_times. induction n as [|n IH]; [reflexivity|].
    rewrite Nat.iter_succ, IH. reflexivity. }
  simpl. repeat split; try tauto.
  - apply getTotalCost_sum.
  - apply Hiter.
  - now rewrite Hiter.
  - intros cfg now inTok outTok m rid. unfold recordCall.
    destruct (calculateSingleCallCost cfg inTok outTok _) as [c|e]; simpl;
      [|reflexivity].
    repeat split. unfold getTotalCost. simpl. now rewrite fold_left_app.
Qed.

(** Scenario B: with a limit of 0.50 dollars, a recorded call that costs
    0.60 dollars (200000 input tokens at 3 dollars per million) makes
    [checkBudget()] report [isOverBudget]. *)
Example scenario_B_over_budget :
  let tr0 := TokenTracker.new Config.defaults (Some 0.5%float) in
  let tr1 := snd (recordCall Config.defaults 1000 200000 0
                             (Some "claude-3-5-sonnet-20241022") None tr0) in
  (fst (checkBudget tr0)).(isOverBudget) = false
  /\ (0.59 <? (fst (checkBudget tr1)).(currentCost))%float = true
  /\ ((fst (checkBudget tr1)).(currentCost) <? 0.61)%float = true
  /\ (fst (checkBudget tr1)).(isOverBudget) = true.
Proof. repeat split; reflexivity. Qed.

End TokenTrackerFacts.

(** ** The conversation history *)

Section ConversationFacts.

Import ConversationManager.

(** After an even number of messages the next expected role is the first
    one again. *)
Lemma alternates_app (h1 h2 : list Message) (first : Role) :
  alternates first (h1 ++ h2)
  = alternates first h1
    && alternates (if Nat.even (List.length h1) then first else other first) h2.
Proof.
  revert first. induction h1 as [|m h1 IH]; intros first.
  - reflexivity.
  - cbn [app alternates List.length]. rewrite IH, Nat.even_succ.
    rewrite <- Nat.negb_even. rewrite andb_assoc.
    destruct (Nat.even (List.length h1)), first; reflexivity.
Qed.

Lemma pop_snoc {A : Type} (l : list A) (x : A) : pop (l ++ [x]) = l.
Proof. apply removelast_last. Qed.

(** One call of [chat], as seen on the history: a successful call appends
    the user message and the assistant message; a failed call leaves the
    history as it was when the remote call was rejected or the response had
    no content, and leaves the user message behind when the response was
    incomplete. *)
Lemma chat_history (remote : Remote) (now now' : Z) (userInput : string)
    (options : ChatOptions) (c : ConversationManager.t) :
  let r := fst (chat remote now now' userInput options c) in
  let c' := snd (chat remote now now' userInput options c) in
  let sent := {| role := user; content := userInput; timestamp := now |} in
  if r.(success)
  then exists text,
         r.(r_content) = Some text
         /\ incomplete (remote (chat_params userInput options c)) = false
         /\ c'.(conversationHistory)
            = c.(conversationHistory)
              ++ [ sent;
                   {| role := assistant; content := text; timestamp := now' |} ]
  else c'.(conversationHistory)
       = if incomplete (remote (chat_params userInput options c))
         then c.(conversationHistory) ++ [sent]
         else c.(conversationHistory).
Proof.
  unfold chat, chat_params, incomplete. simpl.
  unfold getFormattedHistory. simpl. rewrite map_app. simpl.
  destruct (remote _) as [message|response]; simpl.
  - apply pop_snoc.
  - destruct (resp_content response) as [|[text|] rest]; simpl.
    + apply pop_snoc.
    + destruct (resp_usage response) as [u|]; simpl.
      * exists text. split; [reflexivity|]. split; [reflexivity|].
        now rewrite <- app_assoc.
      * apply pop_snoc.
    + reflexivity.
Qed.

(** With responses that are complete, the history stays well formed. *)
Lemma chat_call_well_formed (c : ConversationManager.t) (call : ChatCall) :
  incomplete (call.(cc_remote)
                (chat_params call.(cc_userInput) call.(cc_options) c)) = false ->
  well_formed c.(conversationHistory) ->
  well_formed (chat_call c call).(conversationHistory).
Proof.
  intros Hcomplete [Halt Heven]. unfold chat_call.
  pose proof (chat_history call.(cc_remote) call.(cc_now) call.(cc_now')
                call.(cc_userInput) call.(cc_options) c) as H.
  cbv zeta in H. destruct (success _).
  - destruct H as (text & _ & _ & ->). split.
    + rewrite alternates_app, Halt, Heven. reflexivity.
    + rewrite length_app, Nat.even_add, Heven. reflexivity.
  - rewrite H, Hcomplete. now split.
Qed.

Lemma chats_well_formed (calls : list ChatCall) :
  (forall call c, In call calls ->
     incomplete (call.(cc_remote)
                   (chat_params call.(cc_userInput) call.(cc_options) c))
     = false) ->
  forall c,
    well_formed c.(conversationHistory) ->
    well_formed (chats calls c).(conversationHistory).
Proof.
  induction calls as [|call calls IH]; intros Hall c Hc; simpl; [exact Hc|].
  apply IH.
  - intros call' c' Hin. apply Hall. now right.
  - apply chat_call_well_formed; [apply Hall; now left | exact Hc].
Qed.

(** C6.  The history invariant does not hold of the code.  When the remote
    call resolves with a response whose first block has no text, or with a
    response that has no usage, [chat] fails after it has pushed the
    assistant message; the [catch], which is there to remove the user
    message, pops the assistant message instead.  On any conversation such
    a call returns [success: false] and leaves the history one message
    longer, ending with the user message.  From an empty history, one such
    call and a call that is answered give the roles user, user, assistant:
    the history does not alternate and its length is odd. *)
Theorem chat_failure_after_reply_keeps_user_message (now now' : Z)
    (userInput text : string) (options : ChatOptions)
    (c : ConversationManager.t) (blocks : list (option string))
    (u : option ApiUsage) (m : string) (sr : option string) :
  let sent := {| role := user; content := userInput; timestamp := now |} in
  let without_text : Remote :=
    fun _ => Resolved {| resp_content := None :: blocks; resp_usage := u;
                         resp_model := m; stop_reason := sr |} in
  let without_usage : Remote :=
    fun _ => Resolved {| resp_content := Some text :: blocks;
                         resp_usage := None;
                         resp_model := m; stop_reason := sr |} in
  ((fst (chat without_text now now' userInput options c)).(success) = false
   /\ (snd (chat without_text now now' userInput options c))
        .(conversationHistory)
      = c.(conversationHistory) ++ [sent])
  /\ ((fst (chat without_usage now now' userInput options c)).(success)
      = false
      /\ (snd (chat without_usage now now' userInput options c))
           .(conversationHistory)
         = c.(conversationHistory) ++ [sent])
  /\ map role (chat_call demo_conversation tool_call).(conversationHistory)
     = [user]
  /\ map role
       (chats calls_after_tool_reply demo_conversation).(conversationHistory)
     = [user; user; assistant]
  /\ alternates user
       (chats calls_after_tool_reply demo_conversation).(conversationHistory)
     = false
  /\ Nat.even
       (List.length
          (chats calls_after_tool_reply demo_conversation)
            .(conversationHistory))
     = false.
Proof.
  cbv zeta. split; [|split].
  - unfold chat. simpl. split; reflexivity.
  - unfold chat. simpl. split; [reflexivity | apply pop_snoc].
  - repeat split.
Qed.

End ConversationFacts.

(** ** The request pipeline *)

Section PipelineFacts.

Import CleverAssistant.

(** Splits a conjunction into its parts, and nothing else. *)
Ltac split_conj := repeat match goal with |- _ /\ _ => split end.

(** C8.  When [checkBudget()] reports [isOverBudget], [sendMessage] returns
    the failure result ([success = false], an error description, no content)
    and the assistant it leaves is the one it found: nothing was sent to the
    remote model, and the conversation history, the cache and the tracker are
    unchanged. *)
Theorem sendMessage_over_budget_denied (cfg : Config.t)
    (remote : ConversationManager.Remote) (now now' : Z) (userInput : string)
    (options : ConversationManager.ChatOptions) (a : CleverAssistant.t) :
  overBudget a = true ->
  sendMessage cfg remote now now' userInput options a
  = (JS.Return (ConversationManager.failure "已超出预算限制"), a)
  /\ (ConversationManager.failure "已超出预算限制").(ConversationManager.success)
     = false
  /\ (snd (sendMessage cfg remote now now' userInput options a))
       .(conversation).(ConversationManager.requests)
     = a.(conversation).(ConversationManager.requests)
  /\ (snd (sendMessage cfg remote now now' userInput options a))
       .(conversation).(ConversationManager.conversationHistory)
     = a.(conversation).(ConversationManager.conversationHistory)
  /\ (snd (sendMessage cfg remote now now' userInput options a)).(cache)
     = a.(cache)
  /\ (snd (sendMessage cfg remote now now' userInput options a)).(tokenTracker)
     = a.(tokenTracker).
Proof.
  intros Hover. unfold overBudget in Hover.
  assert (E : sendMessage cfg remote now now' userInput options a
              = (JS.Return (ConversationManager.failure "已超出预算限制"), a)).
  { unfold sendMessage.
    destruct (TokenTracker.checkBudget (tokenTracker a)) as [status tracker] eqn:Hcb.
    simpl in Hover. rewrite Hover.
    assert (tracker = tokenTracker a) by (unfold TokenTracker.checkBudget in Hcb; congruence).
    subst tracker. destruct a; reflexivity. }
  rewrite E. repeat split.
Qed.

Lemma sendMessage_over_budget_denied_witness :
  overBudget demo_assistant_after_call = true
  /\ sendMessage Config.defaults demo_remote 3000 4000 "hi"
       ConversationManager.noOptions demo_assistant_after_call
     = (JS.Return (ConversationManager.failure "已超出预算限制"),
        demo_assistant_after_call).
Proof.
  assert (Hover : overBudget demo_assistant_after_call = true)
    by (vm_compute; reflexivity).
  split; [exact Hover|].
  exact (proj1 (sendMessage_over_budget_denied Config.defaults demo_remote
                  3000 4000 "hi" ConversationManager.noOptions
                  demo_assistant_after_call Hover)).
Defined.

(** C1, as the code has it.  The budget gate comes first.  When the tracker
    is not over budget, the derived key has an entry in the enabled cache
    that has not expired and whose content is not the empty string, and the
    request does not disable the cache, [sendMessage] returns success with
    the cached content, [fromCache = true] and no usage figures; it appends
    the user turn and the assistant turn to the history; it sends nothing to
    the remote model; it leaves the tracker as it was (the tracker is read
    by the budget gate, not written); and the cache is the one the counted
    hit leaves. *)
Theorem sendMessage_cache_hit (cfg : Config.t)
    (remote : ConversationManager.Remote) (now now' : Z) (userInput : string)
    (options : ConversationManager.ChatOptions) (a : CleverAssistant.t)
    (item : CacheItem.t) :
  overBudget a = false ->
  a.(cache).(CacheManager.enabled) = true ->
  JsMap.get (cacheKey cfg userInput a) a.(cache).(CacheManager.cache)
  = Some item ->
  now - item.(CacheItem.createdAt) <= item.(CacheItem.ttl) ->
  JS.truthy item.(CacheItem.value) = true ->
  options.(ConversationManager.o_disableCache) = false ->
  let r := fst (sendMessage cfg remote now now' userInput options a) in
  let a' := snd (sendMessage cfg remote now now' userInput options a) in
  r = JS.Return
        {| ConversationManager.success := true;
           ConversationManager.r_content := Some item.(CacheItem.value);
           ConversationManager.error := None;
           ConversationManager.fromCache := true;
           ConversationManager.usage := None;
           ConversationManager.r_model := None;
           ConversationManager.stopReason := None |}
  /\ a'.(conversation).(ConversationManager.conversationHistory)
     = a.(conversation).(ConversationManager.conversationHistory)
       ++ [ {| ConversationManager.role := ConversationManager.user;
               ConversationManager.content := userInput;
               ConversationManager.timestamp := now |};
            {| ConversationManager.role := ConversationManager.assistant;
               ConversationManager.content := item.(CacheItem.value);
               ConversationManager.timestamp := now |} ]
  /\ a'.(conversation).(ConversationManager.requests)
     = a.(conversation).(ConversationManager.requests)
  /\ a'.(tokenTracker) = a.(tokenTracker)
  /\ a'.(cache)
     = snd (CacheManager.get now (cacheKey cfg userInput a) a.(cache)).
Proof.
  intros Hbudget Hen Hget Hfresh Htruthy Hcache r a'. subst r a'.
  unfold overBudget in Hbudget.
  destruct (get_hit_fields now _ _ item Hen Hget Hfresh)
    as (Hr & _).
  unfold sendMessage.
  destruct (TokenTracker.checkBudget (tokenTracker a)) as [status tracker] eqn:Hcb.
  simpl in Hbudget. rewrite Hbudget.
  assert (tracker = tokenTracker a)
    by (unfold TokenTracker.checkBudget in Hcb; congruence).
  subst tracker.
  destruct (CacheManager.get now (cacheKey cfg userInput a) (cache a))
    as [cached cache1] eqn:Hg.
  simpl in Hr. subst cached. rewrite Htruthy, Hcache. simpl.
  repeat split. now rewrite <- app_assoc.
Qed.

Lemma sendMessage_cache_hit_witness :
  let item := CacheItem.new 2000 (cacheKey Config.defaults "hi" learning_1000)
                            "hello" 3600000 in
  (overBudget learning_1000 = false
   /\ learning_1000.(cache).(CacheManager.enabled) = true
   /\ JsMap.get (cacheKey Config.defaults "hi" learning_1000)
                learning_1000.(cache).(CacheManager.cache)
      = Some item
   /\ 3000 - item.(CacheItem.createdAt) <= item.(CacheItem.ttl)
   /\ JS.truthy item.(CacheItem.value) = true)
  /\ fst (sendMessage Config.defaults demo_remote 3000 4000 "hi"
            ConversationManager.noOptions learning_1000)
     = JS.Return
         {| ConversationManager.success := true;
            ConversationManager.r_content := Some "hello";
            ConversationManager.error := None;
            ConversationManager.fromCache := true;
            ConversationManager.usage := None;
            ConversationManager.r_model := None;
            ConversationManager.stopReason := None |}.
Proof.
  cbv zeta.
  set (item := CacheItem.new _ _ _ _).
  assert (H1 : overBudget learning_1000 = false) by (vm_compute; reflexivity).
  assert (H2 : learning_1000.(cache).(CacheManager.enabled) = true)
    by (vm_compute; reflexivity).
  assert (H3 : JsMap.get (cacheKey Config.defaults "hi" learning_1000)
                 learning_1000.(cache).(CacheManager.cache) = Some item)
    by (vm_compute; reflexivity).
  assert (H4 : 3000 - item.(CacheItem.createdAt) <= item.(CacheItem.ttl))
    by (vm_compute; discriminate).
  assert (H5 : JS.truthy item.(CacheItem.value) = true) by reflexivity.
  split; [exact (conj H1 (conj H2 (conj H3 (conj H4 H5))))|].
  exact (proj1 (sendMessage_cache_hit Config.defaults demo_remote 3000 4000
                  "hi" ConversationManager.noOptions learning_1000 item
                  H1 H2 H3 H4 H5 eq_refl)).
Defined.

(** C1 as stated fails: the budget gate precedes the cache check.  After a
    first request that the remote model answered (its cost, 0.60 dollars,
    exceeds the limit of 0.50; its answer went into the cache), the same
    request has a fresh cache entry, and [sendMessage] returns the budget
    failure, not the cached content, and appends nothing to the history. *)
Lemma cached_request_denied_over_budget :
  let a := demo_assistant_after_call in
  let key := cacheKey Config.defaults "hi" a in
  a.(cache).(CacheManager.enabled) = true
  /\ option_map CacheItem.value (JsMap.get key a.(cache).(CacheManager.cache))
     = Some "hello"
  /\ fst (CacheManager.get 3000 key a.(cache)) = Some "hello"
  /\ overBudget a = true
  /\ fst (sendMessage Config.defaults demo_remote 3000 4000 "hi"
            ConversationManager.noOptions a)
     = JS.Return (ConversationManager.failure "已超出预算限制")
  /\ (snd (sendMessage Config.defaults demo_remote 3000 4000 "hi"
             ConversationManager.noOptions a))
       .(conversation).(ConversationManager.conversationHistory)
     = a.(conversation).(ConversationManager.conversationHistory).
Proof. cbv zeta. split_conj; vm_compute; reflexivity. Qed.

(** C2, on the code.  The key of the pipeline is a function of the text and
    of the model, the temperature and the system prompt of the conversation:
    equal inputs give equal keys.  The [maxTokens] of the conversation is
    not among them, so changing [maxTokens] alone leaves the key unchanged,
    where the claim wants a different key: the key is the one [generateKey]
    gives for [Config.DEFAULT_MAX_TOKENS]. *)
Theorem cacheKey_ignores_maxTokens (cfg : Config.t) (userInput : string)
    (a : CleverAssistant.t) (n : Z) :
  cacheKey cfg userInput (with_maxTokens a n) = cacheKey cfg userInput a
  /\ cacheKey cfg userInput a
     = CacheManager.generateKey cfg userInput
         {| CacheManager.ko_model :=
              Some a.(conversation).(ConversationManager.model);
            CacheManager.ko_maxTokens := Some cfg.(Config.DEFAULT_MAX_TOKENS);
            CacheManager.ko_temperature :=
              Some a.(conversation).(ConversationManager.temperature);
            CacheManager.ko_systemPrompt :=
              match a.(conversation).(ConversationManager.systemPrompt) with
              | Some p => JS.Val p
              | None => JS.Null
              end |}
  /\ (forall a' : CleverAssistant.t,
        a'.(conversation).(ConversationManager.model)
        = a.(conversation).(ConversationManager.model) ->
        a'.(conversation).(ConversationManager.temperature)
        = a.(conversation).(ConversationManager.temperature) ->
        a'.(conversation).(ConversationManager.systemPrompt)
        = a.(conversation).(ConversationManager.systemPrompt) ->
        cacheKey cfg userInput a' = cacheKey cfg userInput a).
Proof.
  split; [reflexivity|]. split.
  - unfold cacheKey, CacheManager.generateKey, CacheManager.keyData, keyOptions.
    cbn [CacheManager.ko_model CacheManager.ko_maxTokens
         CacheManager.ko_temperature CacheManager.ko_systemPrompt].
    unfold JS.num_or.
    destruct (Z.eqb_spec (Config.DEFAULT_MAX_TOKENS cfg) 0) as [->|];
      reflexivity.
  - intros a' Hm Ht Hp. unfold cacheKey, keyOptions. now rewrite Hm, Ht, Hp.
Qed.

(** The failing input of C2: [learning_1000] and [learning_1500] differ in
    [maxTokens] alone.  [generateKey] gives different keys when it is told
    the two values; the pipeline does not tell it, computes one key for both,
    and answers the request made with [maxTokens = 1500] from the entry the
    request made with [maxTokens = 1000] stored. *)
Example same_key_for_different_maxTokens :
  learning_1000.(conversation).(ConversationManager.maxTokens) = 1000
  /\ learning_1500.(conversation).(ConversationManager.maxTokens) = 1500
  /\ CacheManager.generateKey Config.defaults "hi" (keyOptions_with 1000)
     <> CacheManager.generateKey Config.defaults "hi" (keyOptions_with 1500)
  /\ cacheKey Config.defaults "hi" learning_1000
     = cacheKey Config.defaults "hi" learning_1500
  /\ fst (sendMessage Config.defaults demo_remote 3000 4000 "hi"
            ConversationManager.noOptions learning_1500)
     = JS.Return
         {| ConversationManager.success := true;
            ConversationManager.r_content := Some "hello";
            ConversationManager.error := None;
            ConversationManager.fromCache := true;
            ConversationManager.usage := None;
            ConversationManager.r_model := None;
            ConversationManager.stopReason := None |}.
Proof.
  split_conj; try (vm_compute; reflexivity).
  vm_compute. discriminate.
Qed.

(** The key [generateKey] gives for the first request of the learning
    assistant: 16 hexadecimal characters. *)
Example learning_key :
  cacheKey Config.defaults "hi" demo_assistant = "48d55f05fab23884".
Proof. vm_compute. reflexivity. Qed.

End PipelineFacts.

(** * Further properties

    Properties of the operations the sections above do not reach:
    [getOrSet], [cleanup], the cache file under any sequence of operations,
    the format and the text of a key, [estimate], [trimHistory],
    [getSummary], [saveConversation] and [loadConversation], [chatStream],
    [switchMode], [reset], the web server and its routes. *)

(** ** Strings *)

Section StringFacts.

Lemma append_assoc (a b c : string) : ((a ++ b) ++ c = a ++ (b ++ c))%string.
Proof. induction a as [|x a IH]; simpl; [reflexivity | now rewrite IH]. Qed.

Lemma append_empty_r (a : string) : (a ++ "")%string = a.
Proof. induction a as [|x a IH]; simpl; [reflexivity | now rewrite IH]. Qed.

Lemma concat_empty_cons (x : string) (xs : list string) :
  String.concat "" (x :: xs) = (x ++ String.concat "" xs)%string.
Proof.
  destruct xs; [|reflexivity]. simpl. now rewrite append_empty_r.
Qed.

Lemma concat_empty_app (xs ys : list string) :
  String.concat "" (xs ++ ys)
  = (String.concat "" xs ++ String.concat "" ys)%string.
Proof.
  induction xs as [|x xs IH]; [reflexivity|].
  rewrite <- app_comm_cons, !concat_empty_cons, IH. now rewrite append_assoc.
Qed.

(** [unquote_char] reads back what [Json.quote_char] wrote. *)
Lemma unquote_quote_char (c : ascii) (r : string) :
  unquote_char (Json.quote_char c ++ r) = Some (c, r).
Proof.
  destruct c as [[] [] [] [] [] [] [] []]; reflexivity.
Qed.

(** An escaped string ends at the first quote that is not escaped. *)
Lemma escape_ends (s1 s2 r1 r2 : string) :
  (Json.escape s1 ++ String Json.dquote r1
   = Json.escape s2 ++ String Json.dquote r2)%string ->
  s1 = s2 /\ r1 = r2.
Proof.
  revert s2. induction s1 as [|a s1 IH]; intros [|b s2]; simpl.
  - intros [= ->]. split; reflexivity.
  - intros H. pose proof (f_equal unquote_char H) as H'.
    rewrite append_assoc, unquote_quote_char in H'. simpl in H'.
    injection H' as <- _. discriminate H.
  - intros H. pose proof (f_equal unquote_char H) as H'.
    rewrite append_assoc, unquote_quote_char in H'. simpl in H'.
    injection H' as -> _. discriminate H.
  - intros H. rewrite !append_assoc in H.
    apply (f_equal unquote_char) in H. rewrite !unquote_quote_char in H.
    injection H as -> H. destruct (IH _ H) as [-> ->]. split; reflexivity.
Qed.

(** The text of a number ends at the first character that is not one of a
    number. *)
Lemma number_text_ends (t1 t2 r1 r2 : string) (c1 c2 : ascii) :
  number_text t1 = true -> number_text t2 = true ->
  number_char c1 = false -> number_char c2 = false ->
  (t1 ++ String c1 r1 = t2 ++ String c2 r2)%string ->
  t1 = t2 /\ String c1 r1 = String c2 r2.
Proof.
  unfold number_text. revert t2.
  induction t1 as [|a t1 IH]; intros [|b t2]; simpl; intros H1 H2 Hc1 Hc2 H.
  - split; [reflexivity | exact H].
  - injection H as -> _. apply andb_true_iff in H2. destruct H2 as [H2 _].
    congruence.
  - injection H as <- _. apply andb_true_iff in H1. destruct H1 as [H1 _].
    congruence.
  - injection H as -> H. apply andb_true_iff in H1, H2.
    destruct (IH t2 (proj2 H1) (proj2 H2) Hc1 Hc2 H) as [-> ->].
    split; reflexivity.
Qed.

Lemma uint_number_text (d : Decimal.uint) :
  number_text (DecimalString.NilEmpty.string_of_uint d) = true.
Proof. induction d; simpl; auto. Qed.

Lemma of_int_number_text (n : Z) : number_text (Json.of_int n) = true.
Proof.
  unfold Json.of_int, DecimalString.NilZero.string_of_int,
    DecimalString.NilZero.string_of_uint.
  destruct (Z.to_int n) as [d|d]; destruct d; try reflexivity;
    apply (uint_number_text (_ _)) || (simpl; apply (uint_number_text _)).
Qed.

Lemma of_number_text (t : string) :
  number_text t = true -> Json.of_number t = t.
Proof.
  intros Ht. unfold Json.of_number.
  destruct (String.eqb_spec t "NaN") as [->|_]; [discriminate Ht|].
  destruct (String.eqb_spec t "Infinity") as [->|_]; [discriminate Ht|].
  destruct (String.eqb_spec t "-Infinity") as [->|_]; [discriminate Ht|].
  reflexivity.
Qed.

Lemma of_int_inj (n1 n2 : Z) : Json.of_int n1 = Json.of_int n2 -> n1 = n2.
Proof.
  unfold Json.of_int. intros H. apply DecimalZ.to_int_inj.
  assert (Hn : forall n, Z.to_int n <> Decimal.Pos Decimal.Nil
                         /\ Z.to_int n <> Decimal.Neg Decimal.Nil).
  { intros [|p|p]; simpl; split; try discriminate;
      intros [= E]; revert E; apply DecimalPos.Unsigned.to_uint_nonnil. }
  pose proof (DecimalString.NilZero.isi (Z.to_int n1)
                (proj1 (Hn n1)) (proj2 (Hn n1))) as E1.
  pose proof (DecimalString.NilZero.isi (Z.to_int n2)
                (proj1 (Hn n2)) (proj2 (Hn n2))) as E2.
  rewrite H in E1. congruence.
Qed.

End StringFacts.

(** ** The cache manager, continued *)

Section CacheManagerMore.

Import CacheManager.

(** X1.  What is written can be read.  On an enabled manager, whatever its
    capacity and whether or not the cache file can be written, a [get] of
    the key that follows a [set(key, value, ttl)] returns the value, as
    long as the time since the [set] is at most the ttl that was given (the
    default ttl when none was); the read counts one hit. *)
Theorem get_after_set (now now2 : Z) (k v : string) (ttl : option Z)
    (c : CacheManager.t) :
  c.(enabled) = true ->
  now2 - now <= JS.num_or ttl c.(defaultTTL) ->
  fst (get now2 k (snd (set now k v ttl c))) = Some v
  /\ (snd (get now2 k (snd (set now k v ttl c)))).(stats).(hits)
     = c.(stats).(hits) + 1.
Proof.
  intros Hen Hfresh.
  destruct (set_fields now k v ttl c Hen) as (_ & Hen1 & _ & _ & Hc & _ & Hs).
  set (c1 := snd (set now k v ttl c)) in *.
  set (item := CacheItem.new now k v (JS.num_or ttl (defaultTTL c))) in *.
  assert (Hget : JsMap.get k c1.(cache) = Some item).
  { rewrite Hc. apply jsmap_get_set_eq. }
  destruct (get_hit_fields now2 k c1 item Hen1 Hget)
    as (Hr & _ & _ & _ & _ & _ & Hs2).
  { exact Hfresh. }
  split; [exact Hr|]. rewrite Hs2, Hs. simpl.
  destruct ((maxSize c <=? JsMap.size (cache c)) && negb (JsMap.has k (cache c)));
    [|reflexivity].
  unfold evictLRU. destruct (accessOrder c); reflexivity.
Qed.

Lemma get_after_set_witness :
  ((emptyCache 2).(enabled) = true
   /\ 3600000 - 0 <= JS.num_or None (emptyCache 2).(defaultTTL))
  /\ fst (get 3600000 "k" (snd (set 0 "k" "v" None (emptyCache 2)))) = Some "v".
Proof.
  assert (Hen : (emptyCache 2).(enabled) = true) by reflexivity.
  assert (Hfresh : 3600000 - 0 <= JS.num_or None (emptyCache 2).(defaultTTL))
    by (vm_compute; discriminate).
  split; [split; assumption|].
  exact (proj1 (get_after_set 0 3600000 "k" "v" None (emptyCache 2) Hen Hfresh)).
Defined.

(** X2.  Eviction takes the least recently used key, and only that one.  On
    an enabled manager whose access order lists its keys, when the number of
    entries has reached [maxSize] and the key is new, [set] removes the
    entry of the first key of the access order, keeps every other entry as
    it was, stores the new entry, moves no other key in the access order,
    leaves the number of entries as it was and counts one eviction. *)
Theorem set_on_full_cache_evicts_lru (now : Z) (k v lru : string)
    (rest : list string) (ttl : option Z) (c : CacheManager.t) :
  c.(enabled) = true ->
  linked c.(cache) c.(accessOrder) ->
  c.(maxSize) <= JsMap.size c.(cache) ->
  ~ In k (JsMap.keys c.(cache)) ->
  c.(accessOrder) = lru :: rest ->
  let c' := snd (set now k v ttl c) in
  JsMap.get lru c'.(cache) = None
  /\ (forall k', k' <> lru -> k' <> k ->
        JsMap.get k' c'.(cache) = JsMap.get k' c.(cache))
  /\ JsMap.get k c'.(cache)
     = Some (CacheItem.new now k v (JS.num_or ttl c.(defaultTTL)))
  /\ c'.(accessOrder) = rest ++ [k]
  /\ JsMap.size c'.(cache) = JsMap.size c.(cache)
  /\ c'.(stats).(evictions) = c.(stats).(evictions) + 1.
Proof.
  intros Hen Hl Hfull Hnew Ho c'.
  destruct (set_fields now k v ttl c Hen) as (_ & _ & _ & _ & Hc & Hord & Hs).
  fold c' in Hc, Hord, Hs.
  assert (Hhas : JsMap.has k (cache c) = false) by now apply jsmap_has_false.
  assert (Hfull' : (maxSize c <=? JsMap.size (cache c)) = true)
    by now apply Z.leb_le.
  rewrite Hfull', Hhas in Hc, Hord, Hs. simpl in Hc, Hord, Hs.
  unfold evictLRU in Hc, Hord, Hs. rewrite Ho in Hc, Hord, Hs.
  simpl in Hc, Hord, Hs.
  assert (Hlru : In lru (JsMap.keys (cache c))).
  { apply Hl. rewrite Ho. now left. }
  assert (Hne : lru <> k) by (intros ->; contradiction).
  assert (Hrest : ~ In k rest).
  { intros Hin. apply Hnew. apply Hl. rewrite Ho. now right. }
  assert (Hnew' : ~ In k (JsMap.keys (JsMap.delete lru (cache c)))).
  { rewrite jsmap_keys_delete, filter_In. tauto. }
  split; [|split; [|split; [|split; [|split]]]].
  - rewrite Hc, jsmap_get_set_neq by congruence. apply jsmap_get_delete_eq.
  - intros k' H1 H2. rewrite Hc, jsmap_get_set_neq by congruence.
    apply jsmap_get_delete_neq. congruence.
  - rewrite Hc. apply jsmap_get_set_eq.
  - rewrite Hord. f_equal.
    rewrite remove_first_filter.
    + apply forallb_filter_id. apply forallb_forall. intros x Hx.
      destruct (String.eqb_spec x k); [subst; contradiction | reflexivity].
    + destruct Hl as (_ & Hnd & _). rewrite Ho in Hnd. now inversion Hnd.
  - rewrite Hc. unfold JsMap.size. rewrite jsmap_length_set_new by exact Hnew'.
    rewrite (jsmap_length_delete lru (cache c));
      [reflexivity | apply Hl | exact Hlru].
  - rewrite Hs. reflexivity.
Qed.

Lemma two_entries_linked : linked two_entries.(cache) two_entries.(accessOrder).
Proof.
  split; [|split].
  - repeat constructor; simpl; intuition discriminate.
  - repeat constructor; simpl; intuition discriminate.
  - intros k. simpl. tauto.
Qed.

Lemma set_on_full_cache_evicts_lru_witness :
  (two_entries.(enabled) = true
   /\ two_entries.(maxSize) <= JsMap.size two_entries.(cache)
   /\ ~ In "k3" (JsMap.keys two_entries.(cache))
   /\ two_entries.(accessOrder) = ["k1"; "k2"])
  /\ JsMap.get "k1" (snd (set 3 "k3" "c" None two_entries)).(cache) = None.
Proof.
  assert (Hfull : two_entries.(maxSize) <= JsMap.size two_entries.(cache))
    by (vm_compute; discriminate).
  assert (Hnew : ~ In "k3" (JsMap.keys two_entries.(cache)))
    by (simpl; intuition discriminate).
  split; [repeat split; assumption|].
  exact (proj1 (set_on_full_cache_evicts_lru 3 "k3" "c" "k1" ["k2"] None
                  two_entries eq_refl two_entries_linked Hfull Hnew eq_refl)).
Defined.

(** X3.  [set] evicts nothing unless the cache is full and the key is new.
    On an enabled manager, when the key is already there or the number of
    entries is below [maxSize], [set] keeps the entry of every other key,
    counts no eviction, and stores for the key a new entry created at the
    time of the call with no hits (so an overwrite restarts the ttl); a key
    that was there keeps its place in the map. *)
Theorem set_without_eviction (now : Z) (k v : string) (ttl : option Z)
    (c : CacheManager.t) :
  c.(enabled) = true ->
  In k (JsMap.keys c.(cache)) \/ JsMap.size c.(cache) < c.(maxSize) ->
  let c' := snd (set now k v ttl c) in
  (forall k', k' <> k -> JsMap.get k' c'.(cache) = JsMap.get k' c.(cache))
  /\ JsMap.get k c'.(cache)
     = Some (CacheItem.new now k v (JS.num_or ttl c.(defaultTTL)))
  /\ c'.(stats).(evictions) = c.(stats).(evictions)
  /\ (In k (JsMap.keys c.(cache)) ->
      JsMap.keys c'.(cache) = JsMap.keys c.(cache)).
Proof.
  intros Hen Hroom c'.
  destruct (set_fields now k v ttl c Hen) as (_ & _ & _ & _ & Hc & _ & Hs).
  fold c' in Hc, Hs.
  assert (Hno : (maxSize c <=? JsMap.size (cache c))
                && negb (JsMap.has k (cache c)) = false).
  { destruct Hroom as [Hin|Hlt].
    - apply jsmap_has_true in Hin. rewrite Hin. apply andb_false_r.
    - apply andb_false_intro1. apply Z.leb_gt. exact Hlt. }
  rewrite Hno in Hc, Hs.
  split; [|split; [|split]].
  - intros k' Hne. rewrite Hc. apply jsmap_get_set_neq. congruence.
  - rewrite Hc. apply jsmap_get_set_eq.
  - rewrite Hs. reflexivity.
  - intros Hin. rewrite Hc. now apply jsmap_keys_set_old.
Qed.

Lemma set_without_eviction_witness :
  (two_entries.(enabled) = true
   /\ (In "k1" (JsMap.keys two_entries.(cache))
       \/ JsMap.size two_entries.(cache) < two_entries.(maxSize)))
  /\ JsMap.get "k2" (snd (set 3 "k1" "z" None two_entries)).(cache)
     = JsMap.get "k2" two_entries.(cache).
Proof.
  assert (Hroom : In "k1" (JsMap.keys two_entries.(cache))
                  \/ JsMap.size two_entries.(cache) < two_entries.(maxSize))
    by (left; simpl; tauto).
  assert (Hne : "k2" <> "k1") by discriminate.
  split; [split; [reflexivity | exact Hroom]|].
  exact (proj1 (set_without_eviction 3 "k1" "z" None two_entries eq_refl Hroom)
               "k2" Hne).
Defined.

(** *** [cleanup()] *)

Lemma jsmap_delete_middle {V : Type} (pre rest : JsMap.t V) (k : string) (v : V) :
  NoDup (JsMap.keys (pre ++ (k, v) :: rest)) ->
  JsMap.delete k (pre ++ (k, v) :: rest) = pre ++ rest.
Proof.
  intros Hnd. unfold JsMap.delete. rewrite filter_app. simpl.
  rewrite String.eqb_refl. simpl.
  unfold JsMap.keys in Hnd. rewrite map_app in Hnd. simpl in Hnd.
  apply NoDup_remove in Hnd. destruct Hnd as [_ Hnotin].
  rewrite in_app_iff in Hnotin.
  assert (Hid : forall l : JsMap.t V, ~ In k (map fst l) ->
            filter (fun e => negb (String.eqb k (fst e))) l = l).
  { intros l Hl. apply forallb_filter_id. apply forallb_forall.
    intros [k' v'] Hin. simpl. destruct (String.eqb_spec k k'); [|reflexivity].
    subst. exfalso. apply Hl. apply in_map_iff. now exists (k', v'). }
  rewrite !Hid by tauto. reflexivity.
Qed.

(** The loop of [cleanup()], from an entry of the map on. *)
Lemma cleanup_loop (now : Z) (todo : JsMap.t CacheItem.t) :
  forall (pre : JsMap.t CacheItem.t) (c : CacheManager.t) (n : Z),
  c.(cache) = pre ++ todo ->
  NoDup (JsMap.keys (pre ++ todo)) ->
  let r := fold_left
             (fun (acc : Z * CacheManager.t) (e : string * CacheItem.t) =>
                let '(cleaned, c') := acc in
                if (snd e).(CacheItem.ttl) <? now - (snd e).(CacheItem.createdAt)
                then (cleaned + 1, snd (delete now (fst e) c'))
                else acc)
             todo (n, c) in
  (snd r).(cache) = pre ++ filter (fun e => negb (stale now e)) todo
  /\ fst r = n + Z.of_nat (List.length (filter (stale now) todo)).
Proof.
  induction todo as [|[k item] rest IH]; intros pre c n Hc Hnd; simpl.
  - split; [now rewrite Hc | lia].
  - assert (Hs : stale now (k, item)
                 = (CacheItem.ttl item <? now - CacheItem.createdAt item))
      by reflexivity.
    rewrite !Hs.
    destruct (CacheItem.ttl item <? now - CacheItem.createdAt item); simpl.
    + destruct (delete_fields now k c) as (_ & _ & _ & Hc' & _).
      rewrite Hc, jsmap_delete_middle in Hc' by exact Hnd.
      destruct (IH pre (snd (delete now k c)) (n + 1) Hc') as [H1 H2].
      { unfold JsMap.keys in *. rewrite map_app in *. simpl in Hnd.
        now apply NoDup_remove_1 in Hnd. }
      split; [exact H1|]. rewrite H2. lia.
    + destruct (IH (pre ++ [(k, item)]) c n) as [H1 H2].
      { now rewrite <- app_assoc. }
      { now rewrite <- app_assoc. }
      split; [now rewrite H1, <- app_assoc | exact H2].
Qed.

Lemma cleanup_cache (now : Z) (c : CacheManager.t) :
  NoDup (JsMap.keys c.(cache)) ->
  (snd (cleanup now c)).(cache) = filter (fun e => negb (stale now e)) c.(cache)
  /\ fst (cleanup now c)
     = Z.of_nat (List.length (filter (stale now) c.(cache))).
Proof.
  intros Hnd. exact (cleanup_loop now c.(cache) [] c 0 eq_refl Hnd).
Qed.

Lemma cleanup_nothing_stale (now : Z) (c : CacheManager.t) :
  (forall e, In e c.(cache) -> stale now e = false) ->
  cleanup now c = (0, c).
Proof.
  unfold cleanup. generalize 0. generalize (cache c).
  intros l. induction l as [|e l IH]; intros n Hall; simpl; [reflexivity|].
  assert (He : stale now e = false) by (apply Hall; now left).
  unfold stale, CacheItem.isExpired in He. rewrite He.
  apply IH. intros e' He'. apply Hall. now right.
Qed.

Lemma jsmap_get_filter {V : Type} (p : string * V -> bool) (m : JsMap.t V)
    (k : string) (v : V) :
  NoDup (JsMap.keys m) ->
  JsMap.get k m = Some v ->
  JsMap.get k (filter p m) = if p (k, v) then Some v else None.
Proof.
  intros Hnd Hget.
  assert (Hndf : NoDup (JsMap.keys (filter p m))).
  { clear Hget. induction m as [|[k' v'] m IH]; simpl; [constructor|].
    inversion Hnd as [|? ? Hnotin Hnd']; subst.
    destruct (p (k', v')); simpl; auto. constructor; auto.
    intros Hin. apply Hnotin. unfold JsMap.keys in *.
    apply in_map_iff in Hin. destruct Hin as (x & Hx & Hin).
    apply filter_In in Hin. apply in_map_iff. exists x. tauto. }
  apply jsmap_get_In in Hget.
  destruct (p (k, v)) eqn:Hp.
  - apply jsmap_In_get; [exact Hndf|]. apply filter_In. tauto.
  - apply jsmap_get_None. intros Hin. unfold JsMap.keys in Hin.
    apply in_map_iff in Hin. destruct Hin as ([k' v'] & Hk & Hin).
    simpl in Hk. subst k'. apply filter_In in Hin. destruct Hin as [Hin Hp'].
    assert (v' = v).
    { apply (jsmap_In_get _ _ _ Hnd) in Hin.
      apply (jsmap_In_get _ _ _ Hnd) in Hget. congruence. }
    subst. congruence.
Qed.

(** X4.  [cleanup()] removes exactly the expired entries.  On a manager
    whose map has each key once (enabled or not), after [cleanup()] at time
    [now] an entry is gone when [now - createdAt > ttl] and is there
    unchanged otherwise, no key has appeared, the number returned is the
    number of entries removed, the access order still lists the keys when
    it did, and a second [cleanup()] at the same time removes nothing and
    changes nothing. *)
Theorem cleanup_removes_expired (now : Z) (c : CacheManager.t) :
  NoDup (JsMap.keys c.(cache)) ->
  let n := fst (cleanup now c) in
  let c' := snd (cleanup now c) in
  (forall k item,
     JsMap.get k c.(cache) = Some item ->
     JsMap.get k c'.(cache)
     = if CacheItem.isExpired now item then None else Some item)
  /\ (forall k, JsMap.get k c.(cache) = None -> JsMap.get k c'.(cache) = None)
  /\ n = JsMap.size c.(cache) - JsMap.size c'.(cache)
  /\ (linked c.(cache) c.(accessOrder) -> linked c'.(cache) c'.(accessOrder))
  /\ cleanup now c' = (0, c').
Proof.
  intros Hnd n c'. destruct (cleanup_cache now c Hnd) as [Hc Hn].
  fold c' in Hc. fold n in Hn.
  split; [|split; [|split; [|split]]].
  - intros k item Hget. rewrite Hc.
    rewrite (jsmap_get_filter _ _ k item Hnd Hget). unfold stale. simpl.
    now destruct (CacheItem.isExpired now item).
  - intros k Hget. rewrite Hc. apply jsmap_get_None. intros Hin.
    apply jsmap_get_None in Hget. apply Hget. unfold JsMap.keys in *.
    apply in_map_iff in Hin. destruct Hin as (x & Hx & Hin).
    apply filter_In in Hin. apply in_map_iff. exists x. tauto.
  - rewrite Hn, Hc. unfold JsMap.size.
    pose proof (filter_length (stale now) (cache c)) as Hlen. lia.
  - intros Hl. apply (cleanup_shrinks now c Hl).
  - apply cleanup_nothing_stale. intros e He. rewrite Hc in He.
    apply filter_In in He. destruct He as [_ He].
    now destruct (stale now e).
Qed.

Lemma cleanup_removes_expired_witness :
  NoDup (JsMap.keys short_and_long.(cache))
  /\ fst (cleanup 20 short_and_long)
     = JsMap.size short_and_long.(cache)
       - JsMap.size (snd (cleanup 20 short_and_long)).(cache)
  /\ fst (cleanup 20 short_and_long) = 1.
Proof.
  assert (Hnd : NoDup (JsMap.keys short_and_long.(cache)))
    by (repeat constructor; simpl; intuition discriminate).
  split; [exact Hnd|]. split; [|reflexivity].
  exact (proj1 (proj2 (proj2 (cleanup_removes_expired 20 short_and_long Hnd)))).
Defined.

(** *** The cache file *)

Lemma persist_synced (now : Z) (c : CacheManager.t) :
  persistent c -> persistent (persist now c) /\ mirrors (persist now c).
Proof.
  intros [Hp Hw]. unfold persistent, mirrors, on_disk, persist, save.
  rewrite Hp, Hw. simpl. rewrite Hp. repeat split.
Qed.

Lemma delete_synced (now : Z) (k : string) (c : CacheManager.t) :
  persistent c -> mirrors c ->
  persistent (snd (delete now k c)) /\ mirrors (snd (delete now k c)).
Proof.
  intros Hp Hm. unfold delete. destruct (JsMap.has k (cache c)); simpl.
  - apply persist_synced. exact Hp.
  - split; assumption.
Qed.

(** A hit changes the hit counter of the entry, which [stored] leaves out. *)
Lemma stored_touch (k : string) (m : JsMap.t CacheItem.t) (item : CacheItem.t) :
  JsMap.get k m = Some item ->
  map stored (map saved_entry (JsMap.set k (CacheItem.touch item) m))
  = map stored (map saved_entry m).
Proof.
  induction m as [|[k' v'] m IH]; simpl; [discriminate|].
  destruct (String.eqb_spec k k') as [->|Hne]; simpl.
  - intros [= ->]. reflexivity.
  - intros Hget. now rewrite IH.
Qed.

Lemma step_synced (c : CacheManager.t) (e : Z * Op) :
  persistent c -> mirrors c ->
  persistent (step c e) /\ mirrors (step c e).
Proof.
  intros Hp Hm. destruct e as [now op]. unfold step. simpl.
  destruct op as [k|k v ttl|k| |].
  - unfold get. destruct (enabled c); simpl; [|split; assumption].
    destruct (JsMap.get k (cache c)) as [item|] eqn:Hget; simpl;
      [|split; assumption].
    destruct (CacheItem.isExpired now item); simpl.
    + destruct (delete_synced now k c Hp Hm) as [Hp' Hm'].
      split; assumption.
    + split; [exact Hp|]. unfold mirrors, on_disk in *. simpl.
      rewrite stored_touch by exact Hget. exact Hm.
  - unfold set. destruct (enabled c); simpl; [|split; assumption].
    apply persist_synced.
    destruct ((maxSize c <=? JsMap.size (cache c))
              && negb (JsMap.has k (cache c))); simpl; [|exact Hp].
    unfold evictLRU. destruct (accessOrder c); simpl; exact Hp.
  - apply delete_synced; assumption.
  - unfold clear. apply persist_synced. exact Hp.
  - unfold cleanup. generalize 0. generalize (cache c) at 1 2. intros l.
    revert c Hp Hm. induction l as [|x l IH]; intros c Hp Hm n; simpl;
      [split; assumption|].
    destruct (CacheItem.ttl (snd x) <? now - CacheItem.createdAt (snd x)).
    + destruct (delete_synced now (fst x) c Hp Hm) as [Hp' Hm'].
      apply IH; assumption.
    + apply IH; assumption.
Qed.

Lemma run_synced (ops : list (Z * Op)) (c : CacheManager.t) :
  persistent c -> mirrors c ->
  persistent (run ops c) /\ mirrors (run ops c).
Proof.
  unfold run. revert c.
  induction ops as [|e ops IH]; intros c Hp Hm; simpl; [split; assumption|].
  destruct (step_synced c e Hp Hm). apply IH; assumption.
Qed.

(** X5.  The cache file follows the map.  On a manager that persists to a
    file it can write and whose file lists the entries of its map, after any
    sequence of [get], [set], [delete], [clear] and [cleanup] the file still
    lists the entries of the map, in the order of the map, with the same
    keys, values, creation times and ttls (a hit changes the hit counter in
    memory and is not written), and the file can still be written. *)
Theorem disk_mirrors_memory (ops : list (Z * Op)) (c : CacheManager.t) :
  c.(persistenceEnabled) = true ->
  c.(disk).(writable) = true ->
  mirrors c ->
  mirrors (run ops c)
  /\ (run ops c).(disk).(writable) = true.
Proof.
  intros Hp Hw Hm.
  destruct (run_synced ops c (conj Hp Hw) Hm) as [[_ Hw'] Hm'].
  split; assumption.
Qed.

Lemma disk_mirrors_memory_witness :
  ((emptyCache 2).(persistenceEnabled) = true
   /\ (emptyCache 2).(disk).(writable) = true
   /\ mirrors (emptyCache 2))
  /\ mirrors (run demo_ops (emptyCache 2)).
Proof.
  assert (Hm : mirrors (emptyCache 2)) by reflexivity.
  split; [repeat split; assumption|].
  exact (proj1 (disk_mirrors_memory demo_ops (emptyCache 2) eq_refl eq_refl Hm)).
Defined.

Lemma delete_NoDup (now : Z) (k : string) (c : CacheManager.t) :
  NoDup (JsMap.keys c.(cache)) ->
  NoDup (JsMap.keys (snd (delete now k c)).(cache)).
Proof.
  intros Hnd. destruct (delete_fields now k c) as (_ & _ & _ & Hc & _).
  rewrite Hc. now apply jsmap_NoDup_delete.
Qed.

Lemma step_NoDup (c : CacheManager.t) (e : Z * Op) :
  NoDup (JsMap.keys c.(cache)) ->
  NoDup (JsMap.keys (step c e).(cache)).
Proof.
  intros Hnd. destruct e as [now op]. unfold step. simpl.
  destruct op as [k|k v ttl|k| |].
  - unfold get. destruct (enabled c); simpl; [|exact Hnd].
    destruct (JsMap.get k (cache c)) as [item|]; simpl; [|exact Hnd].
    destruct (CacheItem.isExpired now item); simpl.
    + now apply delete_NoDup.
    + now apply jsmap_NoDup_set.
  - destruct (enabled c) eqn:Hen.
    + now apply set_NoDup.
    + unfold set. rewrite Hen. exact Hnd.
  - now apply delete_NoDup.
  - unfold clear. rewrite persist_cache. constructor.
  - unfold cleanup. generalize 0. generalize (cache c) at 1. intros l.
    revert c Hnd. induction l as [|x l IH]; intros c Hnd n; simpl;
      [exact Hnd|].
    destruct (CacheItem.ttl (snd x) <? now - CacheItem.createdAt (snd x)).
    + apply IH. now apply delete_NoDup.
    + apply IH. exact Hnd.
Qed.

Lemma run_NoDup (ops : list (Z * Op)) (c : CacheManager.t) :
  NoDup (JsMap.keys c.(cache)) ->
  NoDup (JsMap.keys (run ops c).(cache)).
Proof.
  unfold run. revert c. induction ops as [|e ops IH]; intros c Hnd; simpl;
    [exact Hnd|].
  apply IH. now apply step_NoDup.
Qed.

(** What [load()] makes of two lists of saved entries that agree on
    everything but the hit counters. *)
Lemma loaded_stored (tl : Z) (k : string) (l1 l2 : list CacheItem.t) :
  map stored l1 = map stored l2 ->
  option_map stored
    (JsMap.get k (map entry_of (filter (fresh_at tl) l1)))
  = option_map stored
      (JsMap.get k (map entry_of (filter (fresh_at tl) l2)))
  /\ map CacheItem.key l1 = map CacheItem.key l2.
Proof.
  revert l2. induction l1 as [|a l1 IH]; intros [|b l2]; simpl;
    try discriminate; [split; reflexivity|].
  intros [= Hk Hv Hc Ht Hrest]. destruct (IH l2 Hrest) as [IH1 IH2].
  split; [|now rewrite Hk, IH2].
  unfold fresh_at. rewrite Hc, Ht.
  destruct (tl - CacheItem.createdAt b <? CacheItem.ttl b); simpl; [|exact IH1].
  rewrite Hk. destruct (String.eqb k (CacheItem.key b)); simpl; [|exact IH1].
  unfold stored. now rewrite Hk, Hv, Hc, Ht.
Qed.

Lemma loaded_saved (tl : Z) (k : string) (m : JsMap.t CacheItem.t) :
  NoDup (JsMap.keys m) ->
  JsMap.get k (map entry_of (filter (fresh_at tl) (map saved_entry m)))
  = match JsMap.get k m with
    | Some item => if fresh_at tl item
                   then Some (saved_entry (k, item)) else None
    | None => None
    end.
Proof.
  induction m as [|[k' v'] m IH]; simpl; [reflexivity|].
  intros Hnd. inversion Hnd as [|? ? Hnotin Hnd']; subst.
  change (fresh_at tl (saved_entry (k', v'))) with (fresh_at tl v').
  destruct (String.eqb_spec k k') as [->|Hne].
  - destruct (fresh_at tl v'); simpl.
    + now rewrite String.eqb_refl.
    + rewrite IH by exact Hnd'.
      apply jsmap_get_None in Hnotin. now rewrite Hnotin.
  - destruct (fresh_at tl v'); simpl.
    + destruct (String.eqb_spec k k'); [contradiction|]. now apply IH.
    + now apply IH.
Qed.

(** X6.  A restart restores the entries that have not expired, after any
    sequence of operations.  Let a manager persist to a file it can write,
    with a file that lists the entries of its map, each key once.  After any
    sequence of [get], [set], [delete], [clear] and [cleanup], a manager
    built at time [tl] over the file (with persistence on) holds, for every
    key, the value, creation time and ttl that the first manager held when
    [tl - createdAt < ttl], and nothing otherwise; and its access order is
    the order of its map, so the order of the accesses before the restart is
    not kept. *)
Theorem restart_restores_unexpired (cfg : Config.t) (options : Options)
    (ops : list (Z * Op)) (tl : Z) (c0 : CacheManager.t) :
  c0.(persistenceEnabled) = true ->
  c0.(disk).(writable) = true ->
  mirrors c0 ->
  NoDup (JsMap.keys c0.(cache)) ->
  let c := run ops c0 in
  let c2 := new cfg tl options c.(disk) in
  c2.(persistenceEnabled) = true ->
  (forall k,
     option_map stored (JsMap.get k c2.(cache))
     = match JsMap.get k c.(cache) with
       | Some item =>
           if tl - item.(CacheItem.createdAt) <? item.(CacheItem.ttl)
           then Some (k, item.(CacheItem.value), item.(CacheItem.createdAt),
                      item.(CacheItem.ttl))
           else None
       | None => None
       end)
  /\ c2.(accessOrder) = JsMap.keys c2.(cache).
Proof.
  intros Hp Hw Hm Hnd c c2 Hp2.
  destruct (run_synced ops c0 (conj Hp Hw) Hm) as [_ Hmc]. fold c in Hmc.
  pose proof (run_NoDup ops c0 Hnd) as Hndc. fold c in Hndc.
  unfold new in c2.
  set (c_init := {| enabled := _; maxSize := _; defaultTTL := _; cache := [];
                    accessOrder := []; persistenceEnabled := _;
                    stats := zeroStats; disk := disk c |}) in c2.
  assert (Hpi : c_init.(persistenceEnabled) = true).
  { subst c2. destruct (persistenceEnabled c_init) eqn:E; [reflexivity|].
    rewrite E in Hp2. exact Hp2. }
  assert (Hc2 : c2 = snd (load tl c_init)) by (subst c2; now rewrite Hpi).
  unfold mirrors, on_disk in Hmc.
  destruct (content (disk c)) as [data|] eqn:Hdata.
  - assert (Hcontent : c_init.(disk).(content) = Some data) by exact Hdata.
    destruct (loaded_stored tl "" _ _ Hmc) as [_ Hkeys].
    rewrite saved_entry_key in Hkeys.
    assert (Hnds : NoDup (map CacheItem.key data.(snap_cache)))
      by now rewrite Hkeys.
    destruct (load_fields tl c_init data Hcontent Hnds) as (_ & Hc & Ho & _).
    rewrite <- Hc2 in Hc, Ho. split.
    + intros k. rewrite Hc.
      rewrite (proj1 (loaded_stored tl k _ _ Hmc)).
      rewrite loaded_saved by exact Hndc.
      destruct (JsMap.get k (cache c)) as [item|]; [|reflexivity].
      unfold fresh_at. destruct (_ <? _); reflexivity.
    + rewrite Ho, Hc. unfold JsMap.keys. rewrite map_map. reflexivity.
  - assert (Hempty : cache c = []).
    { simpl in Hmc. destruct (cache c); [reflexivity|discriminate]. }
    assert (E : c2 = c_init).
    { rewrite Hc2. unfold load. simpl. now rewrite Hdata. }
    rewrite E, Hempty. simpl. split; reflexivity.
Qed.

Lemma restart_restores_unexpired_witness :
  ((emptyCache 2).(persistenceEnabled) = true
   /\ (emptyCache 2).(disk).(writable) = true
   /\ mirrors (emptyCache 2)
   /\ NoDup (JsMap.keys (emptyCache 2).(cache))
   /\ (new Config.defaults 30 noOptions
         (run demo_ops (emptyCache 2)).(disk)).(persistenceEnabled) = true)
  /\ (new Config.defaults 30 noOptions
        (run demo_ops (emptyCache 2)).(disk)).(accessOrder)
     = JsMap.keys (new Config.defaults 30 noOptions
                     (run demo_ops (emptyCache 2)).(disk)).(cache).
Proof.
  assert (Hm : mirrors (emptyCache 2)) by reflexivity.
  assert (Hnd : NoDup (JsMap.keys (emptyCache 2).(cache))) by constructor.
  split; [repeat split; assumption|].
  exact (proj2 (restart_restores_unexpired Config.defaults noOptions demo_ops
                  30 (emptyCache 2) eq_refl eq_refl Hm Hnd eq_refl)).
Defined.

(** *** The stats *)

Lemma delete_counters (now : Z) (k : string) (c : CacheManager.t) :
  let c' := snd (delete now k c) in
  c'.(enabled) = c.(enabled)
  /\ c'.(stats).(hits) = c.(stats).(hits)
  /\ c'.(stats).(misses) = c.(stats).(misses)
  /\ c'.(stats).(sets) = c.(stats).(sets).
Proof.
  destruct (delete_fields now k c) as (He & _ & _ & _ & _ & Hs).
  simpl. rewrite He, Hs. destruct (JsMap.has k (cache c)); simpl; tauto.
Qed.

Lemma cleanup_counters (now : Z) (c : CacheManager.t) :
  let c' := snd (cleanup now c) in
  c'.(enabled) = c.(enabled)
  /\ c'.(stats).(hits) = c.(stats).(hits)
  /\ c'.(stats).(misses) = c.(stats).(misses)
  /\ c'.(stats).(sets) = c.(stats).(sets).
Proof.
  unfold cleanup. generalize 0. generalize (cache c). intros l.
  revert c. induction l as [|x l IH]; intros c n; simpl; [tauto|].
  destruct (CacheItem.ttl (snd x) <? now - CacheItem.createdAt (snd x)).
  - destruct (delete_counters now (fst x) c) as (E1 & E2 & E3 & E4).
    rewrite <- E1, <- E2, <- E3, <- E4. apply IH.
  - apply IH.
Qed.

Lemma step_counters (c : CacheManager.t) (e : Z * Op) :
  c.(enabled) = true ->
  is_clear e = false ->
  let c' := step c e in
  c'.(enabled) = true
  /\ c'.(stats).(hits) + c'.(stats).(misses)
     = c.(stats).(hits) + c.(stats).(misses) + (if is_get e then 1 else 0)
  /\ c'.(stats).(sets) = c.(stats).(sets) + (if is_set e then 1 else 0).
Proof.
  intros Hen Hnc. destruct e as [now op]. unfold step, is_get, is_set. simpl.
  destruct op as [k|k v ttl|k| |]; try discriminate Hnc.
  - unfold get. rewrite Hen. simpl.
    destruct (JsMap.get k (cache c)) as [item|]; simpl; [|rewrite Hen; lia].
    destruct (CacheItem.isExpired now item); simpl.
    + destruct (delete_counters now k c) as (E1 & E2 & E3 & E4).
      rewrite E1, E2, E3, E4, Hen. lia.
    + rewrite Hen. lia.
  - destruct (set_fields now k v ttl c Hen) as (_ & E1 & _ & _ & _ & _ & E2).
    rewrite E1, E2.
    destruct ((maxSize c <=? JsMap.size (cache c))
              && negb (JsMap.has k (cache c))); simpl; [|lia].
    unfold evictLRU. destruct (accessOrder c); simpl; lia.
  - destruct (delete_counters now k c) as (E1 & E2 & E3 & E4).
    rewrite E1, E2, E3, E4, Hen. lia.
  - destruct (cleanup_counters now c) as (E1 & E2 & E3 & E4).
    rewrite E1, E2, E3, E4, Hen. lia.
Qed.

(** X7.  The stats count the reads and the writes.  On an enabled manager,
    over any sequence of [get], [set], [delete] and [cleanup] (no [clear],
    which zeroes the stats), [hits + misses] grows by the number of [get]
    calls, whatever they return, and [sets] by the number of [set] calls:
    each read is counted once, as a hit or as a miss. *)
Theorem stats_count_operations (ops : list (Z * Op)) (c : CacheManager.t) :
  c.(enabled) = true ->
  forallb (fun e => negb (is_clear e)) ops = true ->
  let c' := run ops c in
  c'.(stats).(hits) + c'.(stats).(misses)
  = c.(stats).(hits) + c.(stats).(misses)
    + Z.of_nat (List.length (filter is_get ops))
  /\ c'.(stats).(sets)
     = c.(stats).(sets) + Z.of_nat (List.length (filter is_set ops)).
Proof.
  unfold run. revert c. induction ops as [|e ops IH]; intros c Hen Hnc; simpl.
  - lia.
  - simpl in Hnc. apply andb_true_iff in Hnc. destruct Hnc as [He Hnc].
    apply negb_true_iff in He.
    destruct (step_counters c e Hen He) as (E1 & E2 & E3).
    destruct (IH (step c e) E1 Hnc) as [H1 H2].
    rewrite H1, H2, E2, E3.
    destruct (is_get e), (is_set e); simpl List.length; lia.
Qed.

Lemma stats_count_operations_witness :
  ((emptyCache 2).(enabled) = true
   /\ forallb (fun e => negb (is_clear e)) demo_ops = true)
  /\ (run demo_ops (emptyCache 2)).(stats).(hits)
     + (run demo_ops (emptyCache 2)).(stats).(misses)
     = (emptyCache 2).(stats).(hits) + (emptyCache 2).(stats).(misses)
       + Z.of_nat (List.length (filter is_get demo_ops)).
Proof.
  split; [split; reflexivity|].
  exact (proj1 (stats_count_operations demo_ops (emptyCache 2) eq_refl eq_refl)).
Defined.

(** *** [getOrSet] *)

(** X8.  [getOrSet] does not use the factory when the cache answers.  On an
    enabled manager that holds for the key an entry that has not expired,
    [getOrSet] returns the value of the entry and leaves the manager as the
    counted hit leaves it, whatever the factory is (it is not called, and
    nothing is written); this holds as well when the value is the empty
    string, since the test is [cached !== null]. *)
Theorem getOrSet_hit_skips_factory (now now' : Z) (k : string)
    (factory : Factory) (ttl : option Z) (c : CacheManager.t)
    (item : CacheItem.t) :
  c.(enabled) = true ->
  JsMap.get k c.(cache) = Some item ->
  now - item.(CacheItem.createdAt) <= item.(CacheItem.ttl) ->
  getOrSet now now' k factory ttl c
  = (JS.Return item.(CacheItem.value), snd (get now k c)).
Proof.
  intros Hen Hget Hfresh. unfold getOrSet.
  destruct (get_hit_fields now k c item Hen Hget Hfresh) as (Hr & _).
  destruct (get now k c) as [cached c1]. simpl in Hr. now rewrite Hr.
Qed.

Lemma getOrSet_hit_skips_factory_witness :
  (two_entries.(enabled) = true
   /\ JsMap.get "k1" two_entries.(cache)
      = Some (CacheItem.new 1 "k1" "a" 3600000)
   /\ 5 - 1 <= 3600000)
  /\ fst (getOrSet 5 6 "k1" (fun c => (JS.Throw "unused", c)) None two_entries)
     = JS.Return "a".
Proof.
  assert (Hfresh : 5 - (CacheItem.new 1 "k1" "a" 3600000).(CacheItem.createdAt)
                   <= (CacheItem.new 1 "k1" "a" 3600000).(CacheItem.ttl))
    by (vm_compute; discriminate).
  split; [repeat split; [exact Hfresh]|].
  exact (f_equal fst
           (getOrSet_hit_skips_factory 5 6 "k1"
              (fun c => (JS.Throw "unused", c)) None two_entries
              (CacheItem.new 1 "k1" "a" 3600000) eq_refl eq_refl Hfresh)).
Defined.

(** X9.  [getOrSet] on a miss.  When the read finds nothing, the factory is
    run on the manager the read leaves.  If it returns a value, [getOrSet]
    returns that value and, when the manager is then enabled, stores it: a
    later [get], up to the ttl after the time of the write, returns it, and
    a later [getOrSet] returns it whatever its factory.  If the factory
    throws, [getOrSet] throws the same error and writes nothing: the
    manager is the one the factory left. *)
Theorem getOrSet_miss_stores (now now' : Z) (k : string) (factory : Factory)
    (ttl : option Z) (c : CacheManager.t) :
  fst (get now k c) = None ->
  let r := getOrSet now now' k factory ttl c in
  match factory (snd (get now k c)) with
  | (JS.Return v, c2) =>
      fst r = JS.Return v
      /\ (c2.(enabled) = true ->
          forall now2,
            now2 - now' <= JS.num_or ttl c2.(defaultTTL) ->
            fst (get now2 k (snd r)) = Some v
            /\ forall f, fst (getOrSet now2 now2 k f ttl (snd r))
                         = JS.Return v)
  | (JS.Throw e, c2) => r = (JS.Throw e, c2)
  end.
Proof.
  intros Hmiss r.
  assert (Er : r = match factory (snd (get now k c)) with
                   | (JS.Return v, c2) =>
                       (JS.Return v, snd (set now' k v ttl c2))
                   | (JS.Throw e, c2) => (JS.Throw e, c2)
                   end).
  { subst r. unfold getOrSet. destruct (get now k c) as [cached c1].
    simpl in Hmiss. subst cached. simpl.
    destruct (factory c1) as [[v|e] c2]; reflexivity. }
  clearbody r. subst r.
  destruct (factory (snd (get now k c))) as [[v|e] c2]; [|reflexivity].
  cbn [fst snd]. split; [reflexivity|].
  intros Hen now2 Hfresh.
  destruct (set_fields now' k v ttl c2 Hen) as (_ & Hen1 & _ & _ & Hc & _).
  set (c3 := snd (set now' k v ttl c2)) in *.
  set (item := CacheItem.new now' k v (JS.num_or ttl (defaultTTL c2))) in *.
  assert (Hget : JsMap.get k c3.(cache) = Some item).
  { rewrite Hc. apply jsmap_get_set_eq. }
  destruct (get_hit_fields now2 k c3 item Hen1 Hget Hfresh) as (Hr & _).
  split; [exact Hr|].
  intros f. unfold getOrSet.
  destruct (get now2 k c3) as [cached c4]. simpl in Hr. now rewrite Hr.
Qed.

Lemma getOrSet_miss_stores_witness :
  fst (get 5 "k9" two_entries) = None
  /\ fst (getOrSet 5 6 "k9" (fun c => (JS.Return "made", c)) None two_entries)
     = JS.Return "made".
Proof.
  assert (Hmiss : fst (get 5 "k9" two_entries) = None) by reflexivity.
  split; [exact Hmiss|].
  exact (proj1 (getOrSet_miss_stores 5 6 "k9" (fun c => (JS.Return "made", c))
                  None two_entries Hmiss)).
Defined.

(** *** The key *)

Lemma hex_digit_in (d : Z) : 0 <= d < 16 -> In (Sha256.hex_digit d) hex_chars.
Proof.
  intros Hd.
  assert (H : d = 0 \/ d = 1 \/ d = 2 \/ d = 3 \/ d = 4 \/ d = 5 \/ d = 6
              \/ d = 7 \/ d = 8 \/ d = 9 \/ d = 10 \/ d = 11 \/ d = 12
              \/ d = 13 \/ d = 14 \/ d = 15) by lia.
  repeat (destruct H as [->|H]; [vm_compute; tauto|]). subst. vm_compute. tauto.
Qed.

Lemma be_bytes_range (n : nat) (x : Z) :
  List.length (Sha256.be_bytes n x) = n
  /\ Forall (fun b => 0 <= b < 256) (Sha256.be_bytes n x).
Proof.
  revert x. induction n as [|n IH]; intros x; simpl.
  - split; [reflexivity|constructor].
  - destruct (IH (Z.shiftr x 8)) as [Hl Hf]. split.
    + rewrite length_app, Hl. simpl. lia.
    + apply Forall_app. split; [exact Hf|]. constructor; [|constructor].
      apply Z.mod_pos_bound. lia.
Qed.

Lemma compress_length (h block : list Z) :
  List.length h = 8%nat -> List.length (Sha256.compress h block) = 8%nat.
Proof.
  intros Hh. unfold Sha256.compress. rewrite length_map, length_combine, Hh.
  reflexivity.
Qed.

Lemma blocks_length (fuel : nat) (h ws : list Z) :
  List.length h = 8%nat -> List.length (Sha256.blocks fuel h ws) = 8%nat.
Proof.
  revert h ws. induction fuel as [|fuel IH]; intros h ws Hh; simpl; [exact Hh|].
  destruct ws; [exact Hh|]. apply IH. now apply compress_length.
Qed.

(** A digest is 32 bytes. *)
Lemma digest_bytes (msg : list Z) :
  List.length (Sha256.digest msg) = 32%nat
  /\ Forall (fun b => 0 <= b < 256) (Sha256.digest msg).
Proof.
  unfold Sha256.digest.
  set (h := Sha256.blocks _ _ _).
  assert (Hh : List.length h = 8%nat) by (apply blocks_length; reflexivity).
  assert (H : forall l,
            List.length (flat_map (Sha256.be_bytes 4) l)
            = (4 * List.length l)%nat
            /\ Forall (fun b => 0 <= b < 256)
                 (flat_map (Sha256.be_bytes 4) l)).
  { induction l as [|x l [IHl IHf]]; cbn [flat_map].
    - split; [reflexivity|constructor].
    - destruct (be_bytes_range 4 x) as [Hl Hf]. split.
      + rewrite length_app, Hl, IHl. cbn [List.length]. lia.
      + apply Forall_app. split; assumption. }
  destruct (H h) as [Hl Hf]. rewrite Hh in Hl. split; assumption.
Qed.

Lemma hex_bytes (bs : list Z) :
  Forall (fun b => 0 <= b < 256) bs ->
  String.length (String.concat "" (map Sha256.hex_of_byte bs))
  = (2 * List.length bs)%nat
  /\ Forall (fun a => In a hex_chars)
       (list_ascii_of_string (String.concat "" (map Sha256.hex_of_byte bs))).
Proof.
  induction 1 as [|b bs Hb Hbs IH]; cbn [map].
  - split; [reflexivity|constructor].
  - destruct IH as [IHl IHf]. rewrite concat_empty_cons.
    unfold Sha256.hex_of_byte at 1 3.
    cbn [append String.length list_ascii_of_string List.length].
    split; [rewrite IHl; lia|].
    constructor.
    { apply hex_digit_in. split; [apply Z.div_pos; lia|].
      apply Z.div_lt_upper_bound; lia. }
    constructor; [apply hex_digit_in; apply Z.mod_pos_bound; lia | exact IHf].
Qed.

Lemma substring_prefix (n : nat) (s : string) :
  (n <= String.length s)%nat ->
  String.length (String.substring 0 n s) = n
  /\ forall P : ascii -> Prop,
       Forall P (list_ascii_of_string s) ->
       Forall P (list_ascii_of_string (String.substring 0 n s)).
Proof.
  revert s. induction n as [|n IH]; intros s Hn.
  - destruct s; simpl; split; try reflexivity; intros; constructor.
  - destruct s as [|a s]; simpl in *; [lia|].
    destruct (IH s) as [Hl Hf]; [lia|]. split; [now rewrite Hl|].
    intros P HP. inversion HP; subst. constructor; auto.
Qed.

(** X10.  The format of a key.  For every message and every options,
    [generateKey] returns exactly 16 characters, each a lower-case
    hexadecimal digit. *)
Theorem generateKey_format (cfg : Config.t) (message : string)
    (options : KeyOptions) :
  String.length (generateKey cfg message options) = 16%nat
  /\ Forall (fun a => In a hex_chars)
       (list_ascii_of_string (generateKey cfg message options)).
Proof.
  unfold generateKey, Sha256.hex.
  set (bs := Sha256.digest _).
  destruct (digest_bytes (Sha256.bytes_of_string (keyData cfg message options)))
    as [Hlen Hrange]. fold bs in Hlen, Hrange.
  destruct (hex_bytes bs Hrange) as [Hl Hf]. rewrite Hlen in Hl.
  destruct (substring_prefix 16 _ ltac:(rewrite Hl; simpl; lia)) as [H1 H2].
  split; [exact H1 | apply H2; exact Hf].
Qed.

(** X11.  The text that is hashed tells the request apart.  When the
    temperatures, where given, are texts of numbers, two calls of
    [generateKey] hash the same text only if they have the same message, the
    same model and the same [maxTokens] once the defaults are filled in, the
    same temperature and the same system prompt ([undefined], [null] or a
    string).  So two requests that differ in one of these get the same key
    only through a collision of the first 64 bits of SHA-256. *)
Theorem keyData_determines_request (cfg : Config.t) (m1 m2 : string)
    (o1 o2 : KeyOptions) :
  (forall t, o1.(ko_temperature) = Some t -> number_text t = true) ->
  (forall t, o2.(ko_temperature) = Some t -> number_text t = true) ->
  keyData cfg m1 o1 = keyData cfg m2 o2 ->
  m1 = m2
  /\ JS.str_or o1.(ko_model) cfg.(Config.DEFAULT_MODEL)
     = JS.str_or o2.(ko_model) cfg.(Config.DEFAULT_MODEL)
  /\ JS.num_or o1.(ko_maxTokens) cfg.(Config.DEFAULT_MAX_TOKENS)
     = JS.num_or o2.(ko_maxTokens) cfg.(Config.DEFAULT_MAX_TOKENS)
  /\ o1.(ko_temperature) = o2.(ko_temperature)
  /\ o1.(ko_systemPrompt) = o2.(ko_systemPrompt).
Proof.
  intros Ht1 Ht2 H.
  unfold keyData, Json.member, Json.quote in H. simpl in H.
  rewrite !append_assoc in H. simpl in H.
  injection H as H. apply escape_ends in H. destruct H as [Hm H].
  injection H as H. apply escape_ends in H. destruct H as [Hmodel H].
  injection H as H.
  split; [exact Hm|]. split; [exact Hmodel|].
  set (n1 := JS.num_or (ko_maxTokens o1) (Config.DEFAULT_MAX_TOKENS cfg)) in *.
  set (n2 := JS.num_or (ko_maxTokens o2) (Config.DEFAULT_MAX_TOKENS cfg)) in *.
  clearbody n1 n2. clear Hm Hmodel. revert Ht1 Ht2 H.
  destruct (ko_temperature o1) as [t1|], (ko_temperature o2) as [t2|],
    (ko_systemPrompt o1) as [| |p1], (ko_systemPrompt o2) as [| |p2];
    intros Ht1 Ht2 H; simpl in H;
    try rewrite (of_number_text t1 (Ht1 _ eq_refl)) in H;
    try rewrite (of_number_text t2 (Ht2 _ eq_refl)) in H;
    (apply number_text_ends in H;
     [| apply of_int_number_text | apply of_int_number_text
      | reflexivity | reflexivity]);
    destruct H as [Hn H]; apply of_int_inj in Hn; (split; [exact Hn|]);
    try discriminate H;
    try (injection H as H;
         apply number_text_ends in H;
         [| apply Ht1; reflexivity | apply Ht2; reflexivity
          | reflexivity | reflexivity];
         destruct H as [-> H]);
    try discriminate H;
    try (split; reflexivity);
    try (injection H as H; rewrite !append_assoc in H; simpl in H;
         apply escape_ends in H; destruct H as [-> _]; split; reflexivity).
Qed.

Lemma keyData_determines_request_witness :
  ((forall t, (CleverAssistant.keyOptions
                 fresh_learning.(CleverAssistant.conversation))
                .(ko_temperature) = Some t ->
              number_text t = true)
   /\ keyData Config.defaults "hi"
        (CleverAssistant.keyOptions
           fresh_learning.(CleverAssistant.conversation))
      = keyData Config.defaults "hi"
          (CleverAssistant.keyOptions
             fresh_learning.(CleverAssistant.conversation)))
  /\ "hi" = "hi".
Proof.
  assert (Ht : forall t,
            (CleverAssistant.keyOptions
               fresh_learning.(CleverAssistant.conversation))
              .(ko_temperature) = Some t ->
            number_text t = true).
  { intros t [= <-]. reflexivity. }
  split; [split; [exact Ht | reflexivity]|].
  exact (proj1 (keyData_determines_request Config.defaults "hi" "hi"
                  (CleverAssistant.keyOptions
                     fresh_learning.(CleverAssistant.conversation))
                  (CleverAssistant.keyOptions
                     fresh_learning.(CleverAssistant.conversation))
                  Ht Ht eq_refl)).
Defined.

End CacheManagerMore.

(** ** The tracker, continued *)

Section TokenTrackerMore.

Import TokenTracker.

Lemma float_ltb_leb (x y : float) :
  (x <? y)%float = true -> (x <=? y)%float = true.
Proof.
  rewrite ltb_spec, leb_spec. unfold SpecFloat.SFltb, SpecFloat.SFleb.
  destruct (SpecFloat.SFcompare _ _) as [[]|]; congruence.
Qed.

Lemma float_nan_leb (x : float) : (nan <=? x)%float = false.
Proof. rewrite leb_spec. reflexivity. Qed.

Lemma float_nan_mul_leb (w x : float) : (nan * w <=? x)%float = false.
Proof. rewrite leb_spec, mul_spec. reflexivity. Qed.

(** X12.  [estimate] predicts what [recordCall] records.  For the same
    token counts and the same model on the same tracker, the cost of the
    record is the estimated cost, and the budget status after the call has
    the estimated new total and the estimated remainder.  An estimate that
    says the call would exceed the budget is followed by a status that is
    over budget; the converse fails at equality, since [estimate] tests
    [newTotalCost > budgetLimit] and [checkBudget] tests
    [totalCost >= budgetLimit].  When there is no price to use both throw
    the same error and the history is as it was. *)
Theorem estimate_predicts_recordCall (cfg : Config.t) (now : Z)
    (inTok outTok : float) (m rid : option string) (tr : TokenTracker.t) :
  match estimate cfg inTok outTok m tr,
        recordCall cfg now inTok outTok m rid tr with
  | JS.Return e, (JS.Return record, tr') =>
      record.(cost) = e.(estimatedCost)
      /\ (fst (checkBudget tr')).(currentCost) = e.(newTotalCost)
      /\ (fst (checkBudget tr')).(remaining) = e.(remainingAfterCall)
      /\ (e.(wouldExceedBudget) = true ->
          (fst (checkBudget tr')).(isOverBudget) = true)
  | JS.Throw e, (JS.Throw e', tr') =>
      e = e' /\ tr'.(callHistory) = tr.(callHistory)
  | _, _ => False
  end.
Proof.
  unfold estimate, recordCall.
  destruct (calculateSingleCallCost cfg inTok outTok _) as [c|e]; simpl.
  - unfold getTotalCost. simpl. rewrite fold_left_app. simpl.
    repeat split. apply float_ltb_leb.
  - split; reflexivity.
Qed.

Lemma record_step (cfg : Config.t) (tr : TokenTracker.t) (call : Call) :
  Config.price_of cfg.(Config.DEFAULT_MODEL) Config.MODEL_PRICES <> None ->
  (record cfg tr call).(totalRequests) = tr.(totalRequests) + 1
  /\ List.length (record cfg tr call).(callHistory)
     = S (List.length tr.(callHistory))
  /\ (record cfg tr call).(budgetLimit) = tr.(budgetLimit)
  /\ exists r,
       fst (recordCall cfg call.(call_now) call.(call_input)
              call.(call_output) call.(call_model) call.(call_id) tr)
       = JS.Return r.
Proof.
  intros Hdefault. unfold record, recordCall, calculateSingleCallCost.
  set (name := match call_model call with
               | Some m' => m'
               | None => Config.DEFAULT_MODEL cfg
               end).
  assert (Hprice : exists e, Config.getModelPrice cfg name = Some e).
  { unfold Config.getModelPrice.
    destruct (Config.lookup name) as [e|]; [now exists e|].
    unfold Config.lookup.
    destruct (Config.price_of (Config.DEFAULT_MODEL cfg) Config.MODEL_PRICES)
      as [p|]; [eexists; reflexivity | contradiction]. }
  destruct Hprice as [e ->].
  destruct e as [p|]; simpl; rewrite length_app; simpl;
    (repeat split; try lia); eexists; reflexivity.
Qed.

Lemma records_budgetLimit (cfg : Config.t) (calls : list Call) :
  forall t, (records cfg calls t).(budgetLimit) = t.(budgetLimit).
Proof.
  induction calls as [|call calls IH]; intros t; [reflexivity|].
  cbn [records fold_left].
  change (fold_left (record cfg) calls (record cfg t call))
    with (records cfg calls (record cfg t call)).
  rewrite IH. unfold record, recordCall.
  destruct (calculateSingleCallCost _ _ _ _); reflexivity.
Qed.

(** X13.  The tracker counts every call.  When the default model of the
    configuration has a price, after [reset()] and any sequence of
    [recordCall], whatever the models named (a model without a price is
    charged at the price of the default model), [totalRequests] and the
    length of the call history are both the number of calls, the budget
    limit is the one before the reset, and a further [recordCall] returns a
    record: recording never throws and never stops at the budget. *)
Theorem recordCall_keeps_count (cfg : Config.t) (calls : list Call)
    (tr : TokenTracker.t) :
  Config.price_of cfg.(Config.DEFAULT_MODEL) Config.MODEL_PRICES <> None ->
  let tr' := records cfg calls (reset tr) in
  tr'.(totalRequests) = Z.of_nat (List.length calls)
  /\ List.length tr'.(callHistory) = List.length calls
  /\ tr'.(budgetLimit) = tr.(budgetLimit)
  /\ (forall call, exists r,
        fst (recordCall cfg call.(call_now) call.(call_input)
               call.(call_output) call.(call_model) call.(call_id) tr')
        = JS.Return r).
Proof.
  intros Hdefault.
  assert (H : forall calls t,
            (records cfg calls t).(totalRequests)
            = t.(totalRequests) + Z.of_nat (List.length calls)
            /\ List.length (records cfg calls t).(callHistory)
               = (List.length t.(callHistory) + List.length calls)%nat).
  { clear calls tr. induction calls as [|call calls IH]; intros t.
    - simpl. split; lia.
    - cbn [records fold_left List.length].
      change (fold_left (record cfg) calls (record cfg t call))
        with (records cfg calls (record cfg t call)).
      destruct (IH (record cfg t call)) as (H1 & H2).
      destruct (record_step cfg t call Hdefault) as (E1 & E2 & _).
      rewrite H1, H2, E1, E2. split; lia. }
  intros tr'. destruct (H calls (reset tr)) as (H1 & H2).
  fold tr' in H1, H2. simpl in H1, H2.
  split; [exact H1|]. split; [exact H2|].
  split; [apply (records_budgetLimit cfg calls (reset tr))|].
  intros call. apply (record_step cfg tr' call Hdefault).
Qed.

Lemma recordCall_keeps_count_witness :
  Config.price_of Config.defaults.(Config.DEFAULT_MODEL) Config.MODEL_PRICES
  <> None
  /\ (records Config.defaults demo_records
        (reset (TokenTracker.new Config.defaults None))).(totalRequests) = 2.
Proof.
  assert (H : Config.price_of Config.defaults.(Config.DEFAULT_MODEL)
                Config.MODEL_PRICES <> None) by (vm_compute; discriminate).
  split; [exact H|].
  exact (proj1 (recordCall_keeps_count Config.defaults demo_records
                  (TokenTracker.new Config.defaults None) H)).
Defined.

(** X14.  A budget limit that is not a number switches the budget gate off.
    When [BUDGET_LIMIT] is NaN (the text of the setting did not parse),
    [validate()] does not report the budget limit ([NaN <= 0] is false), a
    tracker built with the default limit has the limit NaN and keeps it
    through any sequence of [recordCall], and [checkBudget] on a tracker
    with that limit reports neither over budget nor near the limit,
    whatever has been spent. *)
Theorem nan_budget_limit_never_blocks (cr : Config.Credentials)
    (cfg : Config.t) :
  cfg.(Config.BUDGET_LIMIT) = nan ->
  ~ In budget_error (Config.validation_errors cr cfg)
  /\ (TokenTracker.new cfg None).(budgetLimit) = nan
  /\ (forall tr,
        tr.(budgetLimit) = nan ->
        (fst (checkBudget tr)).(isOverBudget) = false
        /\ (fst (checkBudget tr)).(isNearLimit) = false)
  /\ (forall calls,
        (records cfg calls (TokenTracker.new cfg None)).(budgetLimit) = nan).
Proof.
  intros Hnan. split; [|split; [exact Hnan|split]].
  - unfold Config.validation_errors. rewrite Hnan, float_nan_leb.
    rewrite app_nil_r, in_app_iff. intros [H|H].
    + destruct (Config.given _); [destruct (Config.given _)|].
      * destruct H.
      * destruct H as [H|[]]. discriminate H.
      * destruct (Config.ANTHROPIC_API_KEY cr) as [key|].
        -- destruct (negb (JS.truthy key)).
           ++ destruct H as [H|[]]. discriminate H.
           ++ destruct (String.prefix _ key); [destruct H|].
              destruct H as [H|[]]. discriminate H.
        -- destruct H as [H|[]]. discriminate H.
    + destruct (_ || _); [|destruct H].
      destruct H as [H|[]]. discriminate H.
  - intros tr Htr. unfold checkBudget. simpl. rewrite Htr.
    split; [apply float_nan_leb | apply float_nan_mul_leb].
  - intros calls. rewrite records_budgetLimit. exact Hnan.
Qed.

Lemma nan_budget_limit_never_blocks_witness :
  unparsed_budget.(Config.BUDGET_LIMIT) = nan
  /\ ~ In budget_error
         (Config.validation_errors demo_credentials unparsed_budget).
Proof.
  split; [reflexivity|].
  exact (proj1 (nan_budget_limit_never_blocks demo_credentials
                  unparsed_budget eq_refl)).
Defined.

End TokenTrackerMore.

(** ** The conversation manager, continued *)

Section ConversationMore.

Import ConversationManager.

(** *** [trimHistory] *)

Lemma skipn_even_alternates (n : nat) (h : list Message) :
  Nat.even n = true ->
  well_formed h -> well_formed (skipn n h).
Proof.
  intros Hn. apply Nat.even_spec in Hn. destruct Hn as [j ->].
  revert h. induction j as [|j IH]; intros h Hwf; [exact Hwf|].
  replace (2 * S j)%nat with (S (S (2 * j))) by lia.
  destruct h as [|m1 [|m2 h]]; try (destruct Hwf; discriminate).
  - simpl. exact Hwf.
  - change (skipn (S (S (2 * j))) (m1 :: m2 :: h)) with (skipn (2 * j) h).
    apply IH. destruct Hwf as [Ha He]. simpl in Ha, He.
    apply andb_true_iff in Ha. destruct Ha as [_ Ha].
    apply andb_true_iff in Ha. destruct Ha as [_ Ha].
    split; assumption.
Qed.

(** X15.  What [trimHistory] keeps.  The history after
    [trimHistory(maxRounds)] is an end of the history before: the latest
    messages, in their order.  For [maxRounds >= 1] its length is the
    smaller of the length before and [2 * maxRounds].  For [maxRounds = 0]
    nothing is removed ([slice(-0)] is the whole array).  The system prompt
    and the requests sent are left as they are. *)
Theorem trimHistory_keeps_latest (maxRounds : Z) (c : ConversationManager.t) :
  let h := c.(conversationHistory) in
  let h' := (trimHistory maxRounds c).(conversationHistory) in
  (exists dropped, h = dropped ++ h')
  /\ (1 <= maxRounds ->
      Z.of_nat (List.length h')
      = Z.min (Z.of_nat (List.length h)) (2 * maxRounds))
  /\ (maxRounds = 0 -> h' = h)
  /\ (trimHistory maxRounds c).(systemPrompt) = c.(systemPrompt)
  /\ (trimHistory maxRounds c).(requests) = c.(requests).
Proof.
  cbv zeta. unfold trimHistory.
  destruct (Z.leb_spec (Z.of_nat (List.length (conversationHistory c)))
                       (maxRounds * 2)) as [Hle|Hgt].
  - split; [exists []; reflexivity|]. split; [lia|].
    split; [reflexivity|]. split; reflexivity.
  - cbn [conversationHistory with_history systemPrompt requests].
    split; [|split; [|split; [|split; reflexivity]]].
    + eexists. symmetry. apply firstn_skipn.
    + intros Hpos. rewrite length_skipn.
      destruct (Z.ltb_spec (maxRounds * 2) 0); [lia|].
      destruct (Z.eqb_spec (maxRounds * 2) 0); lia.
    + intros ->. reflexivity.
Qed.

(** X16.  [trimHistory] keeps the history well formed.  When user and
    assistant messages alternate, starting with a user message and ending
    with a reply, they still do after [trimHistory(maxRounds)], for every
    integer [maxRounds], negative ones included: what is cut off is a whole
    number of rounds. *)
Theorem trimHistory_well_formed (maxRounds : Z) (c : ConversationManager.t) :
  well_formed c.(conversationHistory) ->
  well_formed (trimHistory maxRounds c).(conversationHistory).
Proof.
  intros Hwf. unfold trimHistory.
  destruct (Z.leb_spec (Z.of_nat (List.length (conversationHistory c)))
                       (maxRounds * 2)) as [Hle|Hgt]; [exact Hwf|].
  simpl. apply skipn_even_alternates; [|exact Hwf].
  destruct Hwf as [_ He]. apply Nat.even_spec in He. destruct He as [j Hj].
  apply Nat.even_spec. rewrite Hj in *.
  destruct (Z.ltb_spec (maxRounds * 2) 0) as [Hneg|Hpos].
  - destruct (Z.min_spec (- (maxRounds * 2)) (Z.of_nat (2 * j)))
      as [[_ ->]|[_ ->]].
    + exists (Z.to_nat (- maxRounds)). lia.
    + exists j. lia.
  - destruct (Z.eqb_spec (maxRounds * 2) 0) as [Hz|Hnz].
    + exists 0%nat. reflexivity.
    + exists (Z.to_nat (Z.of_nat j - maxRounds)). lia.
Qed.

Lemma trimHistory_well_formed_witness :
  well_formed two_rounds.(conversationHistory)
  /\ well_formed (trimHistory 1 two_rounds).(conversationHistory).
Proof.
  assert (H : well_formed two_rounds.(conversationHistory))
    by (split; reflexivity).
  split; [exact H|]. exact (trimHistory_well_formed 1 two_rounds H).
Defined.

(** *** [getSummary] *)



(** *** [saveConversation] and [loadConversation] *)

Lemma from_to_JSON (now : Z) (h : list Message) :
  map (fromJSON now) (map toJSON h) = h.
Proof.
  rewrite map_map. rewrite <- (map_id h) at 2. apply map_ext.
  intros [r t ts]. reflexivity.
Qed.

(** X18.  A saved conversation can be loaded.  When the write succeeds,
    [saveConversation] does not return [null], and [loadConversation] of the
    same file name, by any conversation manager at any later time, returns
    [true] and leaves that manager with the history that was saved (roles,
    contents and timestamps), and with the session id, the system prompt
    and the model of the saved conversation; [maxTokens] and [temperature]
    are not in the file and stay those of the manager that loads.  Loading
    a file that is not there returns [false] and changes nothing. *)
Theorem saveConversation_round_trip (now now2 : Z) (filename : option string)
    (c c2 : ConversationManager.t) (d : DataDir) :
  d.(dir_writable) = true ->
  let name := JS.str_or filename
                ("conversation-" ++ c.(sessionId) ++ ".json")%string in
  let d' := snd (saveConversation now filename c d) in
  let r := loadConversation now2 name c2 d' in
  fst (saveConversation now filename c d) <> None
  /\ fst r = true
  /\ (snd r).(conversationHistory) = c.(conversationHistory)
  /\ (snd r).(sessionId) = c.(sessionId)
  /\ (snd r).(systemPrompt) = c.(systemPrompt)
  /\ (snd r).(model) = c.(model)
  /\ (snd r).(maxTokens) = c2.(maxTokens)
  /\ (snd r).(temperature) = c2.(temperature)
  /\ (forall missing,
        JsMap.get missing d.(dir_files) = None ->
        loadConversation now2 missing c2 d = (false, c2)).
Proof.
  intros Hw. simpl. unfold saveConversation, loadConversation. rewrite Hw.
  simpl. rewrite jsmap_get_set_eq. simpl. rewrite from_to_JSON.
  split; [discriminate|]. repeat split. intros missing ->. reflexivity.
Qed.

Lemma saveConversation_round_trip_witness :
  empty_dir.(dir_writable) = true
  /\ (snd (loadConversation 200 "conversation-session-1.json"
             demo_conversation
             (snd (saveConversation 100 None two_rounds empty_dir))))
       .(conversationHistory)
     = two_rounds.(conversationHistory).
Proof.
  split; [reflexivity|].
  exact (proj1 (proj2 (proj2 (saveConversation_round_trip 100 200 None
                                two_rounds demo_conversation empty_dir
                                eq_refl)))).
Defined.

(** *** [chatStream] *)

(** What [chatStream] leaves in the history and in the requests sent. *)
Lemma chatStream_trace (remote : StreamRemote) (now now' : Z)
    (userInput : string) (options : ChatOptions) (onChunk : option Callback)
    (c : ConversationManager.t) :
  let r := chatStream remote now now' userInput options onChunk c in
  let h := c.(conversationHistory) in
  let h' := (snd r).(conversationHistory) in
  match fst (fst r) with
  | JS.Return x =>
      if x.(success)
      then exists text,
             x.(r_content) = Some text
             /\ h' = h ++ [ {| role := user; content := userInput;
                               timestamp := now |};
                            {| role := assistant; content := text;
                               timestamp := now' |} ]
      else h' = h
  | JS.Throw _ => h' = h
  end
  /\ List.length (snd r).(requests) = S (List.length c.(requests)).
Proof.
  cbv zeta. unfold chatStream.
  set (start := {| st_fullContent := ""; st_inputTokens := 0;
                   st_outputTokens := 0; st_stopReason := None;
                   st_delivered := [] |}).
  simpl.
  destruct (remote _) as [message|events broken]; simpl.
  - destruct onChunk as [f|]; [destruct (f _)|]; simpl;
      rewrite pop_snoc, length_app; simpl; (split; [reflexivity | lia]).
  - destruct (consume onChunk events start) as [[message|] s]; simpl.
    + destruct onChunk as [f|]; [destruct (f _)|]; simpl;
        rewrite pop_snoc, length_app; simpl; (split; [reflexivity | lia]).
    + destruct broken as [message|]; simpl.
      * destruct onChunk as [f|]; [destruct (f _)|]; simpl;
          rewrite pop_snoc, length_app; simpl; (split; [reflexivity | lia]).
      * rewrite <- app_assoc, length_app. simpl. split.
        -- eexists. split; reflexivity.
        -- lia.
Qed.


(** The loop of [chatStream] with a callback that returns. *)
Lemma consume_quiet (f : Callback) (events : list StreamEvent) :
  (forall ch, f ch = None) ->
  forallb textual events = true ->
  forall fc it ot sr dl,
  let r := consume (Some f) events (mkStreamState fc it ot sr dl) in
  fst r = None
  /\ (snd r).(st_fullContent)
     = (fc ++ String.concat "" (delta_texts events))%string
  /\ String.concat "" (chunk_texts (snd r).(st_delivered))
     = (String.concat "" (chunk_texts dl)
        ++ String.concat "" (delta_texts events))%string.
Proof.
  intros Hf. induction events as [|e events IH]; intros Htext fc it ot sr dl.
  - simpl. rewrite !append_empty_r. repeat split.
  - cbn [forallb] in Htext. apply andb_true_iff in Htext.
    destruct Htext as [He Htext]. specialize (IH Htext).
    destruct e as [[t|]|[n|]|out stop| |]; try discriminate He;
      cbn [consume st_fullContent st_inputTokens st_outputTokens
           st_stopReason st_delivered delta_texts flat_map app];
      fold (delta_texts events); try apply IH.
    destruct (JS.truthy t) eqn:Ht.
    + rewrite Hf.
      destruct (IH (fc ++ t)%string it ot sr (dl ++ [ContentChunk t]))
        as (H1 & H2 & H3).
      split; [exact H1|]. split.
      * rewrite H2, concat_empty_cons. apply append_assoc.
      * rewrite H3. unfold chunk_texts at 1. rewrite flat_map_app.
        fold (chunk_texts dl). cbn [flat_map app].
        rewrite concat_empty_app, !concat_empty_cons.
        change (String.concat "" []) with "".
        rewrite append_empty_r, append_assoc. reflexivity.
    + assert (t = "") by (destruct t; [reflexivity|discriminate]). subst t.
      destruct (IH (fc ++ "")%string it ot sr dl) as (H1 & H2 & H3).
      split; [exact H1|]. split.
      * rewrite H2, concat_empty_cons. apply append_assoc.
      * rewrite H3, concat_empty_cons. reflexivity.
Qed.

(** X20.  The content of a streamed reply.  When the stream opens and ends
    without an error, every content delta carries a text and the callback
    returns, [chatStream] succeeds, its content is the texts of the deltas
    put together in the order of the stream, the texts handed to the
    callback put together give the same content (an empty delta is not
    handed over), and the model it reports is the model of the manager,
    also when the options named another one for the request. *)
Theorem chatStream_content (remote : StreamRemote) (now now' : Z)
    (userInput : string) (options : ChatOptions) (f : Callback)
    (c : ConversationManager.t) (events : list StreamEvent) :
  (forall ch, f ch = None) ->
  remote
    {| ap_model := JS.str_or options.(o_model) c.(model);
       ap_max_tokens := JS.num_or options.(o_maxTokens) c.(maxTokens);
       ap_messages := getFormattedHistory c ++ [(user, userInput)];
       ap_system := match c.(systemPrompt) with
                    | Some p => if JS.truthy p then Some p else None
                    | None => None
                    end;
       ap_temperature := options.(o_temperature) |}
  = StreamOpened events None ->
  forallb textual events = true ->
  let r := chatStream remote now now' userInput options (Some f) c in
  exists x,
    fst (fst r) = JS.Return x
    /\ x.(success) = true
    /\ x.(r_content) = Some (String.concat "" (delta_texts events))
    /\ String.concat "" (chunk_texts (snd (fst r)))
       = String.concat "" (delta_texts events)
    /\ x.(r_model) = Some c.(model).
Proof.
  intros Hf Hremote Htext r. subst r. unfold chatStream. simpl.
  unfold getFormattedHistory. simpl. rewrite map_app. simpl.
  unfold getFormattedHistory in Hremote. rewrite Hremote.
  set (start := {| st_fullContent := ""; st_inputTokens := 0;
                   st_outputTokens := 0; st_stopReason := None;
                   st_delivered := [] |}).
  destruct (consume_quiet f events Hf Htext "" 0%float 0%float None [])
    as (H1 & H2 & H3).
  fold start in H1, H2, H3.
  destruct (consume (Some f) events start) as [err s]. simpl in H1, H2, H3.
  subst err. eexists. split; [reflexivity|]. simpl.
  rewrite H2, H3. repeat split.
Qed.

Lemma chatStream_content_witness :
  forallb textual demo_events = true
  /\ exists x,
       fst (fst (chatStream demo_stream 10 20 "hi" noOptions
                   (Some Routes.write_chunk) demo_conversation))
       = JS.Return x
       /\ x.(r_content) = Some "Hello".
Proof.
  split; [reflexivity|].
  destruct (chatStream_content demo_stream 10 20 "hi" noOptions
              Routes.write_chunk demo_conversation demo_events
              (fun _ => eq_refl) eq_refl eq_refl)
    as (x & Hx & _ & Hc & _).
  exists x. split; [exact Hx | exact Hc].
Defined.

End ConversationMore.

(** ** The request pipeline, continued *)

Section PipelineMore.

Import CleverAssistant.

(** [chat] leaves the settings of the conversation as they are. *)
Lemma chat_settings (remote : ConversationManager.Remote) (now now' : Z)
    (userInput : string) (options : ConversationManager.ChatOptions)
    (c : ConversationManager.t) :
  let c' := snd (ConversationManager.chat remote now now' userInput options c) in
  c'.(ConversationManager.model) = c.(ConversationManager.model)
  /\ c'.(ConversationManager.temperature) = c.(ConversationManager.temperature)
  /\ c'.(ConversationManager.systemPrompt) = c.(ConversationManager.systemPrompt)
  /\ List.length c'.(ConversationManager.requests)
     = S (List.length c.(ConversationManager.requests)).
Proof.
  unfold ConversationManager.chat. simpl.
  destruct (remote _) as [message|response]; simpl.
  - rewrite length_app. simpl. repeat split. lia.
  - destruct (ConversationManager.resp_content response) as [|[text|] rest];
      simpl;
      [| destruct (ConversationManager.resp_usage response); simpl |];
      rewrite length_app; simpl; repeat split; lia.
Qed.

Lemma get_settings (now : Z) (k : string) (c : CacheManager.t) :
  (snd (CacheManager.get now k c)).(CacheManager.enabled)
  = c.(CacheManager.enabled)
  /\ (snd (CacheManager.get now k c)).(CacheManager.defaultTTL)
     = c.(CacheManager.defaultTTL).
Proof.
  unfold CacheManager.get. destruct (CacheManager.enabled c) eqn:Hen; simpl;
    [|now rewrite Hen].
  destruct (JsMap.get k (CacheManager.cache c)) as [item|]; simpl;
    [|now rewrite Hen].
  destruct (CacheItem.isExpired now item); simpl; [|now rewrite Hen].
  destruct (delete_fields now k c) as (E1 & _ & E3 & _).
  now rewrite E1, E3, Hen.
Qed.

(** The steps of [sendMessage] after the budget gate. *)
Lemma sendMessage_open (cfg : Config.t) (remote : ConversationManager.Remote)
    (now now' : Z) (userInput : string)
    (options : ConversationManager.ChatOptions) (a : CleverAssistant.t) :
  overBudget a = false ->
  sendMessage cfg remote now now' userInput options a
  = let key := cacheKey cfg userInput a in
    let cachedResponse := fst (CacheManager.get now key a.(cache)) in
    let cache1 := snd (CacheManager.get now key a.(cache)) in
    let hit := match cachedResponse with
               | Some v => JS.truthy v
                           && negb options.(ConversationManager.o_disableCache)
               | None => false
               end in
    match cachedResponse, hit with
    | Some v, true =>
        let conv1 := snd (ConversationManager.addMessage now
                            ConversationManager.user userInput a.(conversation)) in
        let conv2 := snd (ConversationManager.addMessage now
                            ConversationManager.assistant v conv1) in
        (JS.Return {| ConversationManager.success := true;
                      ConversationManager.r_content := Some v;
                      ConversationManager.error := None;
                      ConversationManager.fromCache := true;
                      ConversationManager.usage := None;
                      ConversationManager.r_model := None;
                      ConversationManager.stopReason := None |},
         {| conversation := conv2; tokenTracker := a.(tokenTracker);
            cache := cache1; currentMode := a.(currentMode) |})
    | _, _ =>
        let response :=
          fst (ConversationManager.chat remote now now' userInput options
                 a.(conversation)) in
        let conv1 :=
          snd (ConversationManager.chat remote now now' userInput options
                 a.(conversation)) in
        match response.(ConversationManager.success),
              response.(ConversationManager.usage),
              response.(ConversationManager.r_content) with
        | true, Some u, Some text =>
            match TokenTracker.recordCall cfg now'
                    u.(ConversationManager.u_inputTokens)
                    u.(ConversationManager.u_outputTokens)
                    response.(ConversationManager.r_model) None
                    a.(tokenTracker) with
            | (JS.Throw e, tracker1) =>
                (JS.Throw e,
                 {| conversation := conv1; tokenTracker := tracker1;
                    cache := cache1; currentMode := a.(currentMode) |})
            | (JS.Return _, tracker1) =>
                (JS.Return response,
                 {| conversation := conv1; tokenTracker := tracker1;
                    cache := snd (CacheManager.set now' key text None cache1);
                    currentMode := a.(currentMode) |})
            end
        | _, _, _ =>
            (JS.Return response,
             {| conversation := conv1; tokenTracker := a.(tokenTracker);
                cache := cache1; currentMode := a.(currentMode) |})
        end
    end.
Proof.
  intros Hbudget. unfold overBudget in Hbudget. unfold sendMessage.
  destruct (TokenTracker.checkBudget (tokenTracker a)) as [status tracker] eqn:Hcb.
  simpl in Hbudget. rewrite Hbudget.
  assert (tracker = tokenTracker a)
    by (unfold TokenTracker.checkBudget in Hcb; congruence).
  subst tracker. cbv zeta.
  destruct (CacheManager.get now (cacheKey cfg userInput a) (cache a))
    as [cached cache1].
  cbn [fst snd].
  destruct (ConversationManager.chat remote now now' userInput options
              (conversation a)) as [response conv1].
  reflexivity.
Qed.

(** A successful [chat] returns content and usage. *)
Lemma chat_success_shape (remote : ConversationManager.Remote) (now now' : Z)
    (userInput : string) (options : ConversationManager.ChatOptions)
    (c : ConversationManager.t) :
  let r := fst (ConversationManager.chat remote now now' userInput options c) in
  r.(ConversationManager.fromCache) = false
  /\ if r.(ConversationManager.success)
     then exists u text,
            r.(ConversationManager.usage) = Some u
            /\ r.(ConversationManager.r_content) = Some text
     else r.(ConversationManager.usage) = None
          /\ r.(ConversationManager.r_content) = None.
Proof.
  unfold ConversationManager.chat. simpl.
  destruct (remote _) as [message|response]; simpl; [tauto|].
  destruct (ConversationManager.resp_content response) as [|[text|] rest];
    simpl; [tauto| |tauto].
  destruct (ConversationManager.resp_usage response); simpl; [|tauto].
  split; [reflexivity|]. eexists. eexists. split; reflexivity.
Qed.

(** The key of a request depends on the conversation through its model, its
    temperature and its system prompt. *)
Lemma cacheKey_settings (cfg : Config.t) (userInput : string)
    (a a' : CleverAssistant.t) :
  a'.(conversation).(ConversationManager.model)
  = a.(conversation).(ConversationManager.model) ->
  a'.(conversation).(ConversationManager.temperature)
  = a.(conversation).(ConversationManager.temperature) ->
  a'.(conversation).(ConversationManager.systemPrompt)
  = a.(conversation).(ConversationManager.systemPrompt) ->
  cacheKey cfg userInput a' = cacheKey cfg userInput a.
Proof.
  intros H1 H2 H3. unfold cacheKey, keyOptions. now rewrite H1, H2, H3.
Qed.

(** What a call that reaches the remote model leaves, when the tracker is
    not over budget and the cache does not answer. *)
Lemma sendMessage_remote (cfg : Config.t)
    (remote : ConversationManager.Remote) (now now' : Z) (userInput : string)
    (options : ConversationManager.ChatOptions) (a : CleverAssistant.t) :
  overBudget a = false ->
  match fst (CacheManager.get now (cacheKey cfg userInput a) a.(cache)) with
  | Some v => JS.truthy v && negb options.(ConversationManager.o_disableCache)
  | None => false
  end = false ->
  let key := cacheKey cfg userInput a in
  let cache1 := snd (CacheManager.get now key a.(cache)) in
  let response :=
    fst (ConversationManager.chat remote now now' userInput options
           a.(conversation)) in
  let r := fst (sendMessage cfg remote now now' userInput options a) in
  let a' := snd (sendMessage cfg remote now now' userInput options a) in
  a'.(conversation)
  = snd (ConversationManager.chat remote now now' userInput options
           a.(conversation))
  /\ served_from_cache r = false
  /\ (forall x, r = JS.Return x -> x = response)
  /\ (response.(ConversationManager.success) = false ->
      r = JS.Return response
      /\ a'.(tokenTracker) = a.(tokenTracker) /\ a'.(cache) = cache1)
  /\ (forall text,
        response.(ConversationManager.success) = true ->
        response.(ConversationManager.r_content) = Some text ->
        match r with
        | JS.Return x =>
            x = response
            /\ a'.(cache) = snd (CacheManager.set now' key text None cache1)
        | JS.Throw _ => a'.(cache) = cache1
        end).
Proof.
  intros Hbudget Hmiss key cache1 response r a'. subst r a'.
  rewrite (sendMessage_open cfg remote now now' userInput options a Hbudget).
  cbv zeta. fold key. fold key in Hmiss. fold cache1. fold response.
  destruct (chat_success_shape remote now now' userInput options
              (conversation a)) as [Hfrom Hshape].
  fold response in Hfrom, Hshape.
  assert (Hpath :
    forall (X : JS.completion ConversationManager.Result * CleverAssistant.t),
      X = match response.(ConversationManager.success),
                response.(ConversationManager.usage),
                response.(ConversationManager.r_content) with
          | true, Some u, Some text =>
              match TokenTracker.recordCall cfg now'
                      u.(ConversationManager.u_inputTokens)
                      u.(ConversationManager.u_outputTokens)
                      response.(ConversationManager.r_model) None
                      a.(tokenTracker) with
              | (JS.Throw e, tracker1) =>
                  (JS.Throw e,
                   {| conversation :=
                        snd (ConversationManager.chat remote now now' userInput
                               options a.(conversation));
                      tokenTracker := tracker1;
                      cache := cache1; currentMode := a.(currentMode) |})
              | (JS.Return _, tracker1) =>
                  (JS.Return response,
                   {| conversation :=
                        snd (ConversationManager.chat remote now now' userInput
                               options a.(conversation));
                      tokenTracker := tracker1;
                      cache := snd (CacheManager.set now' key text None cache1);
                      currentMode := a.(currentMode) |})
              end
          | _, _, _ =>
              (JS.Return response,
               {| conversation :=
                    snd (ConversationManager.chat remote now now' userInput
                           options a.(conversation));
                  tokenTracker := a.(tokenTracker);
                  cache := cache1; currentMode := a.(currentMode) |})
          end ->
      (snd X).(conversation)
      = snd (ConversationManager.chat remote now now' userInput options
               a.(conversation))
      /\ served_from_cache (fst X) = false
      /\ (forall x, fst X = JS.Return x -> x = response)
      /\ (response.(ConversationManager.success) = false ->
          fst X = JS.Return response
          /\ (snd X).(tokenTracker) = a.(tokenTracker)
          /\ (snd X).(cache) = cache1)
      /\ (forall text,
            response.(ConversationManager.success) = true ->
            response.(ConversationManager.r_content) = Some text ->
            match fst X with
            | JS.Return x =>
                x = response
                /\ (snd X).(cache)
                   = snd (CacheManager.set now' key text None cache1)
            | JS.Throw _ => (snd X).(cache) = cache1
            end)).
  { intros X ->.
    destruct (ConversationManager.success response) eqn:Hs.
    - destruct Hshape as (u & text & Hu & Hc). rewrite Hu, Hc.
      destruct (TokenTracker.recordCall _ _ _ _ _ _ _) as [[rec|e] tracker1];
        simpl; (split; [reflexivity|]); (split; [assumption || reflexivity|]);
        (split; [congruence|]);
        (split; [discriminate|]); intros text' _ [= <-]; auto.
    - simpl.
      split; [reflexivity|]. split; [exact Hfrom|]. split; [congruence|].
      split; [auto|]. discriminate. }
  destruct (fst (CacheManager.get now key (cache a))) as [v|].
  - rewrite Hmiss. apply Hpath. reflexivity.
  - apply Hpath. reflexivity.
Qed.

(** A call that returns an answer that is not from the cache went past the
    cache. *)
Lemma sendMessage_not_cached (cfg : Config.t)
    (remote : ConversationManager.Remote) (now now' : Z) (userInput : string)
    (options : ConversationManager.ChatOptions) (a : CleverAssistant.t)
    (r : ConversationManager.Result) :
  overBudget a = false ->
  fst (sendMessage cfg remote now now' userInput options a) = JS.Return r ->
  r.(ConversationManager.fromCache) = false
  \/ r.(ConversationManager.success) = false ->
  match fst (CacheManager.get now (cacheKey cfg userInput a) a.(cache)) with
  | Some v => JS.truthy v && negb options.(ConversationManager.o_disableCache)
  | None => false
  end = false.
Proof.
  intros Hbudget Hres Hnot.
  pose proof (sendMessage_open cfg remote now now' userInput options a
                Hbudget) as Hopen. cbv zeta in Hopen.
  rewrite Hopen in Hres.
  destruct (fst (CacheManager.get now (cacheKey cfg userInput a) (cache a)))
    as [v|]; [|reflexivity].
  destruct (JS.truthy v && negb (ConversationManager.o_disableCache options));
    [|reflexivity].
  simpl in Hres. injection Hres as <-. destruct Hnot; discriminate.
Qed.

(** X21.  The second time, the answer comes from the cache.  Let a request
    be answered by the remote model with a text that is not empty, on an
    assistant whose cache is enabled.  When the same text is sent again
    while the assistant is not over budget, at most the default ttl after
    the answer, without [disableCache], the assistant returns the same
    content with [fromCache: true], whatever the remote model would answer
    now; it sends no request and records no call. *)
Theorem repeated_request_served_from_cache (cfg : Config.t)
    (remote remote2 : ConversationManager.Remote) (now now' now2 now2' : Z)
    (userInput text : string)
    (options options2 : ConversationManager.ChatOptions)
    (a : CleverAssistant.t) (r : ConversationManager.Result) :
  overBudget a = false ->
  a.(cache).(CacheManager.enabled) = true ->
  fst (sendMessage cfg remote now now' userInput options a) = JS.Return r ->
  r.(ConversationManager.fromCache) = false ->
  r.(ConversationManager.r_content) = Some text ->
  JS.truthy text = true ->
  let a1 := snd (sendMessage cfg remote now now' userInput options a) in
  overBudget a1 = false ->
  now2 - now' <= a.(cache).(CacheManager.defaultTTL) ->
  options2.(ConversationManager.o_disableCache) = false ->
  let r2 := fst (sendMessage cfg remote2 now2 now2' userInput options2 a1) in
  let a2 := snd (sendMessage cfg remote2 now2 now2' userInput options2 a1) in
  r2 = JS.Return
         {| ConversationManager.success := true;
            ConversationManager.r_content := Some text;
            ConversationManager.error := None;
            ConversationManager.fromCache := true;
            ConversationManager.usage := None;
            ConversationManager.r_model := None;
            ConversationManager.stopReason := None |}
  /\ a2.(conversation).(ConversationManager.requests)
     = a1.(conversation).(ConversationManager.requests)
  /\ a2.(tokenTracker) = a1.(tokenTracker).
Proof.
  intros Hbudget Hen Hres Hfrom Htext Htruthy a1 Hbudget1 Hfresh Hopt r2 a2.
  set (key := cacheKey cfg userInput a).
  pose proof (sendMessage_not_cached cfg remote now now' userInput options a r
                Hbudget Hres (or_introl Hfrom)) as Hmiss.
  fold key in Hmiss.
  destruct (sendMessage_remote cfg remote now now' userInput options a
              Hbudget Hmiss) as (Hconv & _ & Hsame & _ & Hstored).
  fold key in Hstored. fold a1 in Hconv, Hstored.
  pose proof (Hsame r Hres) as Hr. subst r.
  destruct (chat_success_shape remote now now' userInput options
              (conversation a)) as [_ Hshape].
  destruct (ConversationManager.success
              (fst (ConversationManager.chat remote now now' userInput options
                      (conversation a)))) eqn:Hs;
    [|destruct Hshape as [_ Hnone]; congruence].
  specialize (Hstored text eq_refl Htext). rewrite Hres in Hstored.
  destruct Hstored as [_ Hcache].
  destruct (get_settings now key (cache a)) as [Hen1 Httl1].
  rewrite Hen in Hen1.
  destruct (set_fields now' key text None _ Hen1)
    as (_ & Hen2 & _ & _ & Hc2 & _).
  rewrite <- Hcache in Hen2, Hc2.
  destruct (chat_settings remote now now' userInput options (conversation a))
    as (Em & Et & Es & _).
  rewrite <- Hconv in Em, Et, Es.
  assert (Hkey : cacheKey cfg userInput a1 = key)
    by (apply cacheKey_settings; assumption).
  set (item := CacheItem.new now' key text
                 (JS.num_or None
                    (CacheManager.defaultTTL
                       (snd (CacheManager.get now key (cache a)))))) in *.
  assert (Hget : JsMap.get key a1.(cache).(CacheManager.cache) = Some item).
  { rewrite Hc2. apply jsmap_get_set_eq. }
  assert (Hitem : now2 - item.(CacheItem.createdAt) <= item.(CacheItem.ttl)).
  { subst item. simpl. rewrite Httl1. exact Hfresh. }
  destruct (get_hit_fields now2 key _ item Hen2 Hget Hitem) as (Hhit & _).
  pose proof (sendMessage_open cfg remote2 now2 now2' userInput options2 a1
                Hbudget1) as Hopen.
  cbv zeta in Hopen. rewrite Hkey in Hopen. rewrite Hhit in Hopen.
  change (CacheItem.value item) with text in Hopen.
  rewrite Htruthy, Hopt in Hopen. cbn [andb negb] in Hopen.
  subst r2 a2. rewrite Hopen. cbn [fst snd conversation tokenTracker].
  repeat split.
Qed.

Lemma repeated_request_served_from_cache_witness :
  (overBudget fresh_learning = false
   /\ fst (send Config.defaults fresh_learning hi_request)
      = JS.Return demo_answer
   /\ overBudget (snd (send Config.defaults fresh_learning hi_request)) = false)
  /\ served_from_cache
       (fst (sendMessage Config.defaults failing_remote 3000 4000 "hi"
               ConversationManager.noOptions
               (snd (send Config.defaults fresh_learning hi_request))))
     = true.
Proof.
  assert (H1 : overBudget fresh_learning = false) by (vm_compute; reflexivity).
  assert (H2 : fst (sendMessage Config.defaults demo_remote 1000 2000 "hi"
                      ConversationManager.noOptions fresh_learning)
               = JS.Return demo_answer) by (vm_compute; reflexivity).
  assert (H3 : overBudget
                 (snd (sendMessage Config.defaults demo_remote 1000 2000 "hi"
                         ConversationManager.noOptions fresh_learning))
               = false) by (vm_compute; reflexivity).
  assert (H4 : 3000 - 2000
               <= fresh_learning.(cache).(CacheManager.defaultTTL))
    by (vm_compute; discriminate).
  split; [split; [exact H1 | split; [exact H2 | exact H3]]|].
  exact (f_equal served_from_cache
           (proj1 (repeated_request_served_from_cache Config.defaults
                     demo_remote failing_remote 1000 2000 3000 4000 "hi"
                     "hello" ConversationManager.noOptions
                     ConversationManager.noOptions fresh_learning demo_answer
                     H1 eq_refl H2 eq_refl eq_refl eq_refl H3 H4 eq_refl))).
Defined.

(** X22.  A failed call costs nothing and stores nothing.  When
    [sendMessage] returns a result with [success: false] on an assistant
    that is not over budget, the result has no content, the tracker is as
    it was (no call is recorded) and the cache is the one the read left
    (nothing is written under the key).  The history is as it was when the
    remote call was rejected or the response had no content; when the
    response was incomplete (a first block without text, or no usage) the
    user message stays in the history, without a reply. *)
Theorem failed_call_is_not_recorded (cfg : Config.t)
    (remote : ConversationManager.Remote) (now now' : Z) (userInput : string)
    (options : ConversationManager.ChatOptions) (a : CleverAssistant.t)
    (r : ConversationManager.Result) :
  overBudget a = false ->
  fst (sendMessage cfg remote now now' userInput options a) = JS.Return r ->
  r.(ConversationManager.success) = false ->
  let a' := snd (sendMessage cfg remote now now' userInput options a) in
  a'.(tokenTracker) = a.(tokenTracker)
  /\ a'.(cache)
     = snd (CacheManager.get now (cacheKey cfg userInput a) a.(cache))
  /\ r.(ConversationManager.r_content) = None
  /\ a'.(conversation).(ConversationManager.conversationHistory)
     = if incomplete (remote (chat_params userInput options a.(conversation)))
       then a.(conversation).(ConversationManager.conversationHistory)
            ++ [ {| ConversationManager.role := ConversationManager.user;
                    ConversationManager.content := userInput;
                    ConversationManager.timestamp := now |} ]
       else a.(conversation).(ConversationManager.conversationHistory).
Proof.
  intros Hbudget Hres Hfail a'.
  set (key := cacheKey cfg userInput a).
  pose proof (sendMessage_not_cached cfg remote now now' userInput options a r
                Hbudget Hres (or_intror Hfail)) as Hmiss.
  fold key in Hmiss.
  destruct (sendMessage_remote cfg remote now now' userInput options a
              Hbudget Hmiss) as (Hconv & _ & Hsame & Hfailed & _).
  fold a' in Hconv, Hfailed. fold key in Hfailed.
  pose proof (Hsame r Hres) as Hr. subst r.
  destruct (Hfailed Hfail) as (_ & Ht & Hc).
  pose proof (chat_history remote now now' userInput options (conversation a))
    as Hh. cbv zeta in Hh. rewrite Hfail in Hh.
  destruct (chat_success_shape remote now now' userInput options
              (conversation a)) as [_ Hshape].
  rewrite Hfail in Hshape.
  rewrite Hconv. split; [exact Ht|]. split; [exact Hc|].
  split; [apply Hshape | exact Hh].
Qed.

Lemma failed_call_is_not_recorded_witness :
  (overBudget fresh_learning = false
   /\ fst (sendMessage Config.defaults tool_call.(cc_remote) 1000 2000 "hi"
             ConversationManager.noOptions fresh_learning)
      = JS.Return
          (ConversationManager.failure
             "Cannot read properties of undefined (reading 'substring')"))
  /\ (snd (sendMessage Config.defaults tool_call.(cc_remote) 1000 2000 "hi"
             ConversationManager.noOptions fresh_learning)).(tokenTracker)
     = fresh_learning.(tokenTracker).
Proof.
  assert (H1 : overBudget fresh_learning = false) by (vm_compute; reflexivity).
  assert (H2 : fst (sendMessage Config.defaults tool_call.(cc_remote) 1000
                      2000 "hi" ConversationManager.noOptions fresh_learning)
               = JS.Return
                   (ConversationManager.failure
                      "Cannot read properties of undefined (reading 'substring')"))
    by (vm_compute; reflexivity).
  split; [split; [exact H1 | exact H2]|].
  exact (proj1 (failed_call_is_not_recorded Config.defaults
                  tool_call.(cc_remote) 1000 2000 "hi"
                  ConversationManager.noOptions fresh_learning
                  (ConversationManager.failure
                     "Cannot read properties of undefined (reading 'substring')")
                  H1 H2 eq_refl)).
Defined.

(** One request to an assistant whose cache is disabled. *)
Lemma send_cache_disabled (cfg : Config.t) (a : CleverAssistant.t)
    (rq : Request) :
  a.(cache).(CacheManager.enabled) = false ->
  (snd (send cfg a rq)).(cache) = a.(cache)
  /\ served_from_cache (fst (send cfg a rq)) = false
  /\ (overBudget a = false ->
      List.length (snd (send cfg a rq)).(conversation).(ConversationManager.requests)
      = S (List.length a.(conversation).(ConversationManager.requests))).
Proof.
  intros Hoff. unfold send.
  destruct (overBudget a) eqn:Hbudget.
  - unfold overBudget in Hbudget. unfold sendMessage.
    destruct (TokenTracker.checkBudget (tokenTracker a)) as [status tracker].
    simpl in Hbudget. rewrite Hbudget. simpl. repeat split. discriminate.
  - assert (Hget : forall k, CacheManager.get (rq_now rq) k (cache a)
                             = (None, cache a)).
    { intros k. unfold CacheManager.get. now rewrite Hoff. }
    assert (Hmiss :
      match fst (CacheManager.get (rq_now rq) (cacheKey cfg (rq_text rq) a)
                   a.(cache)) with
      | Some v => JS.truthy v
                  && negb (rq_options rq).(ConversationManager.o_disableCache)
      | None => false
      end = false) by now rewrite Hget.
    destruct (sendMessage_remote cfg (rq_remote rq) (rq_now rq) (rq_now' rq)
                (rq_text rq) (rq_options rq) a Hbudget Hmiss)
      as (Hconv & Hserved & _ & Hfailed & Hstored).
    rewrite Hget in Hfailed, Hstored. cbn [snd] in Hfailed, Hstored.
    destruct (chat_settings (rq_remote rq) (rq_now rq) (rq_now' rq)
                (rq_text rq) (rq_options rq) (conversation a))
      as (_ & _ & _ & Hreq).
    destruct (chat_success_shape (rq_remote rq) (rq_now rq) (rq_now' rq)
                (rq_text rq) (rq_options rq) (conversation a)) as [_ Hshape].
    assert (Hset : forall t text,
              snd (CacheManager.set t (cacheKey cfg (rq_text rq) a) text None
                     (cache a)) = cache a).
    { intros t text. unfold CacheManager.set. now rewrite Hoff. }
    split; [|split; [exact Hserved | intros _; now rewrite Hconv]].
    destruct (ConversationManager.success _) eqn:Hs.
    + destruct Hshape as (u & text & _ & Htext).
      specialize (Hstored text eq_refl Htext). rewrite Hset in Hstored.
      destruct (fst (sendMessage _ _ _ _ _ _ _)); tauto.
    + now destruct (Hfailed eq_refl) as (_ & _ & Hc).
Qed.

Lemma session_cache_disabled (cfg : Config.t) (rqs : list Request)
    (a : CleverAssistant.t) :
  a.(cache).(CacheManager.enabled) = false ->
  (session cfg rqs a).(cache) = a.(cache).
Proof.
  unfold session. revert a.
  induction rqs as [|rq rqs IH]; intros a Hoff; simpl; [reflexivity|].
  destruct (send_cache_disabled cfg a rq Hoff) as (Hc & _).
  rewrite IH by now rewrite Hc. exact Hc.
Qed.



(** The constructor takes [enabled] from its options or from the
    configuration, whatever the cache file holds. *)
Lemma new_enabled (cfg : Config.t) (now : Z) (options : CacheManager.Options)
    (d : CacheManager.Disk) :
  (CacheManager.new cfg now options d).(CacheManager.enabled)
  = match options.(CacheManager.opt_enabled) with
    | Some b => b
    | None => cfg.(Config.ENABLE_CACHE)
    end.
Proof.
  unfold CacheManager.new. cbv zeta.
  match goal with
  | |- context [if CacheManager.persistenceEnabled ?c then _ else _] =>
      set (c0 := c)
  end.
  destruct (CacheManager.persistenceEnabled c0); [|reflexivity].
  unfold CacheManager.load.
  destruct (CacheManager.content (CacheManager.disk c0)); [|reflexivity].
  destruct (CacheManager.load_items now _ [] []); reflexivity.
Qed.

(** X28.  The cache of the web server follows [ENABLE_CACHE].  The
    assistant the web server builds has its cache enabled exactly when
    [ENABLE_CACHE] is set, whatever the cache file holds; its budget limit
    is [BUDGET_LIMIT] and its mode is the learning mode.  With
    [ENABLE_CACHE] off, as it is by default, no request to the server's
    assistant is ever answered from the cache, after any sequence of
    requests. *)
Theorem server_cache_follows_configuration (cfg : Config.t) (now : Z)
    (generated : string) (d : CacheManager.Disk) (rqs : list Request) :
  let a0 := WebServer.assistant cfg now generated d in
  a0.(cache).(CacheManager.enabled) = cfg.(Config.ENABLE_CACHE)
  /\ a0.(tokenTracker).(TokenTracker.budgetLimit) = cfg.(Config.BUDGET_LIMIT)
  /\ a0.(currentMode) = "learning"
  /\ (cfg.(Config.ENABLE_CACHE) = false ->
      forall rq,
        served_from_cache (fst (send cfg (session cfg rqs a0) rq)) = false).
Proof.
  intros a0.
  assert (Hen : a0.(cache).(CacheManager.enabled) = cfg.(Config.ENABLE_CACHE)).
  { subst a0. unfold WebServer.assistant, new, applyPreset.
    cbn [preset_of ASSISTANT_PRESETS JS.str_or opt_mode String.eqb Ascii.eqb
         Bool.eqb cache opt_cache].
    apply new_enabled. }
  split; [exact Hen|]. split; [reflexivity|]. split; [reflexivity|].
  intros Hoff rq. rewrite Hoff in Hen.
  apply (send_cache_disabled cfg _ rq).
  now rewrite (session_cache_disabled cfg rqs a0 Hen).
Qed.

(** X24.  [disableCache] skips the read, not the write.  With
    [disableCache: true] on an assistant that is not over budget, the
    request goes to the remote model also when the cache holds an answer,
    and the result is not marked as from the cache; when the call returns
    content and the cache is enabled, the content is stored under the key
    with the default ttl, in place of what was there. *)
Theorem disableCache_skips_the_read_only (cfg : Config.t)
    (remote : ConversationManager.Remote) (now now' : Z) (userInput : string)
    (options : ConversationManager.ChatOptions) (a : CleverAssistant.t) :
  overBudget a = false ->
  options.(ConversationManager.o_disableCache) = true ->
  let key := cacheKey cfg userInput a in
  let r := fst (sendMessage cfg remote now now' userInput options a) in
  let a' := snd (sendMessage cfg remote now now' userInput options a) in
  served_from_cache r = false
  /\ List.length a'.(conversation).(ConversationManager.requests)
     = S (List.length a.(conversation).(ConversationManager.requests))
  /\ (forall x text,
        r = JS.Return x ->
        x.(ConversationManager.r_content) = Some text ->
        a.(cache).(CacheManager.enabled) = true ->
        JsMap.get key a'.(cache).(CacheManager.cache)
        = Some (CacheItem.new now' key text
                  a.(cache).(CacheManager.defaultTTL))).
Proof.
  intros Hbudget Hopt key r a'.
  assert (Hmiss :
    match fst (CacheManager.get now key a.(cache)) with
    | Some v => JS.truthy v && negb options.(ConversationManager.o_disableCache)
    | None => false
    end = false).
  { rewrite Hopt. destruct (fst (CacheManager.get now key (cache a)));
      [apply andb_false_r | reflexivity]. }
  destruct (sendMessage_remote cfg remote now now' userInput options a
              Hbudget Hmiss) as (Hconv & Hserved & Hsame & _ & Hstored).
  fold key in Hstored. fold r in Hserved, Hsame, Hstored.
  fold a' in Hconv, Hstored.
  destruct (chat_settings remote now now' userInput options (conversation a))
    as (_ & _ & _ & Hreq).
  split; [exact Hserved|]. split; [now rewrite Hconv|].
  intros x text Hr Htext Hen. pose proof (Hsame x Hr) as Hx. subst x.
  destruct (chat_success_shape remote now now' userInput options
              (conversation a)) as [_ Hshape].
  destruct (ConversationManager.success _) eqn:Hs;
    [|destruct Hshape as [_ Hnone]; congruence].
  specialize (Hstored text eq_refl Htext). rewrite Hr in Hstored.
  destruct Hstored as [_ Hcache]. rewrite Hcache.
  destruct (get_settings now key (cache a)) as [Hen1 Httl1].
  rewrite Hen in Hen1.
  destruct (set_fields now' key text None _ Hen1)
    as (_ & _ & _ & _ & Hc2 & _).
  rewrite Hc2, jsmap_get_set_eq. simpl. now rewrite Httl1.
Qed.

Lemma disableCache_skips_the_read_only_witness :
  (overBudget learning_1000 = false
   /\ no_cache_options.(ConversationManager.o_disableCache) = true)
  /\ served_from_cache
       (fst (sendMessage Config.defaults demo_remote 3000 4000 "hi"
               no_cache_options learning_1000))
     = false.
Proof.
  assert (H1 : overBudget learning_1000 = false) by (vm_compute; reflexivity).
  split; [split; [exact H1 | reflexivity]|].
  exact (proj1 (disableCache_skips_the_read_only Config.defaults demo_remote
                  3000 4000 "hi" no_cache_options learning_1000 H1 eq_refl)).
Defined.



Lemma preset_not_inherited (mode : string) (preset : Preset) :
  preset_of mode ASSISTANT_PRESETS = Some preset -> inherited mode = false.
Proof.
  unfold preset_of, ASSISTANT_PRESETS.
  destruct (String.eqb_spec mode "coding") as [->|_]; [reflexivity|].
  destruct (String.eqb_spec mode "learning") as [->|_]; [reflexivity|].
  destruct (String.eqb_spec mode "writing") as [->|_]; [reflexivity|].
  destruct (String.eqb_spec mode "translator") as [->|_]; [reflexivity|].
  discriminate.
Qed.

(** X26.  [switchMode] saves the conversation, then starts the new mode
    with an empty history.  For a mode of the table, [switchMode] returns,
    the current mode is the new one, the history is empty, the system
    prompt, the temperature and [maxTokens] are those of the preset, and
    the session id, the tracker and the cache are as they were: what was
    spent still counts and cached answers stay.  When the data directory
    can be written, the history before the switch can be loaded back from
    the file [conversation-<sessionId>.json]. *)
Theorem switchMode_saves_and_clears (now : Z) (mode : string)
    (a : CleverAssistant.t) (d : ConversationManager.DataDir)
    (preset : Preset) :
  preset_of mode ASSISTANT_PRESETS = Some preset ->
  exists a' d',
    switchMode now mode a d = Some (JS.Return tt, a', d')
    /\ a'.(currentMode) = mode
    /\ a'.(conversation).(ConversationManager.conversationHistory) = []
    /\ a'.(conversation).(ConversationManager.systemPrompt)
       = Some preset.(p_systemPrompt)
    /\ a'.(conversation).(ConversationManager.temperature)
       = preset.(p_temperature)
    /\ a'.(conversation).(ConversationManager.maxTokens) = preset.(p_maxTokens)
    /\ a'.(conversation).(ConversationManager.sessionId)
       = a.(conversation).(ConversationManager.sessionId)
    /\ a'.(tokenTracker) = a.(tokenTracker)
    /\ a'.(cache) = a.(cache)
    /\ (d.(ConversationManager.dir_writable) = true ->
        forall now2 c2,
          (snd (ConversationManager.loadConversation now2
                  ("conversation-"
                   ++ a.(conversation).(ConversationManager.sessionId)
                   ++ ".json")%string c2 d'))
            .(ConversationManager.conversationHistory)
          = a.(conversation).(ConversationManager.conversationHistory)).
Proof.
  intros Hpreset. unfold switchMode.
  rewrite (preset_not_inherited mode preset Hpreset), Hpreset.
  eexists. eexists. split; [reflexivity|].
  unfold applyPreset. rewrite Hpreset. simpl.
  repeat split. intros Hw now2 c2.
  unfold ConversationManager.saveConversation,
    ConversationManager.loadConversation.
  rewrite Hw. simpl. rewrite jsmap_get_set_eq. simpl.
  apply from_to_JSON.
Qed.

Lemma switchMode_saves_and_clears_witness :
  exists preset,
    preset_of "coding" ASSISTANT_PRESETS = Some preset
    /\ exists a' d',
         switchMode 5000 "coding" demo_assistant_after_call empty_dir
         = Some (JS.Return tt, a', d')
         /\ a'.(currentMode) = "coding".
Proof.
  eexists. split; [reflexivity|].
  destruct (switchMode_saves_and_clears 5000 "coding"
              demo_assistant_after_call empty_dir _ eq_refl)
    as (a' & d' & H1 & H2 & _).
  exists a', d'. split; [exact H1 | exact H2].
Defined.

(** X27.  [switchMode] to a mode that does not exist throws and changes
    nothing.  For a name that is neither one of the modes
    [getAvailableModes()] lists nor a name every object inherits,
    [switchMode] throws, and the assistant and the data directory are as
    they were: the conversation is neither saved nor cleared. *)
Theorem switchMode_unknown_mode (now : Z) (mode : string)
    (a : CleverAssistant.t) (d : ConversationManager.DataDir) :
  inherited mode = false ->
  ~ In mode (map id getAvailableModes) ->
  exists message,
    switchMode now mode a d = Some (JS.Throw message, a, d).
Proof.
  intros Hown Hnot. unfold switchMode. rewrite Hown.
  destruct (preset_of mode ASSISTANT_PRESETS) as [preset|] eqn:Hp.
  - exfalso. apply Hnot. revert Hp.
    unfold preset_of, ASSISTANT_PRESETS, getAvailableModes. simpl.
    destruct (String.eqb_spec mode "coding") as [->|_]; [tauto|].
    destruct (String.eqb_spec mode "learning") as [->|_]; [tauto|].
    destruct (String.eqb_spec mode "writing") as [->|_]; [tauto|].
    destruct (String.eqb_spec mode "translator") as [->|_]; [tauto|].
    discriminate.
  - eexists. reflexivity.
Qed.

Lemma switchMode_unknown_mode_witness :
  (inherited "poetry" = false
   /\ ~ In "poetry" (map id getAvailableModes))
  /\ exists message,
       switchMode 5000 "poetry" demo_assistant empty_dir
       = Some (JS.Throw message, demo_assistant, empty_dir).
Proof.
  assert (H : ~ In "poetry" (map id getAvailableModes))
    by (simpl; intuition discriminate).
  split; [split; [reflexivity | exact H]|].
  exact (switchMode_unknown_mode 5000 "poetry" demo_assistant empty_dir
           eq_refl H).
Defined.

End PipelineMore.

(** ** The routes of the web server *)

Section RoutesMore.

Import Routes.

(** With a callback that returns, [chatStream] returns. *)
Lemma chatStream_returns (remote : ConversationManager.StreamRemote)
    (now now' : Z) (userInput : string)
    (options : ConversationManager.ChatOptions)
    (f : ConversationManager.Callback) (c : ConversationManager.t) :
  (forall ch, f ch = None) ->
  exists x,
    fst (fst (ConversationManager.chatStream remote now now' userInput options
                (Some f) c)) = JS.Return x.
Proof.
  intros Hf. unfold ConversationManager.chatStream. cbv zeta.
  destruct (remote _) as [msg|events broken].
  - rewrite Hf. eexists. reflexivity.
  - destruct (ConversationManager.consume _ _ _) as [[msg|] s].
    + rewrite Hf. eexists. reflexivity.
    + destruct broken as [msg|].
      * rewrite Hf. eexists. reflexivity.
      * eexists. reflexivity.
Qed.

(** X29.  The streaming route goes around the budget, the tracker and the
    cache.  For a body whose message is a string that is not empty,
    [POST /chat/stream] answers with an event stream and leaves the tracker
    and the cache as they were, whatever the budget status and whatever the
    cache holds: the tokens of a streamed answer are never counted and the
    answer is never stored.  With options that are missing or given, one
    request goes to the remote model and the stream ends with the end event
    carrying the result; after a success the history has grown by the
    message and the answer, otherwise it is unchanged.  With
    [options: null] no request is sent, the stream is the start event and
    an error event, and the user message stays in the history without a
    reply. *)
Theorem postChatStream_bypasses_budget_and_cache
    (remote : ConversationManager.StreamRemote) (now now' : Z)
    (body : StreamBody) (text : string) (a : CleverAssistant.t) :
  body.(sb_message) = TextMessage text ->
  JS.truthy text = true ->
  let h := a.(CleverAssistant.conversation)
             .(ConversationManager.conversationHistory) in
  let sent := {| ConversationManager.role := ConversationManager.user;
                 ConversationManager.content := text;
                 ConversationManager.timestamp := now |} in
  exists reply a',
    postChatStream remote now now' body a = Some (reply, a')
    /\ a'.(CleverAssistant.tokenTracker) = a.(CleverAssistant.tokenTracker)
    /\ a'.(CleverAssistant.cache) = a.(CleverAssistant.cache)
    /\ match body.(sb_options) with
       | NullOptions =>
           (exists e, reply = Streamed sse_headers [SseStart; SseError e])
           /\ a'.(CleverAssistant.conversation).(ConversationManager.requests)
              = a.(CleverAssistant.conversation).(ConversationManager.requests)
           /\ a'.(CleverAssistant.conversation)
                .(ConversationManager.conversationHistory)
              = h ++ [sent]
       | _ =>
           List.length
             a'.(CleverAssistant.conversation).(ConversationManager.requests)
           = S (List.length
                  a.(CleverAssistant.conversation)
                    .(ConversationManager.requests))
           /\ exists events last,
                reply = Streamed sse_headers ([SseStart] ++ events ++ [last])
                /\ match last with
                   | SseEnd response =>
                       if response.(ConversationManager.success)
                       then exists answer,
                              response.(ConversationManager.r_content)
                              = Some answer
                              /\ a'.(CleverAssistant.conversation)
                                   .(ConversationManager.conversationHistory)
                                 = h ++ [ sent;
                                          {| ConversationManager.role :=
                                               ConversationManager.assistant;
                                             ConversationManager.content :=
                                               answer;
                                             ConversationManager.timestamp :=
                                               now' |} ]
                       else a'.(CleverAssistant.conversation)
                              .(ConversationManager.conversationHistory)
                            = h
                   | _ => False
                   end
       end.
Proof.
  intros Hmsg Htruthy h sent. unfold postChatStream.
  rewrite Hmsg, Htruthy. cbn [negb].
  assert (Hstream : forall o,
    let '(outcome, chunks, conv) :=
      ConversationManager.chatStream remote now now' text o
        (Some write_chunk) a.(CleverAssistant.conversation) in
    List.length conv.(ConversationManager.requests)
    = S (List.length
           a.(CleverAssistant.conversation).(ConversationManager.requests))
    /\ match (match outcome with
              | JS.Return response => SseEnd response
              | JS.Throw e => SseError e
              end) with
       | SseEnd response =>
           if response.(ConversationManager.success)
           then exists answer,
                  response.(ConversationManager.r_content) = Some answer
                  /\ conv.(ConversationManager.conversationHistory)
                     = h ++ [ sent;
                              {| ConversationManager.role :=
                                   ConversationManager.assistant;
                                 ConversationManager.content := answer;
                                 ConversationManager.timestamp := now' |} ]
           else conv.(ConversationManager.conversationHistory) = h
       | _ => False
       end).
  { intros o.
    pose proof (chatStream_trace remote now now' text o (Some write_chunk)
                  (CleverAssistant.conversation a)) as H.
    cbv zeta in H.
    pose proof (chatStream_returns remote now now' text o write_chunk
                  (CleverAssistant.conversation a) (fun _ => eq_refl))
      as Hret.
    destruct (ConversationManager.chatStream remote now now' text o
                (Some write_chunk) (CleverAssistant.conversation a))
      as [[outcome chunks] conv].
    cbn [fst snd] in *. destruct H as (Hh & Hreq).
    split; [exact Hreq|].
    destruct outcome as [x|e]; [exact Hh|].
    destruct Hret as [x Hx]. discriminate Hx. }
  destruct (sb_options body) as [| |o].
  - specialize (Hstream ConversationManager.noOptions).
    destruct (ConversationManager.chatStream remote now now' text
                ConversationManager.noOptions (Some write_chunk)
                (CleverAssistant.conversation a)) as [[outcome chunks] conv].
    destruct Hstream as [Hreq Hlast].
    eexists. eexists. split; [reflexivity|].
    split; [reflexivity|]. split; [reflexivity|]. split; [exact Hreq|].
    eexists. eexists. split; [reflexivity | exact Hlast].
  - eexists. eexists. split; [reflexivity|].
    split; [reflexivity|]. split; [reflexivity|].
    split; [eexists; reflexivity|]. split; reflexivity.
  - specialize (Hstream o).
    destruct (ConversationManager.chatStream remote now now' text o
                (Some write_chunk) (CleverAssistant.conversation a))
      as [[outcome chunks] conv].
    destruct Hstream as [Hreq Hlast].
    eexists. eexists. split; [reflexivity|].
    split; [reflexivity|]. split; [reflexivity|]. split; [exact Hreq|].
    eexists. eexists. split; [reflexivity | exact Hlast].
Qed.

Lemma postChatStream_bypasses_budget_and_cache_witness :
  (hi_null_body.(sb_message) = TextMessage "hi"
   /\ JS.truthy "hi" = true
   /\ overBudget demo_assistant_after_call = true)
  /\ exists reply a',
       postChatStream demo_stream 3000 4000 hi_null_body
         demo_assistant_after_call = Some (reply, a')
       /\ a'.(CleverAssistant.tokenTracker)
          = demo_assistant_after_call.(CleverAssistant.tokenTracker).
Proof.
  assert (H0 : overBudget demo_assistant_after_call = true)
    by (vm_compute; reflexivity).
  split; [split; [reflexivity | split; [reflexivity | exact H0]]|].
  destruct (postChatStream_bypasses_budget_and_cache demo_stream 3000 4000
              hi_null_body "hi" demo_assistant_after_call eq_refl eq_refl)
    as (reply & a' & Hpost & Htracker & _).
  exists reply, a'. split; [exact Hpost | exact Htracker].
Defined.

(** X30.  The statuses of [POST /chat].  A body without a message, or with
    an empty one, is refused with status 400 and the assistant is not
    touched.  With a message, an assistant that is over budget answers
    with status 200 and a body with [success: false]: the refusal is not an
    HTTP error.  Otherwise the reply is what [sendMessage] returns for the
    message and the options of the body, with status 200 (a failure of the
    remote model included), and status 500 only when [sendMessage]
    throws. *)
Theorem postChat_statuses (cfg : Config.t)
    (remote : ConversationManager.Remote) (now now' : Z) (body : Body)
    (a : CleverAssistant.t) :
  let reply := fst (postChat cfg remote now now' body a) in
  let a' := snd (postChat cfg remote now now' body a) in
  (has_message body = false ->
   reply.(status) = 400
   /\ reply.(json).(ConversationManager.success) = false
   /\ a' = a)
  /\ (has_message body = true ->
      overBudget a = true ->
      reply = {| status := 200;
                 json := ConversationManager.failure "已超出预算限制" |}
      /\ a' = a)
  /\ (has_message body = true ->
      forall text, body.(message) = Some text ->
      match CleverAssistant.sendMessage cfg remote now now' text
              (options_of body) a with
      | (JS.Return response, a1) =>
          reply = {| status := 200; json := response |} /\ a' = a1
      | (JS.Throw e, a1) =>
          reply.(status) = 500
          /\ reply.(json).(ConversationManager.success) = false
          /\ a' = a1
      end).
Proof.
  cbv zeta. unfold postChat, has_message.
  destruct (message body) as [text|]; [|repeat split; discriminate].
  destruct (JS.truthy text) eqn:Ht; cbn [negb].
  - split; [discriminate|]. split.
    + intros _ Hover. unfold overBudget in Hover.
      unfold CleverAssistant.sendMessage.
      destruct (TokenTracker.checkBudget (CleverAssistant.tokenTracker a))
        as [st tracker] eqn:Hcb.
      simpl in Hover. rewrite Hover.
      assert (tracker = CleverAssistant.tokenTracker a)
        by (unfold TokenTracker.checkBudget in Hcb; congruence).
      subst tracker. destruct a; split; reflexivity.
    + intros _ text' [= <-].
      destruct (CleverAssistant.sendMessage cfg remote now now' text
                  (options_of body) a) as [[response|e] a1];
        repeat split.
  - split; [repeat split|]. split; discriminate.
Qed.

End RoutesMore.
